(** * Knative serving: the load-driven scale measurement and the
      ServerlessService condition lifecycle

    Shallow embedding of

    - the performance test of package [performance]:
      [TestScaleRevisionByLoad] and [scaleRevisionByLoad] (the Endpoints
      informer handler, the load run, the junit records);
    - [pkg/apis/networking/v1alpha1/serverlessservice_lifecycle.go].

    Go values are modelled as the code has them: [int], [int64] and
    [time.Duration] as [Z] with the 64-bit wrap-around or saturation written
    out, [float32]/[float64] as IEEE-754 binary32/binary64 values
    ([spec_float] with the Standard Library's rounding), strings as [string],
    slices as lists.  The collaborators that live outside the two files (the
    cluster, the informer machinery, the load generator, the report sink) are
    an explicit environment whose answers are inputs of the model. *)

From Stdlib Require Import ZArith String Ascii List DecimalString SpecFloat Lia.
From stdpp Require Import gmap strings list.

Local Open Scope Z_scope.

(** ** Go primitives used by the two files *)

Module Go.

(** [int] and [int64] on a 64-bit platform. *)
Definition minInt64 : Z := - 2 ^ 63.
Definition maxInt64 : Z := 2 ^ 63 - 1.

Definition wrap64 (z : Z) : Z := (z + 2 ^ 63) mod 2 ^ 64 - 2 ^ 63.

Definition int_mul (a b : Z) : Z := wrap64 (a * b).

(** Integer division truncates toward zero; the divisors of the harness are
    non-zero constants. *)
Definition int_div (a b : Z) : Z := wrap64 (Z.quot a b).

(** *** [time] *)

(** An instant, in nanoseconds on one time line. *)
Definition Time := Z.
(** [time.Duration] is an [int64] count of nanoseconds. *)
Definition Duration := Z.

Definition Second : Duration := 1000000000.

(** [t.Sub(u)]: the difference, saturated to the range of [Duration]. *)
Definition Sub (t u : Time) : Duration :=
  let d := t - u in
  if d <? minInt64 then minInt64
  else if maxInt64 <? d then maxInt64
  else d.

(** *** Floating point: binary32 and binary64, round to nearest even *)

Definition float32 := spec_float.
Definition float64 := spec_float.

Definition float32_of_int (n : Z) : float32 := binary_normalize 24 128 n 0 false.
Definition float64_of_int (n : Z) : float64 := binary_normalize 53 1024 n 0 false.

(** The conversion [float32(x)] of a [float64]. *)
Definition float32_of_float64 (x : float64) : float32 :=
  match x with
  | S754_finite s m e => binary_round 24 128 s m e
  | _ => x
  end.

Definition float32_mul : float32 -> float32 -> float32 := SFmul 24 128.
Definition float64_mul : float64 -> float64 -> float64 := SFmul 53 1024.

(** The conversion [int(x)] of a [float64] discards the fraction.  Outside
    the range of [int] the language leaves the result to the
    implementation; amd64's conversion instruction answers the smallest
    [int64], which is what is written here. *)
Definition int_of_float64 (x : float64) : Z :=
  match x with
  | S754_zero _ => 0
  | S754_finite s m e =>
      let a := if 0 <=? e then Z.pos m * 2 ^ e else Z.pos m / 2 ^ (- e) in
      let v := if s then - a else a in
      if (minInt64 <=? v) && (v <=? maxInt64) then v else minInt64
  | _ => minInt64
  end.

(** *** [strings] and [fmt] *)

(** [strings.Contains(s, substr)]. *)
Fixpoint Contains (s substr : string) : bool :=
  String.prefix substr s
  || match s with
     | EmptyString => false
     | String _ s' => Contains s' substr
     end.

(** [strings.Replace(s, "/", "_", -1)]. *)
Fixpoint ReplaceSlash (s : string) : string :=
  match s with
  | EmptyString => EmptyString
  | String c s' =>
      String (if Ascii.eqb c "/"%char then "_"%char else c) (ReplaceSlash s')
  end.

Fixpoint zeros (n : nat) : string :=
  match n with
  | O => EmptyString
  | S n' => String "0"%char (zeros n')
  end.

(** The verb [%0<width>d]: sign, then zero padding up to [width]
    characters in all, then the decimal digits. *)
Definition Sprintf_0d (width : nat) (n : Z) : string :=
  let digits := NilZero.string_of_uint (N.to_uint (Z.abs_N n)) in
  let sign := if n <? 0 then "-"%string else ""%string in
  sign +:+ zeros (width - String.length sign - String.length digits) +:+ digits.

(** The verb [%d]. *)
Definition Sprintf_d (n : Z) : string := Sprintf_0d 0 n.

End Go.

(** ** The performance test: data *)

Definition qpsPerClient : Z := 10.
Definition iterationDuration : Go.Duration := 60 * Go.Second.
Definition processingTimeMillis : Z := 100.
Definition targetConcurrency : Z := 10.

Definition concurrentClients : list Z := [10; 20; 40; 80; 160; 320].

Record scaleEvent := {
  oldScale : Z;
  newScale : Z;
  timestamp : Go.Time;
}.

(** A [junit.TestCase] of the report.  The harness builds every one of them
    with [perf.CreatePerfTestCase(metricValue, metricName, testName)]; the
    record keeps the three arguments of that call. *)
Record TestCase := CreatePerfTestCase {
  metricValue : Go.float32;
  metricName : string;
  testName : string;
}.

(** What the load generator hands back, as far as the harness reads it. *)
Record stats_Percentile := {
  Percentile : Go.float64;
  Value : Go.float64;
}.

Record HistogramData := {
  Count : Z;
  Percentiles : list stats_Percentile;
}.

Record HTTPRunnerResults := {
  DurationHistogram : HistogramData;
  ActualQPS : Go.float64;
  StartTime : Go.Time;
}.

Record GeneratorResults := {
  Result : list HTTPRunnerResults;
}.

Record GeneratorOptions := {
  Duration : Go.Duration;
  NumThreads : Z;
  NumConnections : Z;
  Domain : string;
  BaseQPS : Go.float64;
  URL : string;
  LoadFactors : list Go.float64;
  FileNamePrefix : string;
}.

(** A Go call that returns [(value, error)]. *)
Inductive result (A : Type) :=
  | Ok (a : A)
  | Err (err : string).
Arguments Ok {A} a.
Arguments Err {A} err.

(** The operations of the packages next to the harness that it calls on the
    objects it is handed: the name of an Endpoints object,
    [resources.ReadyAddressCount] (package [pkg/resources] of this
    repository) and the load generator's [ErrorsPercentage(idx)]. *)
Class Collaborators (Endpoints : Type) := {
  GetName : Endpoints -> string;
  ReadyAddressCount : Endpoints -> Z;
  ErrorsPercentage : GeneratorResults -> Z -> Go.float64;
}.

(** *** The shared store

    Every run of [scaleRevisionByLoad] makes its own [scaleEvents] slice,
    [scaleEventsMutex] and [stopCh], and hands them to the closure it
    registers with its informer.  The store keeps these variables per run,
    under the location allocated for the run, so that a handler that is
    still registered when a later tier runs is part of the model. *)

Definition loc := nat.

Record Watch := {
  names_Service : string;      (* [names.Service], captured by the handler *)
  scaleEvents : list scaleEvent;
  scaleEventsMutex : bool;     (* held by the goroutine of the test *)
  stopCh : bool;               (* closed *)
  informerStarted : bool;      (* handler registered and informer started *)
}.

Definition set_scaleEvents (evs : list scaleEvent) (wt : Watch) : Watch :=
  {| names_Service := names_Service wt; scaleEvents := evs;
     scaleEventsMutex := scaleEventsMutex wt; stopCh := stopCh wt;
     informerStarted := informerStarted wt |}.

Definition set_scaleEventsMutex (b : bool) (wt : Watch) : Watch :=
  {| names_Service := names_Service wt; scaleEvents := scaleEvents wt;
     scaleEventsMutex := b; stopCh := stopCh wt;
     informerStarted := informerStarted wt |}.

Definition set_stopCh (b : bool) (wt : Watch) : Watch :=
  {| names_Service := names_Service wt; scaleEvents := scaleEvents wt;
     scaleEventsMutex := scaleEventsMutex wt; stopCh := b;
     informerStarted := informerStarted wt |}.

Definition set_informerStarted (b : bool) (wt : Watch) : Watch :=
  {| names_Service := names_Service wt; scaleEvents := scaleEvents wt;
     scaleEventsMutex := scaleEventsMutex wt; stopCh := stopCh wt;
     informerStarted := b |}.

(** The calls with an effect outside the process, in the order made. *)
Inductive Action :=
  | ActRun (name : string)
  | ActTearDown (service : string)
  | ActStartInformers (l : loc)
  | ActRunLoadTest (opts : GeneratorOptions)
  | ActCloseStopCh (l : loc)
  | ActSaveJSON
  | ActCreateXMLOutput (tc : list TestCase) (name : string).

Record World := {
  heap : gmap loc Watch;
  actions : list Action;
}.

Definition emptyWorld : World := {| heap := ∅; actions := [] |}.

Definition set_heap (f : gmap loc Watch -> gmap loc Watch) (w : World) : World :=
  {| heap := f (heap w); actions := actions w |}.

Definition act (a : Action) (w : World) : World :=
  {| heap := heap w; actions := actions w ++ [a] |}.

(** *** How a test function ends

    [Returned]: the function returns.  [Fatalf]: [t.Fatalf] marks the test
    failed and ends its goroutine ([runtime.Goexit]).  [Panic]: a run-time
    panic.  The deferred calls run in all three cases. *)
Inductive Outcome (A : Type) :=
  | Returned (a : A)
  | Fatalf (msg : string)
  | Panic (msg : string).
Arguments Returned {A} a.
Arguments Fatalf {A} msg.
Arguments Panic {A} msg.

Definition Test (A : Type) : Type := World -> World * Outcome A.

Definition ret {A} (a : A) : Test A := fun w => (w, Returned a).

Definition bind {A B} (m : Test A) (k : A -> Test B) : Test B :=
  fun w =>
    match m w with
    | (w', Returned a) => k a w'
    | (w', Fatalf msg) => (w', Fatalf msg)
    | (w', Panic msg) => (w', Panic msg)
    end.

#[global] Instance Test_ret : MRet Test := @ret.
#[global] Instance Test_bind : MBind Test := fun A B k m => bind m k.

Definition fatalf {A} (msg : string) : Test A := fun w => (w, Fatalf msg).
Definition panic {A} (msg : string) : Test A := fun w => (w, Panic msg).

(** [defer d] followed by [body]: [d] runs when [body] ends, however it
    ends. *)
Definition defer {A} (d : World -> World) (body : Test A) : Test A :=
  fun w => let '(w', r) := body w in (d w', r).

Definition perform (f : World -> World) : Test unit := fun w => (f w, Returned tt).

(** [v, err := call; if err != nil { t.Fatalf(msg, err) }]. *)
Definition orFatalf {A} (msg : string) (r : result A) : Test A :=
  match r with
  | Ok a => ret a
  | Err err => fatalf (msg +:+ err)
  end.

(** ** The performance test: behaviour *)

Section Harness.

Context {Endpoints : Type} `{!Collaborators Endpoints}.

(** *** The informer's update handler (the [UpdateFunc] closure)

    [wt] holds the variables the closure captured, [now] is the reading of
    [time.Now()].  [None]: the handler has an event to append and the
    mutex is held by the test's goroutine, so the handler's goroutine is
    parked in [Lock]; it can proceed only after the deferred [Unlock],
    which runs when [scaleRevisionByLoad] has returned its records, and
    what it appends then is read by nobody. *)
Definition UpdateFunc (wt : Watch) (oldObj newObj : Endpoints) (now : Go.Time)
  : option Watch :=
  let newEndpoints := newObj in
  if Go.Contains (GetName newEndpoints) (names_Service wt) then
    let newNumAddresses := ReadyAddressCount newEndpoints in
    let oldNumAddresses := ReadyAddressCount oldObj in
    if negb (newNumAddresses =? oldNumAddresses) then
      let event := {| oldScale := oldNumAddresses;
                      newScale := newNumAddresses;
                      timestamp := now |} in
      if scaleEventsMutex wt then None
      else Some (set_scaleEvents (scaleEvents wt ++ [event]) wt)
    else Some wt
  else Some wt.

(** One update notification, as the informer machinery delivers it: the
    informer it comes from (the location of the run that started it), the
    two objects, and the clock when the handler runs. *)
Record Notification := {
  informer : loc;
  oldObj : Endpoints;
  newObj : Endpoints;
  now : Go.Time;
}.

(** The handler is called only by an informer that has been started; the
    handler itself never looks at [stopCh]. *)
Definition deliver (n : Notification) (w : World) : World :=
  match heap w !! informer n with
  | Some wt =>
      if informerStarted wt then
        match UpdateFunc wt (oldObj n) (newObj n) (now n) with
        | Some wt' => set_heap (<[informer n := wt']>) w
        | None => w
        end
      else w
  | None => w
  end.

Definition deliverAll (ns : list Notification) (w : World) : World :=
  fold_left (fun w n => deliver n w) ns w.

(** *** The answers of the outside world during one tier

    The handlers run on goroutines of the informers.  The model runs each
    call of a handler in one piece, between two steps of the goroutine of
    the test, and lists the calls by the window of [scaleRevisionByLoad] in
    which they fall; the calls made by informers that earlier tiers left
    running are among them.  [close(stopCh)] asks the informer to stop and
    does not wait for it, so there is a window after it. *)
Record TierEnv := {
  Setup : result unit;
  ObjectNameForTest : string;
  CreateRunLatestServiceReady : result string;  (* [objs.Route.Status.URL.Host] *)
  GetIngressEndpoint : result string;
  WaitForEndpointState : result unit;
  RunLoadTest : GeneratorOptions -> result GeneratorResults;
  beforeWatch : list Notification;   (* before this tier's informer starts *)
  duringLoad : list Notification;    (* from [StartInformers] to the end of the load run *)
  afterStop : list Notification;     (* after [close(stopCh)], before [Lock] *)
  whileLocked : list Notification;   (* while the test holds the mutex *)
}.

(** *** The steps of [scaleRevisionByLoad] on the store *)

Definition TearDown (service : string) : World -> World :=
  act (ActTearDown service).

(** [make([]*scaleEvent, 0, cap)], [var scaleEventsMutex sync.Mutex] and
    [make(chan struct{})].  A negative capacity panics; the limits of the
    allocator are not modelled. *)
Definition makeWatch (service : string) (cap : Z) : Test loc :=
  fun w =>
    if cap <? 0 then (w, Panic "makeslice: cap out of range")
    else
      let l := fresh (dom (heap w)) in
      let wt := {| names_Service := service; scaleEvents := [];
                   scaleEventsMutex := false; stopCh := false;
                   informerStarted := false |} in
      (set_heap (<[l := wt]>) w, Returned l).

(** [AddEventHandler] and [controller.StartInformers(stopCh, ...)]; the
    error [StartInformers] returns is dropped by the harness. *)
Definition StartInformers (l : loc) : World -> World :=
  fun w => act (ActStartInformers l) (set_heap (alter (set_informerStarted true) l) w).

Definition closeStopCh (l : loc) : World -> World :=
  fun w => act (ActCloseStopCh l) (set_heap (alter (set_stopCh true) l) w).

Definition Lock (l : loc) : World -> World :=
  set_heap (alter (set_scaleEventsMutex true) l).

Definition Unlock (l : loc) : World -> World :=
  set_heap (alter (set_scaleEventsMutex false) l).

Definition readScaleEvents (l : loc) : Test (list scaleEvent) :=
  fun w => (w, Returned (from_option scaleEvents [] (heap w !! l))).

(** [resp.Result[0]]: an index out of range panics. *)
Definition Result0 (resp : GeneratorResults) : Test HTTPRunnerResults :=
  match Result resp with
  | r :: _ => mret r
  | [] => panic "runtime error: index out of range"
  end.

(** *** The records *)

Definition fixedMetrics (t_Name : string) (numClients : Z)
    (resp : GeneratorResults) (r0 : HTTPRunnerResults) : list TestCase :=
  [ CreatePerfTestCase (Go.float32_of_int (Count (DurationHistogram r0)))
      "requestCount" t_Name;
    CreatePerfTestCase (Go.float32_of_int (Go.int_mul qpsPerClient numClients))
      "requestedQPS" t_Name;
    CreatePerfTestCase (Go.float32_of_float64 (ActualQPS r0))
      "actualQPS" t_Name;
    CreatePerfTestCase (Go.float32_of_float64 (ErrorsPercentage resp 0))
      "errorsPercentage" t_Name ].

Definition scaleRecord (t_Name : string) (startTime : Go.Time) (ev : scaleEvent)
  : TestCase :=
  CreatePerfTestCase
    (Go.float32_of_int (Go.int_div (Go.Sub (timestamp ev) startTime) Go.Second))
    ("scale-from-" +:+ Go.Sprintf_0d 2 (oldScale ev) +:+ "-to-"
       +:+ Go.Sprintf_0d 2 (newScale ev) +:+ "(seconds)")
    t_Name.

Definition percentileRecord (t_Name : string) (p : stats_Percentile) : TestCase :=
  let val := Go.float32_mul (Go.float32_of_float64 (Value p)) (Go.float32_of_int 1000) in
  let name := ("p" +:+ Go.Sprintf_d (Go.int_of_float64 (Percentile p)) +:+ "(ms)")%string in
  CreatePerfTestCase val name t_Name.

Definition makeOpts (t_Name : string) (numClients : Z) (domain endpoint : string)
  : GeneratorOptions :=
  {| Duration := iterationDuration;
     NumThreads := numClients;
     NumConnections := numClients;
     Domain := domain;
     BaseQPS := Go.float64_mul (Go.float64_of_int qpsPerClient)
                  (Go.float64_of_int numClients);
     URL := "http://" +:+ endpoint +:+ "/?timeout="
              +:+ Go.Sprintf_d processingTimeMillis;
     LoadFactors := [Go.float64_of_int 1];
     FileNamePrefix := Go.ReplaceSlash t_Name |}.

(** *** [scaleRevisionByLoad(t, numClients)]; [t_Name] is [t.Name()] *)
Definition scaleRevisionByLoad (env : TierEnv) (t_Name : string) (numClients : Z)
  : Test (list TestCase) :=
  perform (deliverAll (beforeWatch env));;
  orFatalf "Cannot initialize performance client: " (Setup env);;
  let service := ObjectNameForTest env in
  defer (TearDown service) (
    domain ← orFatalf "Failed to create Service: " (CreateRunLatestServiceReady env);
    endpoint ← orFatalf "Cannot get service endpoint: " (GetIngressEndpoint env);
    orFatalf ("The endpoint at domain " +:+ domain
                +:+ " didn't serve the expected response: ")
             (WaitForEndpointState env);;
    l ← makeWatch service
          (Go.int_mul (Go.int_div numClients targetConcurrency) 10);
    perform (StartInformers l);;
    let opts := makeOpts t_Name numClients domain endpoint in
    perform (act (ActRunLoadTest opts));;
    perform (deliverAll (duringLoad env));;
    resp ← orFatalf "Generating traffic via fortio failed: " (RunLoadTest env opts);
    perform (closeStopCh l);;
    perform (deliverAll (afterStop env));;
    perform (act ActSaveJSON);;
    r0 ← Result0 resp;
    let tc := fixedMetrics t_Name numClients resp r0 in
    perform (Lock l);;
    defer (Unlock l) (
      perform (deliverAll (whileLocked env));;
      evs ← readScaleEvents l;
      let tc := tc ++ map (scaleRecord t_Name (StartTime r0)) evs in
      let tc := tc ++ map (percentileRecord t_Name) (Percentiles (DurationHistogram r0)) in
      mret tc)).

(** *** [TestScaleRevisionByLoad]

    [t.Run] runs the subtest in a goroutine of its own and waits for it.
    A subtest that ends in [t.Fatalf] makes [t.Run] answer [false]; the
    loop drops that answer and goes on.  A panic in a subtest ends the
    test binary.  [env n] is the outside world during the subtest for
    [n] clients. *)
Definition subtestName (t_Name : string) (numClients : Z) : string :=
  t_Name +:+ "/" +:+ "clients-" +:+ Go.Sprintf_0d 3 numClients.

Fixpoint runTiers (env : Z -> TierEnv) (t_Name : string) (tiers : list Z)
    (tc : list TestCase) (w : World) : World * Outcome (list TestCase) :=
  match tiers with
  | [] => (w, Returned tc)
  | numClients :: rest =>
      let name := subtestName t_Name numClients in
      match scaleRevisionByLoad (env numClients) name numClients
              (act (ActRun name) w) with
      | (w', Returned recs) => runTiers env t_Name rest (tc ++ recs) w'
      | (w', Fatalf _) => runTiers env t_Name rest tc w'
      | (w', Panic msg) => (w', Panic msg)
      end
  end.

(** [xml] is the answer of [testgrid.CreateXMLOutput]. *)
Definition TestScaleRevisionByLoad (env : Z -> TierEnv) (xml : result unit)
  : Test unit :=
  let t_Name := "TestScaleRevisionByLoad"%string in
  tc ← runTiers env t_Name concurrentClients [];
  perform (act (ActCreateXMLOutput tc t_Name));;
  orFatalf "Cannot create output XML: " xml.

(** *** Vocabulary of the statements *)

(** The notification is about the service under test. *)
Definition matches (service : string) (n : Notification) : bool :=
  Go.Contains (GetName (newObj n)) service.

(** The ready count differs between the two objects of the notification. *)
Definition changed (n : Notification) : bool :=
  negb (ReadyAddressCount (newObj n) =? ReadyAddressCount (oldObj n)).

Definition eventOf (n : Notification) : scaleEvent :=
  {| oldScale := ReadyAddressCount (oldObj n);
     newScale := ReadyAddressCount (newObj n);
     timestamp := now n |}.

(** The events that the handler of informer [l], registered for [service],
    appends for the notifications [ns] while the mutex is free. *)
Definition recorded (service : string) (l : loc) (ns : list Notification)
  : list scaleEvent :=
  map eventOf
    (filter (fun n => informer n = l ∧ matches service n = true ∧ changed n = true) ns).

(** The notifications that informer [l] delivers for one object that it
    saw in the state [last] and now sees in the states [seen], one after
    the other: each carries the state before and the state after. *)
Fixpoint observed (l : loc) (last : Endpoints) (seen : list (Endpoints * Go.Time))
  : list Notification :=
  match seen with
  | [] => []
  | (s, t) :: rest =>
      {| informer := l; oldObj := last; newObj := s; now := t |} :: observed l s rest
  end.

(** The changes in a sequence of ready counts observed after the count
    [last]. *)
Fixpoint changes (last : Z) (counts : list (Z * Go.Time)) : list scaleEvent :=
  match counts with
  | [] => []
  | (c, t) :: rest =>
      (if c =? last then []
       else [ {| oldScale := last; newScale := c; timestamp := t |} ])
      ++ changes c rest
  end.

(** The watch a run creates, after its informer is started. *)
Definition startedWatch (service : string) (evs : list scaleEvent)
    (locked closed : bool) : Watch :=
  {| names_Service := service; scaleEvents := evs; scaleEventsMutex := locked;
     stopCh := closed; informerStarted := true |}.

(** What the notifications [ns] do to the variables [wt] of the run at
    [l]: its handler appends while its informer is started and the mutex is
    free; otherwise the variables stay as they are. *)
Definition handled (l : loc) (ns : list Notification) (wt : Watch) : Watch :=
  if informerStarted wt && negb (scaleEventsMutex wt)
  then set_scaleEvents (scaleEvents wt ++ recorded (names_Service wt) l ns) wt
  else wt.

(** The names of the subtests started with [t.Run], in order. *)
Definition subtestsRun (acts : list Action) : list string :=
  omap (fun a => match a with ActRun name => Some name | _ => None end) acts.

(** How each tier of a sweep ends, in order; nothing follows a panic. *)
Fixpoint tierOutcomes (env : Z -> TierEnv) (t_Name : string) (tiers : list Z)
    (w : World) : list (Outcome (list TestCase)) :=
  match tiers with
  | [] => []
  | numClients :: rest =>
      let name := subtestName t_Name numClients in
      let '(w', o) := scaleRevisionByLoad (env numClients) name numClients
                        (act (ActRun name) w) in
      o :: match o with
           | Panic _ => []
           | _ => tierOutcomes env t_Name rest w'
           end
  end.

Definition recordsOf (o : Outcome (list TestCase)) : list TestCase :=
  match o with
  | Returned recs => recs
  | _ => []
  end.

Definition isPanic {A} (o : Outcome A) : bool :=
  match o with
  | Panic _ => true
  | _ => false
  end.

Definition set_whileLocked (ns : list Notification) (env : TierEnv) : TierEnv :=
  {| Setup := Setup env;
     ObjectNameForTest := ObjectNameForTest env;
     CreateRunLatestServiceReady := CreateRunLatestServiceReady env;
     GetIngressEndpoint := GetIngressEndpoint env;
     WaitForEndpointState := WaitForEndpointState env;
     RunLoadTest := RunLoadTest env;
     beforeWatch := beforeWatch env;
     duringLoad := duringLoad env;
     afterStop := afterStop env;
     whileLocked := ns |}.

(** The tier fails before it makes its watcher: an error of the setup, of
    the creation of the service, of the endpoint lookup or of the readiness
    probe, or a negative capacity for the log. *)
Definition failsEarly (env : TierEnv) (numClients : Z) : Prop :=
  (exists err, Setup env = Err err)
  \/ (exists err, CreateRunLatestServiceReady env = Err err)
  \/ (exists err, GetIngressEndpoint env = Err err)
  \/ (exists err, WaitForEndpointState env = Err err)
  \/ (Go.int_mul (Go.int_div numClients targetConcurrency) 10 <? 0) = true.

(** The outside calls a tier makes between its setup and its teardown. *)
Definition isHarnessStep (a : Action) : bool :=
  match a with
  | ActStartInformers _ | ActRunLoadTest _ | ActCloseStopCh _ | ActSaveJSON => true
  | _ => false
  end.

(** What the XML sink was handed, call by call. *)
Definition xmlOutputs (acts : list Action) : list (list TestCase * string) :=
  omap (fun a => match a with
                 | ActCreateXMLOutput tc name => Some (tc, name)
                 | _ => None
                 end) acts.

(** No mutex of the store is held. *)
Definition unlockedStore (w : World) : Prop :=
  forall l wt, heap w !! l = Some wt -> scaleEventsMutex wt = false.

End Harness.

Arguments Notification : clear implicits.
Arguments TierEnv : clear implicits.

(** ** The ServerlessService condition lifecycle *)

(** *** The condition manager of [knative.dev/pkg/apis]

    The part of the library that [serverlessservice_lifecycle.go] calls in
    the methods studied here, written after the library's documented
    behaviour: [SetCondition] "sets or updates the Condition on Conditions
    for Condition.Type; if there is an update, Conditions are stored back
    sorted", [IsHappy] "looks at the happy condition and returns true if
    that condition is set to true". *)
Module apis.

Definition ConditionType := string.

Definition ConditionReady : ConditionType := "Ready".

(** [corev1.ConditionStatus] and [apis.ConditionSeverity] are strings. *)
Definition ConditionTrue : string := "True".
Definition ConditionFalse : string := "False".
Definition ConditionSeverityInfo : string := "Info".

Record Condition := {
  CondType : ConditionType;      (* the field [Type] *)
  Status : string;
  Severity : string;
  LastTransitionTime : Go.Time;
  Reason : string;
  Message : string;
}.

#[global] Instance Condition_eq_dec : EqDecision Condition.
Proof. solve_decision. Defined.

Definition Conditions := list Condition.

Record ConditionSet := {
  happy : ConditionType;
  dependents : list ConditionType;
}.

(** [newConditionSet(happy, dependents...)] skips the duplicates. *)
Definition newConditionSet (happy : ConditionType) (ds : list ConditionType)
  : ConditionSet :=
  {| happy := happy;
     dependents :=
       fold_left (fun deps d =>
                    if bool_decide (d = happy) || bool_decide (d ∈ deps)
                    then deps else deps ++ [d]) ds [] |}.

Definition NewLivingConditionSet (ds : list ConditionType) : ConditionSet :=
  newConditionSet ConditionReady ds.

Definition IsTrue (c : Condition) : bool := bool_decide (Status c = ConditionTrue).

(** [GetCondition(t)]: the first condition of type [t]. *)
Definition GetCondition (cs : Conditions) (t : ConditionType) : option Condition :=
  find (fun c => bool_decide (CondType c = t)) cs.

Definition IsHappy (r : ConditionSet) (cs : Conditions) : bool :=
  match GetCondition cs (happy r) with
  | Some c => IsTrue c
  | None => false
  end.

Definition set_LastTransitionTime (t : Go.Time) (c : Condition) : Condition :=
  {| CondType := CondType c; Status := Status c; Severity := Severity c;
     LastTransitionTime := t; Reason := Reason c; Message := Message c |}.

(** [c] and [d] differ at most in their transition time. *)
Definition sameButTime (c d : Condition) : Prop :=
  set_LastTransitionTime 0 c = set_LastTransitionTime 0 d.

(** The loop of [SetCondition]: the conditions of another type are kept in
    order; at a condition of the type being set, [new] takes its
    transition time, and [None] is the early return taken when the two are
    then deeply equal (nothing but the time would change). *)
Fixpoint SetCondition_loop (new : Condition) (cs kept : Conditions)
  : option (Condition * Conditions) :=
  match cs with
  | [] => Some (new, kept)
  | c :: cs' =>
      if bool_decide (CondType c ≠ CondType new) then
        SetCondition_loop new cs' (kept ++ [c])
      else
        let new' := set_LastTransitionTime (LastTransitionTime c) new in
        if bool_decide (new' = c) then None
        else SetCondition_loop new' cs' kept
  end.

(** [sort.Slice(conditions, func(i, j int) bool { return
    conditions[i].Type < conditions[j].Type })], as the [sort] package of
    the Go releases of the time of this file runs it on a slice of at most
    twelve elements: one pass that swaps the elements six places apart
    that are out of order, then an insertion sort.  The insertion sort
    keeps the conditions of one type in the order it finds them; the pass
    before it can carry a condition over another one of its type, so the
    sort is not stable.  On more than twelve conditions the package first
    partitions the slice; that part is not written out here, and no
    statement below depends on the order the sort gives to conditions of
    one type in a slice that long. *)
Definition less (cs : Conditions) (i j : nat) : bool :=
  match cs !! i, cs !! j with
  | Some c, Some d => String.ltb (CondType c) (CondType d)
  | _, _ => false
  end.

Definition swap (cs : Conditions) (i j : nat) : Conditions :=
  match cs !! i, cs !! j with
  | Some c, Some d => <[j := c]> (<[i := d]> cs)
  | _, _ => cs
  end.

(** [for i := a + 6; i < b; i++ { if data.Less(i, i-6) { data.Swap(i, i-6) } }] *)
Definition shellPass (cs : Conditions) : Conditions :=
  fold_left (fun cs i => if less cs i (i - 6)%nat then swap cs i (i - 6)%nat else cs)
    (seq 6 (length cs - 6)) cs.

(** [for j := i; j > a && data.Less(j, j-1); j-- { data.Swap(j, j-1) }] *)
Fixpoint insertionStep (cs : Conditions) (j : nat) : Conditions :=
  match j with
  | O => cs
  | S j' => if less cs j j' then insertionStep (swap cs j j') j' else cs
  end.

(** [for i := a + 1; i < b; i++ { ... }] *)
Definition insertionSort (cs : Conditions) : Conditions :=
  fold_left insertionStep (seq 1 (length cs - 1)) cs.

Definition sortByType (cs : Conditions) : Conditions :=
  insertionSort (shellPass cs).

(** [SetCondition(new)] on the conditions [cs]; [now] is [time.Now()]. *)
Definition SetCondition (now : Go.Time) (new : Condition) (cs : Conditions)
  : Conditions :=
  match SetCondition_loop new cs [] with
  | None => cs
  | Some (new', kept) =>
      sortByType (kept ++ [set_LastTransitionTime now new'])
  end.

(** *** The marks of the condition manager

    [MarkTrue] "sets the status of t to true, and then marks the happy
    condition to true if all dependents are true"; [MarkFalse] "sets the
    status of t and the happy condition to False"; [MarkUnknown] "sets the
    status of t to Unknown and also sets the happy condition to Unknown if
    no other dependent condition is in an error state";
    [InitializeConditions] "updates all Conditions in the ConditionSet to
    Unknown if not set".

    A mark calls [SetCondition] more than once, and every call that stores
    reads [time.Now()].  [clock k] is the reading at the [k]-th store of
    one call of a mark, counted from 0; a mark threads the conditions and
    the number of stores made so far. *)
Definition ConditionUnknown : string := "Unknown".
Definition ConditionSeverityError : string := "".

Definition IsFalse (c : Condition) : bool := bool_decide (Status c = ConditionFalse).

(** [r.Manage(status)], at the start of a call. *)
Definition Manage (cs : Conditions) : Conditions * nat := (cs, 0%nat).

(** [isTerminal] and [severity]: the happy condition and its dependents are
    of severity [Error], every other condition of severity [Info]. *)
Definition isTerminal (r : ConditionSet) (t : ConditionType) : bool :=
  bool_decide (t ∈ dependents r) || bool_decide (t = happy r).

Definition severity (r : ConditionSet) (t : ConditionType) : string :=
  if isTerminal r t then ConditionSeverityError else ConditionSeverityInfo.

(** [SetCondition] in a mark: the clock is read only when the conditions
    are stored. *)
Definition store (clock : nat -> Go.Time) (new : Condition) (s : Conditions * nat)
  : Conditions * nat :=
  match SetCondition_loop new s.1 [] with
  | None => s
  | Some _ => (SetCondition (clock s.2) new s.1, S s.2)
  end.

(** [c.IsTrue()] and [c.IsFalse()] on the answer of [GetCondition], which is
    nil when there is no condition of the type: both are false on nil. *)
Definition isTrue (c : option Condition) : bool := from_option IsTrue false c.
Definition isFalse (c : option Condition) : bool := from_option IsFalse false c.

Definition MarkTrue (r : ConditionSet) (clock : nat -> Go.Time) (t : ConditionType)
    (s : Conditions * nat) : Conditions * nat :=
  let s := store clock {| CondType := t; Status := ConditionTrue;
                          Severity := severity r t; LastTransitionTime := 0;
                          Reason := ""; Message := "" |} s in
  if forallb (fun cond => isTrue (GetCondition s.1 cond)) (dependents r)
  then store clock {| CondType := happy r; Status := ConditionTrue;
                      Severity := severity r (happy r); LastTransitionTime := 0;
                      Reason := ""; Message := "" |} s
  else s.

Definition MarkFalse (r : ConditionSet) (clock : nat -> Go.Time) (t : ConditionType)
    (reason message : string) (s : Conditions * nat) : Conditions * nat :=
  let types :=
    t :: flat_map (fun cond => if bool_decide (cond = t) then [happy r] else [])
           (dependents r) in
  fold_left
    (fun s t => store clock {| CondType := t; Status := ConditionFalse;
                               Severity := severity r t; LastTransitionTime := 0;
                               Reason := reason; Message := message |} s)
    types s.

(** The loop of [MarkUnknown] over the dependents: a dependent that is
    [False] ends it, after the happy condition is made [False] if it is
    not; [isDependent] tells whether [t] was met among the dependents. *)
Fixpoint MarkUnknown_loop (r : ConditionSet) (clock : nat -> Go.Time)
    (t : ConditionType) (reason message : string) (deps : list ConditionType)
    (isDependent : bool) (s : Conditions * nat) : Conditions * nat :=
  match deps with
  | [] =>
      if isDependent then
        store clock {| CondType := happy r; Status := ConditionUnknown;
                       Severity := severity r (happy r); LastTransitionTime := 0;
                       Reason := reason; Message := message |} s
      else s
  | cond :: deps' =>
      if isFalse (GetCondition s.1 cond) then
        if isFalse (GetCondition s.1 (happy r)) then s
        else MarkFalse r clock (happy r) reason message s
      else
        MarkUnknown_loop r clock t reason message deps'
          (isDependent || bool_decide (cond = t)) s
  end.

Definition MarkUnknown (r : ConditionSet) (clock : nat -> Go.Time) (t : ConditionType)
    (reason message : string) (s : Conditions * nat) : Conditions * nat :=
  let s := store clock {| CondType := t; Status := ConditionUnknown;
                          Severity := severity r t; LastTransitionTime := 0;
                          Reason := reason; Message := message |} s in
  MarkUnknown_loop r clock t reason message (dependents r) false s.

Definition InitializeCondition (r : ConditionSet) (clock : nat -> Go.Time)
    (t : ConditionType) (s : Conditions * nat) : Conditions * nat :=
  match GetCondition s.1 t with
  | Some _ => s
  | None =>
      store clock {| CondType := t; Status := ConditionUnknown;
                     Severity := severity r t; LastTransitionTime := 0;
                     Reason := ""; Message := "" |} s
  end.

Definition InitializeConditions (r : ConditionSet) (clock : nat -> Go.Time)
    (s : Conditions * nat) : Conditions * nat :=
  fold_left (fun s t => InitializeCondition r clock t s)
    (dependents r ++ [happy r]) s.

End apis.

(** *** [serverlessservice_lifecycle.go] *)

(** [duckv1beta1.Status], embedded in the status of a ServerlessService;
    the methods of the file read and write its conditions only. *)
Record duck_Status := {
  ObservedGeneration : Z;
  Conditions : apis.Conditions;
}.

Record ServerlessServiceStatus := {
  Status : duck_Status;
}.

Definition SetConditions (cs : apis.Conditions) (sss : ServerlessServiceStatus)
  : ServerlessServiceStatus :=
  {| Status := {| ObservedGeneration := ObservedGeneration (Status sss);
                  Conditions := cs |} |}.

Section Lifecycle.

(** The two condition types are constants of [serverlessservice_types.go]. *)
Variable ServerlessServiceConditionEndspointsPopulated : apis.ConditionType.
Variable ActivatorEndpointsPopulated : apis.ConditionType.

Definition serverlessServiceCondSet : apis.ConditionSet :=
  apis.NewLivingConditionSet [ServerlessServiceConditionEndspointsPopulated].

Definition GetCondition (sss : ServerlessServiceStatus) (t : apis.ConditionType)
  : option apis.Condition :=
  apis.GetCondition (Conditions (Status sss)) t.

Definition MarkActivatorEndpointsPopulated (now : Go.Time)
    (sss : ServerlessServiceStatus) : ServerlessServiceStatus :=
  SetConditions
    (apis.SetCondition now
       {| apis.CondType := ActivatorEndpointsPopulated;
          apis.Status := apis.ConditionTrue;
          apis.Severity := apis.ConditionSeverityInfo;
          apis.LastTransitionTime := 0;
          apis.Reason := "ActivatorEndpointsPopulated";
          apis.Message := "Revision is backed by Activator" |}
       (Conditions (Status sss)))
    sss.

Definition MarkActivatorEndpointsRemoved (now : Go.Time)
    (sss : ServerlessServiceStatus) : ServerlessServiceStatus :=
  SetConditions
    (apis.SetCondition now
       {| apis.CondType := ActivatorEndpointsPopulated;
          apis.Status := apis.ConditionFalse;
          apis.Severity := apis.ConditionSeverityInfo;
          apis.LastTransitionTime := 0;
          apis.Reason := "ActivatorEndpointsPopulated";
          apis.Message := "Revision is backed by Activator" |}
       (Conditions (Status sss)))
    sss.

Definition IsReady (sss : ServerlessServiceStatus) : bool :=
  apis.IsHappy serverlessServiceCondSet (Conditions (Status sss)).

(** The marks below go through [MarkTrue], [MarkFalse], [MarkUnknown] and
    [InitializeConditions] of the manager; [clock] holds the readings of
    [time.Now()] during the call. *)
Definition InitializeConditions (clock : nat -> Go.Time)
    (sss : ServerlessServiceStatus) : ServerlessServiceStatus :=
  SetConditions
    (apis.InitializeConditions serverlessServiceCondSet clock
       (apis.Manage (Conditions (Status sss)))).1
    sss.

Definition MarkEndpointsReady (clock : nat -> Go.Time)
    (sss : ServerlessServiceStatus) : ServerlessServiceStatus :=
  SetConditions
    (apis.MarkTrue serverlessServiceCondSet clock
       ServerlessServiceConditionEndspointsPopulated
       (apis.Manage (Conditions (Status sss)))).1
    sss.

Definition MarkEndpointsNotOwned (clock : nat -> Go.Time) (kind name : string)
    (sss : ServerlessServiceStatus) : ServerlessServiceStatus :=
  SetConditions
    (apis.MarkFalse serverlessServiceCondSet clock
       ServerlessServiceConditionEndspointsPopulated "NotOwned"
       ("Resource " +:+ name +:+ " of type " +:+ kind +:+ " is not owned by SKS")
       (apis.Manage (Conditions (Status sss)))).1
    sss.

Definition MarkEndpointsNotReady (clock : nat -> Go.Time) (reason : string)
    (sss : ServerlessServiceStatus) : ServerlessServiceStatus :=
  SetConditions
    (apis.MarkUnknown serverlessServiceCondSet clock
       ServerlessServiceConditionEndspointsPopulated reason "K8s Service is not ready"
       (apis.Manage (Conditions (Status sss)))).1
    sss.

End Lifecycle.

(** *** Vocabulary of the statements *)

(** The status has one condition per type. *)
Definition onePerType (sss : ServerlessServiceStatus) : Prop :=
  NoDup (apis.CondType <$> Conditions (Status sss)).

(** The condition that the marks of the manager build for the happy
    condition and for a dependent: its severity is [Error]; the transition
    time is left at zero. *)
Definition terminalCondition (t : apis.ConditionType) (status reason message : string)
  : apis.Condition :=
  {| apis.CondType := t; apis.Status := status;
     apis.Severity := apis.ConditionSeverityError; apis.LastTransitionTime := 0;
     apis.Reason := reason; apis.Message := message |}.

(** The condition that the two activator marks set. *)
Definition activatorCondition (t : apis.ConditionType) (status : string)
    (time : Go.Time) : apis.Condition :=
  {| apis.CondType := t; apis.Status := status;
     apis.Severity := apis.ConditionSeverityInfo; apis.LastTransitionTime := time;
     apis.Reason := "ActivatorEndpointsPopulated";
     apis.Message := "Revision is backed by Activator" |}.

(** The status has, for the type of [c0], a condition that is [c0] but for
    its transition time. *)
Definition hasCondition (sss : ServerlessServiceStatus) (c0 : apis.Condition) : Prop :=
  exists c, GetCondition sss (apis.CondType c0) = Some c /\ apis.sameButTime c c0.

(** The calls of the lifecycle that write the status, each with the
    readings of the clock during the call, and a reconciler's sequence of
    them. *)
Inductive Call :=
| CallInitializeConditions (clock : nat -> Go.Time)
| CallMarkEndpointsReady (clock : nat -> Go.Time)
| CallMarkEndpointsNotOwned (clock : nat -> Go.Time) (kind name : string)
| CallMarkEndpointsNotReady (clock : nat -> Go.Time) (reason : string)
| CallMarkActivatorEndpointsPopulated (now : Go.Time)
| CallMarkActivatorEndpointsRemoved (now : Go.Time).

Definition call (EP AEP : apis.ConditionType) (c : Call)
    (sss : ServerlessServiceStatus) : ServerlessServiceStatus :=
  match c with
  | CallInitializeConditions clock => InitializeConditions EP clock sss
  | CallMarkEndpointsReady clock => MarkEndpointsReady EP clock sss
  | CallMarkEndpointsNotOwned clock kind name =>
      MarkEndpointsNotOwned EP clock kind name sss
  | CallMarkEndpointsNotReady clock reason => MarkEndpointsNotReady EP clock reason sss
  | CallMarkActivatorEndpointsPopulated now => MarkActivatorEndpointsPopulated AEP now sss
  | CallMarkActivatorEndpointsRemoved now => MarkActivatorEndpointsRemoved AEP now sss
  end.

Definition calls (EP AEP : apis.ConditionType) (cs : list Call)
    (sss : ServerlessServiceStatus) : ServerlessServiceStatus :=
  fold_left (fun sss c => call EP AEP c sss) cs sss.

Definition isEndpointMark (c : Call) : bool :=
  match c with
  | CallMarkEndpointsReady _ | CallMarkEndpointsNotOwned _ _ _
  | CallMarkEndpointsNotReady _ _ => true
  | _ => false
  end.

(** ** A small cluster, for the examples *)

Module Demo.

(** An Endpoints object: its name and, per subset, the ready addresses. *)
Record Endpoints := {
  Name : string;
  Subsets : list (list string);
}.

#[global] Instance collaborators : Collaborators Endpoints :=
  {| GetName := Name;
     ReadyAddressCount := fun e => Z.of_nat (length (concat (Subsets e)));
     ErrorsPercentage := fun _ _ => S754_zero false |}.

Definition service : string := "scale-revision-by-load-xkcd".

Definition endpoints (ready : nat) : Endpoints :=
  {| Name := service +:+ "-private"; Subsets := [replicate ready "10.0.0.1"%string] |}.

Definition unrelated (ready : nat) : Endpoints :=
  {| Name := "kube-dns"; Subsets := [replicate ready "10.0.0.2"%string] |}.

(** The start of the load run. *)
Definition T0 : Go.Time := 1000 * Go.Second.

Definition update (l : loc) (from to : nat) (at_ : Go.Time) : Notification Endpoints :=
  {| informer := l; oldObj := endpoints from; newObj := endpoints to; now := at_ |}.

(** Four notifications about the service (one of them, a resync, without a
    change; the first one three seconds before the load starts) and one
    about another object. *)
Definition updates (l : loc) : list (Notification Endpoints) :=
  [ update l 0 1 (T0 - 3 * Go.Second);
    update l 1 1 (T0 + 1 * Go.Second);
    update l 1 2 (T0 + 5 * Go.Second);
    {| informer := l; oldObj := unrelated 1; newObj := unrelated 2;
       now := T0 + 6 * Go.Second |};
    update l 2 4 (T0 + 12 * Go.Second + 999999999) ].

(** The notifications of [updates] that are about the service. *)
Definition serviceUpdates (l : loc) : list (Notification Endpoints) :=
  [ update l 0 1 (T0 - 3 * Go.Second);
    update l 1 1 (T0 + 1 * Go.Second);
    update l 1 2 (T0 + 5 * Go.Second);
    update l 2 4 (T0 + 12 * Go.Second + 999999999) ].

(** 62.5 ms and 250 ms. *)
Definition p50 : stats_Percentile :=
  {| Percentile := Go.float64_of_int 50;
     Value := binary_normalize 53 1024 1 (-4) false |}.
Definition p99 : stats_Percentile :=
  {| Percentile := Go.float64_of_int 99;
     Value := binary_normalize 53 1024 1 (-2) false |}.

Definition results (ps : list stats_Percentile) : GeneratorResults :=
  {| Result := [ {| DurationHistogram := {| Count := 6000; Percentiles := ps |};
                    ActualQPS := Go.float64_of_int 100;
                    StartTime := T0 |} ] |}.

Definition env (setup : result unit) (load : result GeneratorResults)
    (during after locked : list (Notification Endpoints)) : TierEnv Endpoints :=
  {| Setup := setup;
     ObjectNameForTest := service;
     CreateRunLatestServiceReady := Ok "demo.example.com"%string;
     GetIngressEndpoint := Ok "10.1.2.3"%string;
     WaitForEndpointState := Ok tt;
     RunLoadTest := fun _ => load;
     beforeWatch := [];
     duringLoad := during;
     afterStop := after;
     whileLocked := locked |}.

(** A tier without error, its four notifications of interest delivered
    while the load runs. *)
Definition steady : TierEnv Endpoints :=
  env (Ok tt) (Ok (results [p50; p99])) (updates 0%nat) [] [].

(** A tier without error and without any notification. *)
Definition quiet : TierEnv Endpoints :=
  env (Ok tt) (Ok (results [p50; p99])) [] [] [].

(** The load result lists the 99th percentile before the 50th. *)
Definition descending : TierEnv Endpoints :=
  env (Ok tt) (Ok (results [p99; p50])) [] [] [].

(** The load generator answers with an empty result sequence. *)
Definition noResult : TierEnv Endpoints :=
  env (Ok tt) (Ok {| Result := [] |}) (updates 0%nat) [] [].

(** The load generator fails. *)
Definition loadFails : TierEnv Endpoints :=
  env (Ok tt) (Err "connection refused"%string) (updates 0%nat) [] [].

(** One notification reaches the handler after [close(stopCh)]. *)
Definition late : TierEnv Endpoints :=
  env (Ok tt) (Ok (results [p50; p99])) [] [update 0%nat 1 2 (T0 + 61 * Go.Second)] [].

(** A sweep whose first tier cannot set up its clients. *)
Definition sweep (numClients : Z) : TierEnv Endpoints :=
  if numClients =? 10 then env (Err "no cluster"%string) (Ok (results [])) [] [] []
  else quiet.

(** A tier that runs while the informer of an earlier run, at location 0,
    still delivers: its own informer is at location 1. *)
Definition second : TierEnv Endpoints :=
  env (Ok tt) (Ok (results [p50; p99]))
    [update 1%nat 0 3 (T0 + 2 * Go.Second); update 0%nat 4 5 (T0 + 3 * Go.Second)]
    [] [].

(** A sweep whose third tier is handed an empty result sequence. *)
Definition sweepWithPanic (numClients : Z) : TierEnv Endpoints :=
  if numClients =? 40 then env (Ok tt) (Ok {| Result := [] |}) [] [] []
  else quiet.

Definition tierName : string := "TestScaleRevisionByLoad/clients-010".

(** A store with one run whose informer is started. *)
Definition watching : World :=
  {| heap := {[ 0%nat := startedWatch service [] false false ]}; actions := [] |}.

End Demo.

(** A status as the reconciler leaves it for a ServerlessService whose
    endpoints are populated, with the condition types spelled as in
    [serverlessservice_types.go]. *)
Definition readyStatus : ServerlessServiceStatus :=
  {| Status :=
       {| ObservedGeneration := 1;
          Conditions :=
            [ {| apis.CondType := "EndpointsPopulated"; apis.Status := apis.ConditionTrue;
                 apis.Severity := ""; apis.LastTransitionTime := 500;
                 apis.Reason := ""; apis.Message := "" |};
              {| apis.CondType := apis.ConditionReady; apis.Status := apis.ConditionTrue;
                 apis.Severity := ""; apis.LastTransitionTime := 500;
                 apis.Reason := ""; apis.Message := "" |} ] |} |}.

(** A status that holds two [Ready] conditions, the first of them [False],
    among six conditions: nothing in the type of the status (a slice of
    conditions) forbids it, though no write through the condition manager
    produces it. *)
Definition repeatedReady : ServerlessServiceStatus :=
  let condition (t : apis.ConditionType) (status : string) : apis.Condition :=
    {| apis.CondType := t; apis.Status := status; apis.Severity := "";
       apis.LastTransitionTime := 500; apis.Reason := ""; apis.Message := "" |} in
  {| Status :=
       {| ObservedGeneration := 1;
          Conditions :=
            [ condition apis.ConditionReady apis.ConditionFalse;
              condition "EndpointsPopulated" apis.ConditionFalse;
              condition "Active" apis.ConditionTrue;
              condition "ResourcesAvailable" apis.ConditionTrue;
              condition apis.ConditionReady apis.ConditionTrue;
              condition "ContainerHealthy" apis.ConditionTrue ] |} |}.

(** A status that was never initialized, and a clock that reads [start],
    [start + 1], ... *)
Definition newStatus : ServerlessServiceStatus :=
  {| Status := {| ObservedGeneration := 0; Conditions := [] |} |}.

Definition clockFrom (start : Go.Time) (k : nat) : Go.Time := start + Z.of_nat k.

(** * Theorems *)

(** ** The Go primitives on examples *)

Example Sprintf_0d_examples :
  Go.Sprintf_0d 2 3 = "03"%string /\ Go.Sprintf_0d 3 10 = "010"%string
  /\ Go.Sprintf_0d 2 (-5) = "-5"%string /\ Go.Sprintf_0d 2 160 = "160"%string
  /\ Go.Sprintf_d 99 = "99"%string.
Proof. repeat split; reflexivity. Qed.

Example Contains_examples :
  Go.Contains "scale-abc-xyz" "abc" = true
  /\ Go.Contains "scale" "abc" = false
  /\ Go.Contains "" "" = true.
Proof. repeat split; reflexivity. Qed.

(** 0.05 s, the [float64] nearest to it, is reported as 50 ms. *)
Example fifty_milliseconds :
  let seconds := S754_finite false 7205759403792794 (-57) in
  valid_binary 53 1024 seconds = true
  /\ Go.float32_of_float64 seconds = S754_finite false 13421773 (-28)
  /\ Go.float32_mul (Go.float32_of_float64 seconds) (Go.float32_of_int 1000)
     = Go.float32_of_int 50.
Proof. repeat split; vm_compute; reflexivity. Qed.

Example float_examples :
  Go.float32_of_int 100 = S754_finite false 13107200 (-17)
  /\ Go.int_of_float64 (Go.float64_of_int 99) = 99
  /\ Go.int_of_float64 (binary_normalize 53 1024 999 (-1) false) = 499
  /\ Go.Sub 5 7 = -2.
Proof. repeat split; vm_compute; reflexivity. Qed.

Section HarnessFacts.

Context {Endpoints : Type} `{!Collaborators Endpoints}.

Implicit Types (w : World) (wt : Watch) (n : Notification Endpoints) (l : loc).
Implicit Types (env : TierEnv Endpoints).

(** ** Properties of the handler and of the store *)

Lemma UpdateFunc_unlocked wt n :
  scaleEventsMutex wt = false ->
  UpdateFunc wt (oldObj n) (newObj n) (now n)
  = Some (if matches (names_Service wt) n && changed n
          then set_scaleEvents (scaleEvents wt ++ [eventOf n]) wt
          else wt).
Proof.
  intros Hfree. unfold UpdateFunc, matches, changed, eventOf.
  destruct (Go.Contains _ _); simpl; [|reflexivity].
  destruct (_ =? _); simpl; [reflexivity|].
  now rewrite Hfree.
Qed.

Lemma UpdateFunc_locked wt n :
  scaleEventsMutex wt = true ->
  UpdateFunc wt (oldObj n) (newObj n) (now n) = None
  \/ UpdateFunc wt (oldObj n) (newObj n) (now n) = Some wt.
Proof.
  intros Hheld. unfold UpdateFunc.
  destruct (Go.Contains _ _); [|now right].
  destruct (_ =? _); simpl; [now right|].
  rewrite Hheld. now left.
Qed.

Lemma dom_deliver n w : dom (heap (deliver n w)) = dom (heap w).
Proof.
  unfold deliver.
  destruct (heap w !! informer n) as [wt|] eqn:Hl; [|reflexivity].
  destruct (informerStarted wt); [|reflexivity].
  destruct (UpdateFunc _ _ _ _); [|reflexivity].
  simpl. rewrite dom_insert_L.
  apply elem_of_dom_2 in Hl. revert Hl. generalize (dom (heap w)).
  intros D HD. apply set_eq. intros x. rewrite elem_of_union, elem_of_singleton.
  split; [intros [->|]; assumption | now right].
Qed.

Lemma dom_deliverAll ns w : dom (heap (deliverAll ns w)) = dom (heap w).
Proof.
  revert w. induction ns as [|n ns IH]; intros w; [reflexivity|].
  simpl. rewrite IH. apply dom_deliver.
Qed.

Lemma actions_deliver n w : actions (deliver n w) = actions w.
Proof.
  unfold deliver.
  destruct (heap w !! informer n) as [wt|]; [|reflexivity].
  destruct (informerStarted wt); [|reflexivity].
  now destruct (UpdateFunc _ _ _ _).
Qed.

Lemma actions_deliverAll ns w : actions (deliverAll ns w) = actions w.
Proof.
  revert w. induction ns as [|n ns IH]; intros w; [reflexivity|].
  simpl. rewrite IH. apply actions_deliver.
Qed.

(** A handler writes the variables of its own run only. *)
Lemma deliver_other n w l :
  informer n <> l -> heap (deliver n w) !! l = heap w !! l.
Proof.
  intros Hne. unfold deliver.
  destruct (heap w !! informer n) as [wt|]; [|reflexivity].
  destruct (informerStarted wt); [|reflexivity].
  destruct (UpdateFunc _ _ _ _); [|reflexivity].
  simpl. now rewrite lookup_insert_ne.
Qed.

Lemma deliver_absent n w l :
  heap w !! l = None -> heap (deliver n w) !! l = None.
Proof.
  intros Hl. destruct (decide (informer n = l)) as [Heq|Hne].
  - unfold deliver. now rewrite Heq, Hl.
  - now rewrite deliver_other.
Qed.

Lemma deliverAll_absent ns w l :
  heap w !! l = None -> heap (deliverAll ns w) !! l = None.
Proof.
  revert w. induction ns as [|n ns IH]; intros w Hl; [exact Hl|].
  simpl. apply IH. now apply deliver_absent.
Qed.

(** No handler runs before its informer is started. *)
Lemma deliver_not_started n w l wt :
  heap w !! l = Some wt -> informerStarted wt = false ->
  heap (deliver n w) !! l = Some wt.
Proof.
  intros Hl Hst. destruct (decide (informer n = l)) as [Heq|Hne].
  - unfold deliver. now rewrite Heq, Hl, Hst.
  - now rewrite deliver_other.
Qed.

(** While the test holds the mutex, no delivery changes the run's
    variables. *)
Lemma deliver_locked n w l wt :
  heap w !! l = Some wt -> scaleEventsMutex wt = true ->
  heap (deliver n w) !! l = Some wt.
Proof.
  intros Hl Hheld. destruct (decide (informer n = l)) as [Heq|Hne].
  - unfold deliver. rewrite Heq, Hl.
    destruct (informerStarted wt); [|exact Hl].
    destruct (UpdateFunc_locked wt n Hheld) as [-> | ->]; [exact Hl|].
    simpl. now rewrite lookup_insert_eq.
  - now rewrite deliver_other.
Qed.

Lemma deliverAll_locked ns w l wt :
  heap w !! l = Some wt -> scaleEventsMutex wt = true ->
  heap (deliverAll ns w) !! l = Some wt.
Proof.
  revert w. induction ns as [|n ns IH]; intros w Hl Hheld; [exact Hl|].
  simpl. apply IH; [|exact Hheld]. now apply deliver_locked.
Qed.

(** With the informer started and the mutex free, one delivery appends the
    event of the notification when it comes from this informer, is about
    the service and carries a change; otherwise nothing. *)
Lemma deliver_started n w l wt :
  heap w !! l = Some wt ->
  informerStarted wt = true -> scaleEventsMutex wt = false ->
  heap (deliver n w) !! l
  = Some (set_scaleEvents (scaleEvents wt ++ recorded (names_Service wt) l [n]) wt).
Proof.
  intros Hl Hst Hfree.
  assert (Hid : set_scaleEvents (scaleEvents wt ++ []) wt = wt).
  { rewrite app_nil_r. now destruct wt. }
  unfold recorded. rewrite filter_cons, filter_nil.
  destruct (decide (informer n = l)) as [Heq|Hne].
  - unfold deliver. rewrite Heq, Hl, Hst, (UpdateFunc_unlocked wt n Hfree).
    simpl. rewrite lookup_insert_eq.
    destruct (matches (names_Service wt) n) eqn:Hm, (changed n) eqn:Hc; simpl;
      case_decide as Hd; simpl; try reflexivity;
      try (now rewrite Hid);
      try (exfalso; apply Hd; now repeat split);
      destruct Hd as (_ & ? & ?); congruence.
  - rewrite deliver_other by exact Hne.
    case_decide as Hd; [now destruct Hd|]. simpl. now rewrite Hid.
Qed.

Lemma recorded_app service l ns1 ns2 :
  recorded service l (ns1 ++ ns2) = recorded service l ns1 ++ recorded service l ns2.
Proof. unfold recorded. now rewrite filter_app, map_app. Qed.

Lemma deliverAll_started ns w l wt :
  heap w !! l = Some wt ->
  informerStarted wt = true -> scaleEventsMutex wt = false ->
  heap (deliverAll ns w) !! l
  = Some (set_scaleEvents (scaleEvents wt ++ recorded (names_Service wt) l ns) wt).
Proof.
  revert w wt. induction ns as [|n ns IH]; intros w wt Hl Hst Hfree.
  - simpl. unfold recorded. rewrite filter_nil. simpl. rewrite app_nil_r, Hl.
    now destruct wt.
  - simpl. erewrite IH; [|apply deliver_started; eassumption|exact Hst|exact Hfree].
    simpl. f_equal. unfold set_scaleEvents. simpl. f_equal.
    change (n :: ns) with ([n] ++ ns). now rewrite recorded_app, app_assoc.
Qed.

Lemma deliverAll_not_started ns w l wt :
  heap w !! l = Some wt -> informerStarted wt = false ->
  heap (deliverAll ns w) !! l = Some wt.
Proof.
  revert w. induction ns as [|n ns IH]; intros w Hl Hst; [exact Hl|].
  simpl. apply IH; [|exact Hst]. now apply deliver_not_started.
Qed.

(** The deliveries change the variables of a run through its own handler
    only, and as [handled] says. *)
Lemma deliverAll_lookup ns w l :
  heap (deliverAll ns w) !! l = handled l ns <$> heap w !! l.
Proof.
  destruct (heap w !! l) as [wt|] eqn:Hl; simpl.
  - unfold handled.
    destruct (informerStarted wt) eqn:Hst; simpl.
    + destruct (scaleEventsMutex wt) eqn:Hm; simpl.
      * now apply deliverAll_locked.
      * now apply deliverAll_started.
    + now apply deliverAll_not_started.
  - now apply deliverAll_absent.
Qed.

Lemma handled_app l ns1 ns2 wt :
  handled l ns2 (handled l ns1 wt) = handled l (ns1 ++ ns2) wt.
Proof.
  unfold handled.
  destruct (informerStarted wt) eqn:Hst, (scaleEventsMutex wt) eqn:Hm; simpl;
    rewrite ?Hst, ?Hm; simpl; try reflexivity.
  unfold set_scaleEvents. simpl. now rewrite recorded_app, app_assoc.
Qed.

Lemma lookup_set_heap_alter_ne (f : Watch -> Watch) l l' w :
  l <> l' -> heap (set_heap (alter f l) w) !! l' = heap w !! l'.
Proof. intros Hne. simpl. now rewrite lookup_alter_ne. Qed.

(** ** One tier, path by path *)

Lemma fresh_loc_absent w : heap w !! fresh (dom (heap w)) = None.
Proof. apply not_elem_of_dom, is_fresh. Qed.

(** The capacity handed to [make] is not negative for a client count that
    is positive. *)
Lemma capacity_nonneg numClients :
  0 < numClients <= Go.maxInt64 ->
  (Go.int_mul (Go.int_div numClients targetConcurrency) 10 <? 0) = false.
Proof.
  intros [Hpos Hmax]. apply Z.ltb_ge.
  unfold Go.int_mul, Go.int_div, Go.wrap64, targetConcurrency, Go.maxInt64 in *.
  assert (H0 : 0 <= numClients ÷ 10) by (apply Z.quot_pos; lia).
  assert (H1 : numClients ÷ 10 * 10 <= numClients).
  { rewrite Z.mul_comm. apply Z.mul_quot_le; lia. }
  rewrite (Z.mod_small (numClients ÷ 10 + 2 ^ 63)) by lia.
  replace (numClients ÷ 10 + 2 ^ 63 - 2 ^ 63) with (numClients ÷ 10) by lia.
  rewrite Z.mod_small by lia. lia.
Qed.

Lemma lookup_set_heap_alter (f : Watch -> Watch) l w wt :
  heap w !! l = Some wt ->
  heap (set_heap (alter f l) w) !! l = Some (f wt).
Proof. intros Hl. simpl. now rewrite lookup_alter_eq, Hl. Qed.

Lemma lookup_act a w l : heap (act a w) !! l = heap w !! l.
Proof. reflexivity. Qed.

Lemma lookup_StartInformers l w wt :
  heap w !! l = Some wt ->
  heap (StartInformers l w) !! l = Some (set_informerStarted true wt).
Proof. intros Hl. unfold StartInformers. rewrite lookup_act. now apply lookup_set_heap_alter. Qed.

Lemma lookup_closeStopCh l w wt :
  heap w !! l = Some wt ->
  heap (closeStopCh l w) !! l = Some (set_stopCh true wt).
Proof. intros Hl. unfold closeStopCh. rewrite lookup_act. now apply lookup_set_heap_alter. Qed.

Lemma lookup_Lock l w wt :
  heap w !! l = Some wt ->
  heap (Lock l w) !! l = Some (set_scaleEventsMutex true wt).
Proof. apply lookup_set_heap_alter. Qed.

Lemma lookup_Unlock l w wt :
  heap w !! l = Some wt ->
  heap (Unlock l w) !! l = Some (set_scaleEventsMutex false wt).
Proof. apply lookup_set_heap_alter. Qed.

(** The tier that meets no error: the records, the run's variables and the
    outside calls at the end. *)
Lemma scaleRevisionByLoad_returns env t_Name numClients w domain endpoint resp r0 rest :
  0 < numClients <= Go.maxInt64 ->
  Setup env = Ok tt ->
  CreateRunLatestServiceReady env = Ok domain ->
  GetIngressEndpoint env = Ok endpoint ->
  WaitForEndpointState env = Ok tt ->
  RunLoadTest env (makeOpts t_Name numClients domain endpoint) = Ok resp ->
  Result resp = r0 :: rest ->
  let l := fresh (dom (heap w)) in
  let service := ObjectNameForTest env in
  let evs := recorded service l (duringLoad env ++ afterStop env) in
  exists w',
    scaleRevisionByLoad env t_Name numClients w
    = (w', Returned (fixedMetrics t_Name numClients resp r0
                       ++ map (scaleRecord t_Name (StartTime r0)) evs
                       ++ map (percentileRecord t_Name)
                            (Percentiles (DurationHistogram r0))))
    /\ heap w' !! l = Some (startedWatch service evs false true)
    /\ actions w'
       = actions w ++ [ActStartInformers l;
                       ActRunLoadTest (makeOpts t_Name numClients domain endpoint);
                       ActCloseStopCh l; ActSaveJSON; ActTearDown service]
    /\ forall l', l' <> l ->
         heap w' !! l'
         = handled l' (beforeWatch env ++ duringLoad env ++ afterStop env
                         ++ whileLocked env)
             <$> heap w !! l'.
Proof.
  intros Hn HS HC HG HW HR H0 l service evs.
  unfold scaleRevisionByLoad.
  unfold mbind, Test_bind, bind, perform, defer, orFatalf, mret, Test_ret, ret.
  rewrite HS, HC, HG, HW. simpl.
  unfold makeWatch. rewrite (capacity_nonneg _ Hn).
  rewrite HR. rewrite dom_deliverAll. fold l. fold service.
  unfold Result0. rewrite H0. unfold mret, Test_ret, ret, readScaleEvents.
  set (w0 := deliverAll (beforeWatch env) w).
  set (wt0 := {| names_Service := service; scaleEvents := [];
                 scaleEventsMutex := false; stopCh := false;
                 informerStarted := false |}).
  set (w1 := set_heap (<[l:=wt0]>) w0).
  assert (L1 : heap w1 !! l = Some wt0) by (simpl; apply lookup_insert_eq).
  set (w2 := StartInformers l w1).
  pose proof (lookup_StartInformers _ _ _ L1) as L2. fold w2 in L2.
  set (w3 := act _ w2).
  assert (L3 : heap w3 !! l = Some (set_informerStarted true wt0)) by exact L2.
  set (w4 := deliverAll (duringLoad env) w3).
  pose proof (deliverAll_started (duringLoad env) _ _ _ L3 eq_refl eq_refl) as L4.
  fold w4 in L4.
  set (w5 := closeStopCh l w4).
  pose proof (lookup_closeStopCh _ _ _ L4) as L5. fold w5 in L5.
  set (w6 := deliverAll (afterStop env) w5).
  pose proof (deliverAll_started (afterStop env) _ _ _ L5 eq_refl eq_refl) as L6.
  fold w6 in L6.
  set (w7 := act ActSaveJSON w6).
  assert (L7 : heap w7 !! l = heap w6 !! l) by reflexivity. rewrite L6 in L7.
  set (w8 := Lock l w7).
  pose proof (lookup_Lock _ _ _ L7) as L8. fold w8 in L8.
  set (w9 := deliverAll (whileLocked env) w8).
  pose proof (deliverAll_locked (whileLocked env) _ _ _ L8 eq_refl) as L9.
  fold w9 in L9.
  eexists. split; [|split; [|split]].
  - f_equal. rewrite L9. simpl. unfold evs. rewrite recorded_app.
    reflexivity.
  - unfold TearDown. rewrite lookup_act.
    rewrite (lookup_Unlock _ _ _ L9). simpl. unfold evs, startedWatch.
    now rewrite recorded_app.
  - unfold TearDown, Unlock, w9. simpl. rewrite actions_deliverAll.
    unfold w8, Lock, w7, w6. simpl. rewrite actions_deliverAll.
    unfold w5, closeStopCh, w4. simpl. rewrite actions_deliverAll.
    unfold w3, w2, StartInformers, w1, w0. simpl. rewrite actions_deliverAll.
    rewrite <- !app_assoc. reflexivity.
  - intros l' Hne.
    unfold TearDown. rewrite lookup_act.
    unfold Unlock. rewrite lookup_set_heap_alter_ne by congruence.
    unfold w9. rewrite deliverAll_lookup.
    unfold w8, Lock. rewrite lookup_set_heap_alter_ne by congruence.
    unfold w7. rewrite lookup_act.
    unfold w6. rewrite deliverAll_lookup.
    unfold w5, closeStopCh. rewrite lookup_act, lookup_set_heap_alter_ne by congruence.
    unfold w4. rewrite deliverAll_lookup.
    unfold w3. rewrite lookup_act.
    unfold w2, StartInformers. rewrite lookup_act, lookup_set_heap_alter_ne by congruence.
    unfold w1. simpl. rewrite lookup_insert_ne by congruence.
    unfold w0. rewrite deliverAll_lookup.
    destruct (heap w !! l') as [wt'|]; simpl; [|reflexivity].
    now rewrite !handled_app, <- ?app_assoc.
Qed.

(** ** The watcher records each change once *)

Lemma recorded_matching service l (ns : list (Notification Endpoints)) :
  Forall (fun n => informer n = l /\ matches service n = true) ns ->
  recorded service l ns
  = map eventOf (filter (fun n => ReadyAddressCount (newObj n)
                                  <> ReadyAddressCount (oldObj n)) ns).
Proof.
  intros Hall. unfold recorded. f_equal.
  induction Hall as [|n ns [Hi Hm] _ IH]; [reflexivity|].
  rewrite !filter_cons, IH.
  assert (Hc : changed n = true
               <-> ReadyAddressCount (newObj n) <> ReadyAddressCount (oldObj n)).
  { unfold changed. rewrite negb_true_iff. apply Z.eqb_neq. }
  repeat case_decide; try reflexivity; exfalso; intuition.
Qed.

Lemma recorded_observed service l last (seen : list (Endpoints * Go.Time)) :
  Forall (fun st => Go.Contains (GetName st.1) service = true) seen ->
  recorded service l (observed l last seen)
  = changes (ReadyAddressCount last)
      (map (fun st => (ReadyAddressCount st.1, st.2)) seen).
Proof.
  intros Hall. revert last.
  induction Hall as [|[s t] seen Hm _ IH]; intros last; [reflexivity|].
  simpl in *. change (?n :: observed l s seen) with ([n] ++ observed l s seen).
  rewrite recorded_app, IH. f_equal.
  unfold recorded. rewrite filter_cons, filter_nil.
  unfold matches, changed. simpl. rewrite Hm.
  destruct (ReadyAddressCount s =? ReadyAddressCount last) eqn:Hc; simpl;
    case_decide as Hd; try reflexivity.
  - destruct Hd as (_ & _ & ?). discriminate.
  - exfalso. apply Hd. repeat split.
Qed.

(** C3.  Notifications about the service under test, delivered in any
    number and order to the handler of a started informer while the mutex
    is free: the log grows by exactly one event for each notification whose
    two objects differ in ready count, in delivery order, and by none for a
    notification whose two objects carry the same count; the event's
    [oldScale] and [newScale] are the ready counts of the old and of the
    new object of that notification, its [timestamp] the clock of the
    handler.  The old object of a notification is the state the informer
    saw last: for an object seen in one state after the other, the log
    grows by the changes between one observed count and the next. *)
Theorem handler_records_each_change w l wt :
  heap w !! l = Some wt ->
  informerStarted wt = true ->
  scaleEventsMutex wt = false ->
  (forall ns : list (Notification Endpoints),
     Forall (fun n => informer n = l /\ matches (names_Service wt) n = true) ns ->
     exists wt',
       heap (deliverAll ns w) !! l = Some wt'
       /\ scaleEvents wt'
          = scaleEvents wt
            ++ map (fun n => {| oldScale := ReadyAddressCount (oldObj n);
                                newScale := ReadyAddressCount (newObj n);
                                timestamp := now n |})
                   (filter (fun n => ReadyAddressCount (newObj n)
                                     <> ReadyAddressCount (oldObj n)) ns)
       /\ length (scaleEvents wt')
          = (length (scaleEvents wt)
             + length (filter (fun n => ReadyAddressCount (newObj n)
                                        <> ReadyAddressCount (oldObj n)) ns))%nat)
  /\ (forall (last : Endpoints) (seen : list (Endpoints * Go.Time)),
        Forall (fun st => Go.Contains (GetName st.1) (names_Service wt) = true) seen ->
        exists wt',
          heap (deliverAll (observed l last seen) w) !! l = Some wt'
          /\ scaleEvents wt'
             = scaleEvents wt
               ++ changes (ReadyAddressCount last)
                    (map (fun st => (ReadyAddressCount st.1, st.2)) seen)).
Proof.
  intros Hl Hst Hfree. split.
  - intros ns Hall.
    eexists. split; [apply deliverAll_started; eassumption|].
    simpl. rewrite (recorded_matching _ _ _ Hall). split; [reflexivity|].
    now rewrite length_app, length_map.
  - intros last seen Hall.
    eexists. split; [apply deliverAll_started; eassumption|].
    simpl. now rewrite (recorded_observed _ _ _ _ Hall).
Qed.

(** ** The tier whose load run fails *)

Ltac unfold_tier :=
  unfold scaleRevisionByLoad;
  unfold mbind, Test_bind, bind, perform, defer, orFatalf, fatalf, panic,
    mret, Test_ret, ret.

Lemma scaleRevisionByLoad_load_error env t_Name numClients w domain endpoint err :
  0 < numClients <= Go.maxInt64 ->
  Setup env = Ok tt ->
  CreateRunLatestServiceReady env = Ok domain ->
  GetIngressEndpoint env = Ok endpoint ->
  WaitForEndpointState env = Ok tt ->
  RunLoadTest env (makeOpts t_Name numClients domain endpoint) = Err err ->
  let l := fresh (dom (heap w)) in
  let service := ObjectNameForTest env in
  exists w',
    scaleRevisionByLoad env t_Name numClients w
    = (w', Fatalf ("Generating traffic via fortio failed: " +:+ err))
    /\ heap w' !! l
       = Some (startedWatch service (recorded service l (duringLoad env)) false false)
    /\ actions w'
       = actions w ++ [ActStartInformers l;
                       ActRunLoadTest (makeOpts t_Name numClients domain endpoint);
                       ActTearDown service].
Proof.
  intros Hn HS HC HG HW HR l service.
  unfold_tier.
  rewrite HS, HC, HG, HW. simpl.
  unfold makeWatch. rewrite (capacity_nonneg _ Hn).
  rewrite HR. rewrite dom_deliverAll. fold l. fold service.
  set (w0 := deliverAll (beforeWatch env) w).
  set (wt0 := {| names_Service := service; scaleEvents := [];
                 scaleEventsMutex := false; stopCh := false;
                 informerStarted := false |}).
  set (w1 := set_heap (<[l:=wt0]>) w0).
  assert (L1 : heap w1 !! l = Some wt0) by (simpl; apply lookup_insert_eq).
  set (w2 := StartInformers l w1).
  pose proof (lookup_StartInformers _ _ _ L1) as L2. fold w2 in L2.
  set (w3 := act _ w2).
  assert (L3 : heap w3 !! l = Some (set_informerStarted true wt0)) by exact L2.
  set (w4 := deliverAll (duringLoad env) w3).
  pose proof (deliverAll_started (duringLoad env) _ _ _ L3 eq_refl eq_refl) as L4.
  fold w4 in L4.
  eexists. split; [reflexivity|split].
  - unfold TearDown. rewrite lookup_act. exact L4.
  - unfold TearDown, w4. simpl. rewrite actions_deliverAll.
    unfold w3, w2, StartInformers, w1, w0. simpl. rewrite actions_deliverAll.
    rewrite <- !app_assoc. reflexivity.
Qed.

(** ** The tier whose load run hands back no result entry *)

Lemma scaleRevisionByLoad_no_result env t_Name numClients w domain endpoint resp :
  0 < numClients <= Go.maxInt64 ->
  Setup env = Ok tt ->
  CreateRunLatestServiceReady env = Ok domain ->
  GetIngressEndpoint env = Ok endpoint ->
  WaitForEndpointState env = Ok tt ->
  RunLoadTest env (makeOpts t_Name numClients domain endpoint) = Ok resp ->
  Result resp = [] ->
  let l := fresh (dom (heap w)) in
  let service := ObjectNameForTest env in
  exists w',
    scaleRevisionByLoad env t_Name numClients w
    = (w', Panic "runtime error: index out of range")
    /\ actions w'
       = actions w ++ [ActStartInformers l;
                       ActRunLoadTest (makeOpts t_Name numClients domain endpoint);
                       ActCloseStopCh l; ActSaveJSON; ActTearDown service].
Proof.
  intros Hn HS HC HG HW HR H0 l service.
  unfold_tier.
  rewrite HS, HC, HG, HW. simpl.
  unfold makeWatch. rewrite (capacity_nonneg _ Hn).
  rewrite HR. rewrite dom_deliverAll. fold l. fold service.
  unfold Result0. rewrite H0. unfold panic.
  eexists. split; [reflexivity|].
  unfold TearDown, closeStopCh, StartInformers.
  repeat (simpl; rewrite ?actions_deliverAll).
  rewrite <- !app_assoc. reflexivity.
Qed.

(** Records are returned only on the path that read a first result
    entry. *)
Lemma scaleRevisionByLoad_returned_inv env t_Name numClients w w' tc :
  scaleRevisionByLoad env t_Name numClients w = (w', Returned tc) ->
  exists domain endpoint resp r0 rest,
    Setup env = Ok tt
    /\ CreateRunLatestServiceReady env = Ok domain
    /\ GetIngressEndpoint env = Ok endpoint
    /\ WaitForEndpointState env = Ok tt
    /\ RunLoadTest env (makeOpts t_Name numClients domain endpoint) = Ok resp
    /\ Result resp = r0 :: rest.
Proof.
  unfold_tier. unfold makeWatch, Result0, panic, mret, Test_ret, ret.
  destruct (Setup env) as [[]|e1]; simpl; [|discriminate].
  destruct (CreateRunLatestServiceReady env) as [domain|e2]; simpl; [|discriminate].
  destruct (GetIngressEndpoint env) as [endpoint|e3]; simpl; [|discriminate].
  destruct (WaitForEndpointState env) as [[]|e4]; simpl; [|discriminate].
  destruct (_ <? 0); simpl; [discriminate|].
  destruct (RunLoadTest env _) as [resp|e5] eqn:HR; simpl; [|discriminate].
  destruct (Result resp) as [|r0 rest] eqn:H0; simpl; [discriminate|].
  intros _. exists domain, endpoint, resp, r0, rest. repeat split; assumption.
Qed.

(** ** The records of a tier *)

Lemma lookup_map_app3 {A B} (f : A -> B) (xs : list B) (l1 : list A) (ys : list B)
    (i : nat) (a : A) :
  l1 !! i = Some a ->
  (xs ++ map f l1 ++ ys) !! (length xs + i)%nat = Some (f a).
Proof.
  intros Hi. rewrite lookup_app_r by lia.
  replace (length xs + i - length xs)%nat with i by lia.
  rewrite lookup_app_l by (rewrite length_map; eapply lookup_lt_Some; eassumption).
  change (map f l1) with (f <$> l1). now rewrite list_lookup_fmap, Hi.
Qed.

(** C6, as the code has it.  A tier that meets no error returns its records
    in this order: the four fixed metrics (request count, requested QPS,
    actual QPS, error percentage); then one record per event of the log, in
    the order of the log, which is the order in which the handler ran; then
    one record per percentile of the load result, in the order in which the
    load result lists them. *)
Theorem records_in_emission_order env t_Name numClients w domain endpoint resp r0 rest :
  0 < numClients <= Go.maxInt64 ->
  Setup env = Ok tt ->
  CreateRunLatestServiceReady env = Ok domain ->
  GetIngressEndpoint env = Ok endpoint ->
  WaitForEndpointState env = Ok tt ->
  RunLoadTest env (makeOpts t_Name numClients domain endpoint) = Ok resp ->
  Result resp = r0 :: rest ->
  let l := fresh (dom (heap w)) in
  let log := recorded (ObjectNameForTest env) l (duringLoad env ++ afterStop env) in
  exists w',
    scaleRevisionByLoad env t_Name numClients w
    = (w', Returned
             ([ CreatePerfTestCase (Go.float32_of_int (Count (DurationHistogram r0)))
                  "requestCount" t_Name;
                CreatePerfTestCase (Go.float32_of_int (Go.int_mul qpsPerClient numClients))
                  "requestedQPS" t_Name;
                CreatePerfTestCase (Go.float32_of_float64 (ActualQPS r0))
                  "actualQPS" t_Name;
                CreatePerfTestCase (Go.float32_of_float64 (ErrorsPercentage resp 0))
                  "errorsPercentage" t_Name ]
              ++ map (scaleRecord t_Name (StartTime r0)) log
              ++ map (percentileRecord t_Name) (Percentiles (DurationHistogram r0))))
    /\ (scaleEvents <$> heap w' !! l) = Some log.
Proof.
  intros Hn HS HC HG HW HR H0 l log.
  destruct (scaleRevisionByLoad_returns env t_Name numClients w _ _ _ _ _
              Hn HS HC HG HW HR H0) as (w' & Hrun & Hl & _ & _).
  exists w'. split; [exact Hrun|]. fold l in Hl. now rewrite Hl.
Qed.

(** C7.  A tier that meets no error turns every event of its log into a
    record, at the event's place in the log: the value is the whole seconds
    of [ev.timestamp.Sub(StartTime)], where [Sub] is the difference
    [timestamp - StartTime] whenever that fits a [Duration], negative when
    the event precedes the start of the load.  No event is left out. *)
Theorem every_event_is_correlated env t_Name numClients w domain endpoint resp r0 rest :
  0 < numClients <= Go.maxInt64 ->
  Setup env = Ok tt ->
  CreateRunLatestServiceReady env = Ok domain ->
  GetIngressEndpoint env = Ok endpoint ->
  WaitForEndpointState env = Ok tt ->
  RunLoadTest env (makeOpts t_Name numClients domain endpoint) = Ok resp ->
  Result resp = r0 :: rest ->
  let l := fresh (dom (heap w)) in
  exists w' tc log,
    scaleRevisionByLoad env t_Name numClients w = (w', Returned tc)
    /\ (scaleEvents <$> heap w' !! l) = Some log
    /\ length tc
       = (4 + length log + length (Percentiles (DurationHistogram r0)))%nat
    /\ forall (i : nat) (ev : scaleEvent),
         log !! i = Some ev ->
         let elapsed := Go.Sub (timestamp ev) (StartTime r0) in
         tc !! (4 + i)%nat
         = Some (CreatePerfTestCase
                   (Go.float32_of_int (Go.int_div elapsed Go.Second))
                   ("scale-from-" +:+ Go.Sprintf_0d 2 (oldScale ev) +:+ "-to-"
                      +:+ Go.Sprintf_0d 2 (newScale ev) +:+ "(seconds)")
                   t_Name)
         /\ (Go.minInt64 <= timestamp ev - StartTime r0 <= Go.maxInt64 ->
             elapsed = timestamp ev - StartTime r0).
Proof.
  intros Hn HS HC HG HW HR H0 l.
  destruct (scaleRevisionByLoad_returns env t_Name numClients w _ _ _ _ _
              Hn HS HC HG HW HR H0) as (w' & Hrun & Hl & _ & _).
  fold l in Hl.
  exists w'. eexists.
  exists (recorded (ObjectNameForTest env) l (duringLoad env ++ afterStop env)).
  split; [exact Hrun|].
  split; [now rewrite Hl|]. split.
  - rewrite !length_app, !length_map. reflexivity.
  - intros i ev Hi elapsed. split.
    + change 4%nat with (length (fixedMetrics t_Name numClients resp r0)).
      now rewrite (lookup_map_app3 _ _ _ _ _ _ Hi).
    + intros [Hlo Hhi]. unfold elapsed, Go.Sub.
      destruct (Z.ltb_spec (timestamp ev - StartTime r0) Go.minInt64); [lia|].
      destruct (Z.ltb_spec Go.maxInt64 (timestamp ev - StartTime r0)); [lia|].
      reflexivity.
Qed.

(** C9.  A tier that meets no error emits, for each percentile of the load
    result, exactly one record, at the percentile's place after the fixed
    metrics and the scale events: its name is [p<N>(ms)] with [N] the
    percentile cut to an integer, its value the latency in seconds,
    converted to [float32], times 1000. *)
Theorem percentile_records_in_milliseconds
    env t_Name numClients w domain endpoint resp r0 rest :
  0 < numClients <= Go.maxInt64 ->
  Setup env = Ok tt ->
  CreateRunLatestServiceReady env = Ok domain ->
  GetIngressEndpoint env = Ok endpoint ->
  WaitForEndpointState env = Ok tt ->
  RunLoadTest env (makeOpts t_Name numClients domain endpoint) = Ok resp ->
  Result resp = r0 :: rest ->
  let l := fresh (dom (heap w)) in
  let ps := Percentiles (DurationHistogram r0) in
  exists w' tc log,
    scaleRevisionByLoad env t_Name numClients w = (w', Returned tc)
    /\ (scaleEvents <$> heap w' !! l) = Some log
    /\ length tc = (4 + length log + length ps)%nat
    /\ forall (i : nat) (p : stats_Percentile),
         ps !! i = Some p ->
         tc !! (4 + length log + i)%nat
         = Some (CreatePerfTestCase
                   (Go.float32_mul (Go.float32_of_float64 (Value p))
                      (Go.float32_of_int 1000))
                   ("p" +:+ Go.Sprintf_d (Go.int_of_float64 (Percentile p)) +:+ "(ms)")
                   t_Name).
Proof.
  intros Hn HS HC HG HW HR H0 l ps.
  destruct (scaleRevisionByLoad_returns env t_Name numClients w _ _ _ _ _
              Hn HS HC HG HW HR H0) as (w' & Hrun & Hl & _ & _).
  fold l in Hl.
  exists w'. eexists.
  exists (recorded (ObjectNameForTest env) l (duringLoad env ++ afterStop env)).
  split; [exact Hrun|].
  split; [now rewrite Hl|]. split.
  - rewrite !length_app, !length_map. reflexivity.
  - intros i p Hi. subst l. rewrite app_assoc.
    rewrite lookup_app_r by (rewrite length_app, length_map; simpl; lia).
    rewrite length_app, length_map. simpl.
    match goal with |- _ !! ?k = _ => replace k with i by lia end.
    change (map (percentileRecord t_Name) (Percentiles (DurationHistogram r0)))
      with (percentileRecord t_Name <$> ps).
    now rewrite list_lookup_fmap, Hi.
Qed.

(** ** An empty result sequence *)

(** C5, as the code has it.  When the load generator hands back a result
    without any entry, the tier returns no record at all: the first read of
    [resp.Result[0]], which no length check guards, panics with an index out
    of range.  The stop channel is closed and the JSON saved before it; the
    deferred teardown runs after it.  The tier does not end in
    [t.Fatalf]. *)
Theorem empty_result_panics env t_Name numClients w domain endpoint resp :
  0 < numClients <= Go.maxInt64 ->
  Setup env = Ok tt ->
  CreateRunLatestServiceReady env = Ok domain ->
  GetIngressEndpoint env = Ok endpoint ->
  WaitForEndpointState env = Ok tt ->
  RunLoadTest env (makeOpts t_Name numClients domain endpoint) = Ok resp ->
  Result resp = [] ->
  let l := fresh (dom (heap w)) in
  let out := scaleRevisionByLoad env t_Name numClients w in
  out.2 = Panic "runtime error: index out of range"
  /\ (forall tc, out.2 <> Returned tc)
  /\ (forall msg, out.2 <> Fatalf msg)
  /\ actions out.1
     = actions w ++ [ActStartInformers l;
                     ActRunLoadTest (makeOpts t_Name numClients domain endpoint);
                     ActCloseStopCh l; ActSaveJSON;
                     ActTearDown (ObjectNameForTest env)].
Proof.
  intros Hn HS HC HG HW HR H0 l out.
  destruct (scaleRevisionByLoad_no_result env t_Name numClients w _ _ _
              Hn HS HC HG HW HR H0) as (w' & Hrun & Hacts).
  unfold out. rewrite Hrun. simpl.
  split; [reflexivity|]. split; [discriminate|]. split; [discriminate|exact Hacts].
Qed.

(** ** A failing load run *)

(** C4, evaluated.  When [RunLoadTest] returns an error, the tier ends in
    [t.Fatalf] with the teardown of the service as its only deferred call:
    [close(stopCh)] is never reached.  The stop channel of the run is still
    open when the failure is propagated, its informer is still started, and
    a later notification about the service is still appended to the log of
    the failed tier. *)
Theorem load_failure_leaves_watcher_running
    env t_Name numClients w domain endpoint err :
  0 < numClients <= Go.maxInt64 ->
  Setup env = Ok tt ->
  CreateRunLatestServiceReady env = Ok domain ->
  GetIngressEndpoint env = Ok endpoint ->
  WaitForEndpointState env = Ok tt ->
  RunLoadTest env (makeOpts t_Name numClients domain endpoint) = Err err ->
  let l := fresh (dom (heap w)) in
  exists w' wt,
    scaleRevisionByLoad env t_Name numClients w
    = (w', Fatalf ("Generating traffic via fortio failed: " +:+ err))
    /\ heap w' !! l = Some wt
    /\ stopCh wt = false
    /\ informerStarted wt = true
    /\ actions w'
       = actions w ++ [ActStartInformers l;
                       ActRunLoadTest (makeOpts t_Name numClients domain endpoint);
                       ActTearDown (ObjectNameForTest env)]
    /\ forall n,
         informer n = l -> matches (ObjectNameForTest env) n = true ->
         changed n = true ->
         (scaleEvents <$> heap (deliver n w') !! l)
         = Some (scaleEvents wt ++ [eventOf n]).
Proof.
  intros Hn HS HC HG HW HR l.
  destruct (scaleRevisionByLoad_load_error env t_Name numClients w _ _ _
              Hn HS HC HG HW HR) as (w' & Hrun & Hl & Hacts).
  fold l in Hl, Hacts.
  eexists w', _. split; [exact Hrun|]. split; [exact Hl|].
  split; [reflexivity|]. split; [reflexivity|]. split; [exact Hacts|].
  intros n Hi Hm Hc.
  rewrite (deliver_started n w' l _ Hl eq_refl eq_refl). simpl.
  unfold recorded. rewrite filter_cons, filter_nil.
  case_decide as Hd; [reflexivity|].
  exfalso. apply Hd. repeat split; assumption.
Qed.

(** ** The log and the stop of the watcher *)

(** C1, as the code has it.  From the moment the test holds
    [scaleEventsMutex] (it takes it before it reads the log and keeps it
    until it returns) no event is appended: whatever notifications are
    delivered while the mutex is held, the log of the run and the records
    built from it are the same; and in any store, deliveries leave the
    variables of a run whose mutex is held as they are. *)
Theorem no_append_while_test_holds_mutex
    env t_Name numClients w domain endpoint resp r0 rest
    (ns : list (Notification Endpoints)) :
  0 < numClients <= Go.maxInt64 ->
  Setup env = Ok tt ->
  CreateRunLatestServiceReady env = Ok domain ->
  GetIngressEndpoint env = Ok endpoint ->
  WaitForEndpointState env = Ok tt ->
  RunLoadTest env (makeOpts t_Name numClients domain endpoint) = Ok resp ->
  Result resp = r0 :: rest ->
  let l := fresh (dom (heap w)) in
  (exists w1 w2 tc log,
     scaleRevisionByLoad env t_Name numClients w = (w1, Returned tc)
     /\ scaleRevisionByLoad (set_whileLocked ns env) t_Name numClients w
        = (w2, Returned tc)
     /\ (scaleEvents <$> heap w1 !! l) = Some log
     /\ (scaleEvents <$> heap w2 !! l) = Some log)
  /\ (forall w0 l0 wt,
        heap w0 !! l0 = Some wt -> scaleEventsMutex wt = true ->
        heap (deliverAll ns w0) !! l0 = Some wt).
Proof.
  intros Hn HS HC HG HW HR H0 l. split.
  - destruct (scaleRevisionByLoad_returns env t_Name numClients w _ _ _ _ _
                Hn HS HC HG HW HR H0) as (w1 & Hrun1 & Hl1 & _ & _).
    destruct (scaleRevisionByLoad_returns (set_whileLocked ns env) t_Name numClients
                w _ _ _ _ _ Hn HS HC HG HW HR H0) as (w2 & Hrun2 & Hl2 & _ & _).
    simpl in Hrun2, Hl2. fold l in Hl1, Hl2.
    eexists w1, w2, _, _. split; [exact Hrun1|]. split; [exact Hrun2|].
    split; [now rewrite Hl1|now rewrite Hl2].
  - intros w0 l0 wt. apply deliverAll_locked.
Qed.

(** C8, as the code has it.  A tier that meets no error works on variables
    at a location that no earlier run has; its log starts empty, so that its
    records hold the events appended by the handler of its own informer
    since that informer was started, and nothing of the logs already in the
    store; and the variables of every other run are changed during the tier
    only by the handler of that run's own informer. *)
Theorem each_tier_has_its_own_log
    env t_Name numClients w domain endpoint resp r0 rest :
  0 < numClients <= Go.maxInt64 ->
  Setup env = Ok tt ->
  CreateRunLatestServiceReady env = Ok domain ->
  GetIngressEndpoint env = Ok endpoint ->
  WaitForEndpointState env = Ok tt ->
  RunLoadTest env (makeOpts t_Name numClients domain endpoint) = Ok resp ->
  Result resp = r0 :: rest ->
  let l := fresh (dom (heap w)) in
  let own := recorded (ObjectNameForTest env) l (duringLoad env ++ afterStop env) in
  heap w !! l = None
  /\ exists w',
       scaleRevisionByLoad env t_Name numClients w
       = (w', Returned (fixedMetrics t_Name numClients resp r0
                          ++ map (scaleRecord t_Name (StartTime r0)) own
                          ++ map (percentileRecord t_Name)
                               (Percentiles (DurationHistogram r0))))
       /\ (scaleEvents <$> heap w' !! l) = Some own
       /\ forall l', l' <> l ->
            heap w' !! l'
            = handled l' (beforeWatch env ++ duringLoad env ++ afterStop env
                            ++ whileLocked env)
                <$> heap w !! l'.
Proof.
  intros Hn HS HC HG HW HR H0 l own.
  split; [apply fresh_loc_absent|].
  destruct (scaleRevisionByLoad_returns env t_Name numClients w _ _ _ _ _
              Hn HS HC HG HW HR H0) as (w' & Hrun & Hl & _ & Hother).
  fold l in Hl, Hother.
  exists w'. split; [exact Hrun|]. split; [now rewrite Hl|exact Hother].
Qed.

(** ** The sweep over the tiers *)

Lemma subtestsRun_app (a b : list Action) :
  subtestsRun (a ++ b) = subtestsRun a ++ subtestsRun b.
Proof. apply omap_app. Qed.

(** A tier starts no subtest of its own. *)
Lemma scaleRevisionByLoad_subtestsRun env t_Name numClients w :
  subtestsRun (actions (scaleRevisionByLoad env t_Name numClients w).1)
  = subtestsRun (actions w).
Proof.
  unfold_tier.
  unfold makeWatch, Result0, readScaleEvents, panic, mret, Test_ret, ret,
    TearDown, StartInformers, closeStopCh, Lock, Unlock.
  destruct (Setup env) as [[]|e1]; simpl; [|now rewrite actions_deliverAll].
  destruct (CreateRunLatestServiceReady env) as [domain|e2]; simpl;
    [|now rewrite subtestsRun_app, actions_deliverAll, app_nil_r].
  destruct (GetIngressEndpoint env) as [endpoint|e3]; simpl;
    [|now rewrite subtestsRun_app, actions_deliverAll, app_nil_r].
  destruct (WaitForEndpointState env) as [[]|e4]; simpl;
    [|now rewrite subtestsRun_app, actions_deliverAll, app_nil_r].
  destruct (_ <? 0); simpl;
    [now rewrite subtestsRun_app, actions_deliverAll, app_nil_r|].
  destruct (RunLoadTest env _) as [resp|e5]; simpl.
  - destruct (Result resp) as [|r0 rest]; simpl;
      repeat (rewrite ?subtestsRun_app, ?actions_deliverAll; simpl);
      now rewrite ?app_nil_r.
  - repeat (rewrite ?subtestsRun_app, ?actions_deliverAll; simpl).
    now rewrite ?app_nil_r.
Qed.

(** Without a panic, the sweep returns the records of the tiers that
    returned. *)
Lemma runTiers_returns (env : Z -> TierEnv Endpoints) t_Name tiers tc w :
  Forall (fun o => isPanic o = false) (tierOutcomes env t_Name tiers w) ->
  exists w',
    runTiers env t_Name tiers tc w
    = (w', Returned (tc ++ concat (map recordsOf (tierOutcomes env t_Name tiers w)))).
Proof.
  revert tc w. induction tiers as [|n tiers IH]; intros tc w Hall.
  - exists w. simpl. now rewrite app_nil_r.
  - simpl in *.
    destruct (scaleRevisionByLoad (env n) (subtestName t_Name n) n
                (act (ActRun (subtestName t_Name n)) w)) as [w1 o].
    apply Forall_cons in Hall as [Ho Hall].
    destruct o as [recs|msg|msg]; simpl in *; [| |discriminate].
    + destruct (IH (tc ++ recs) w1 Hall) as (w' & Hrun).
      exists w'. now rewrite Hrun, <- app_assoc.
    + destruct (IH tc w1 Hall) as (w' & Hrun).
      exists w'. now rewrite Hrun.
Qed.

(** A sweep that returns has started the subtest of every tier, in order. *)
Lemma runTiers_subtestsRun (env : Z -> TierEnv Endpoints) t_Name tiers tc w w' tc' :
  runTiers env t_Name tiers tc w = (w', Returned tc') ->
  subtestsRun (actions w')
  = subtestsRun (actions w) ++ map (subtestName t_Name) tiers.
Proof.
  revert tc w. induction tiers as [|n tiers IH]; intros tc w Hrun; simpl in Hrun.
  - injection Hrun as <- _. simpl. now rewrite app_nil_r.
  - pose proof (scaleRevisionByLoad_subtestsRun (env n) (subtestName t_Name n) n
                  (act (ActRun (subtestName t_Name n)) w)) as Hruns.
    destruct (scaleRevisionByLoad (env n) (subtestName t_Name n) n
                (act (ActRun (subtestName t_Name n)) w)) as [w1 o].
    simpl in Hruns. rewrite subtestsRun_app in Hruns. simpl in Hruns.
    destruct o as [recs|msg|msg]; [| |discriminate];
      apply IH in Hrun; rewrite Hrun, Hruns, <- app_assoc; reflexivity.
Qed.

Lemma tierOutcomes_length (env : Z -> TierEnv Endpoints) t_Name tiers w :
  Forall (fun o => isPanic o = false) (tierOutcomes env t_Name tiers w) ->
  length (tierOutcomes env t_Name tiers w) = length tiers.
Proof.
  revert w. induction tiers as [|n tiers IH]; intros w Hall; [reflexivity|].
  simpl in *.
  destruct (scaleRevisionByLoad (env n) (subtestName t_Name n) n
              (act (ActRun (subtestName t_Name n)) w)) as [w1 o].
  apply Forall_cons in Hall as [Ho Hall].
  destruct o as [recs|msg|msg]; simpl in *; [| |discriminate];
    now rewrite IH.
Qed.

(** C2, as the code has it.  A tier that ends in [t.Fatalf] (setup,
    service creation, endpoint lookup, readiness or load failure) adds no
    record and does not stop the sweep: the sweep goes on with the tiers
    after it and with the records gathered so far; for every sequence of
    tiers in which no tier panics, every tier is run, in order, and the
    records gathered are those of all the tiers that returned, before and
    after a failing one. *)
Theorem failed_tier_does_not_stop_sweep
    (env : Z -> TierEnv Endpoints) t_Name tiers tc w :
  Forall (fun o => isPanic o = false) (tierOutcomes env t_Name tiers w) ->
  (exists w',
     runTiers env t_Name tiers tc w
     = (w', Returned (tc ++ concat (map recordsOf (tierOutcomes env t_Name tiers w))))
     /\ length (tierOutcomes env t_Name tiers w) = length tiers
     /\ subtestsRun (actions w')
        = subtestsRun (actions w) ++ map (subtestName t_Name) tiers)
  /\ (forall numClients rest w1 msg,
        tiers = numClients :: rest ->
        scaleRevisionByLoad (env numClients) (subtestName t_Name numClients)
          numClients (act (ActRun (subtestName t_Name numClients)) w)
        = (w1, Fatalf msg) ->
        runTiers env t_Name tiers tc w = runTiers env t_Name rest tc w1).
Proof.
  intros Hall. split.
  - destruct (runTiers_returns env t_Name tiers tc w Hall) as (w' & Hrun).
    exists w'. split; [exact Hrun|].
    split; [now apply tierOutcomes_length|].
    exact (runTiers_subtestsRun _ _ _ _ _ _ _ Hrun).
  - intros numClients rest w1 msg -> Hfail. simpl. now rewrite Hfail.
Qed.

(** [TestScaleRevisionByLoad] hands the records of the tiers that returned
    to the XML sink, whichever tiers failed. *)
Lemma TestScaleRevisionByLoad_reports (env : Z -> TierEnv Endpoints) w xml :
  let t_Name := "TestScaleRevisionByLoad"%string in
  Forall (fun o => isPanic o = false) (tierOutcomes env t_Name concurrentClients w) ->
  let out := TestScaleRevisionByLoad env xml w in
  subtestsRun (actions out.1)
  = subtestsRun (actions w) ++ map (subtestName t_Name) concurrentClients
  /\ last (actions out.1)
     = Some (ActCreateXMLOutput
               (concat (map recordsOf (tierOutcomes env t_Name concurrentClients w)))
               t_Name)
  /\ out.2 = match xml with
             | Ok _ => Returned tt
             | Err err => Fatalf ("Cannot create output XML: " +:+ err)
             end.
Proof.
  intros t_Name Hsuite out.
  destruct (runTiers_returns env t_Name concurrentClients [] w Hsuite) as (w1 & Hrun).
  pose proof (runTiers_subtestsRun _ _ _ _ _ _ _ Hrun) as Hsub.
  unfold out, TestScaleRevisionByLoad.
  unfold mbind, Test_bind, bind, perform, orFatalf, fatalf, mret, Test_ret, ret.
  fold t_Name. rewrite Hrun. simpl app.
  destruct xml as [[]|e]; simpl; rewrite subtestsRun_app, Hsub; simpl;
    rewrite app_nil_r, last_snoc; auto.
Qed.

End HarnessFacts.

(** ** The statements on the small cluster *)

Lemma ten_clients : 0 < 10 <= Go.maxInt64.
Proof. unfold Go.maxInt64. lia. Qed.

Lemma handler_records_each_change_witness :
  (exists wt',
     heap (deliverAll (Demo.serviceUpdates 0%nat) Demo.watching) !! 0%nat = Some wt'
     /\ scaleEvents wt'
        = [ {| oldScale := 0; newScale := 1; timestamp := 997000000000 |};
            {| oldScale := 1; newScale := 2; timestamp := 1005000000000 |};
            {| oldScale := 2; newScale := 4; timestamp := 1012999999999 |} ]
     /\ length (scaleEvents wt') = 3%nat)
  /\ (exists wt',
        heap (deliverAll
                (observed 0%nat (Demo.endpoints 0)
                   [ (Demo.endpoints 2, 1001000000000);
                     (Demo.endpoints 2, 1002000000000);
                     (Demo.endpoints 1, 1003000000000) ])
                Demo.watching) !! 0%nat = Some wt'
        /\ scaleEvents wt'
           = [ {| oldScale := 0; newScale := 2; timestamp := 1001000000000 |};
               {| oldScale := 2; newScale := 1; timestamp := 1003000000000 |} ]).
Proof.
  destruct (handler_records_each_change Demo.watching 0%nat
              (startedWatch Demo.service [] false false) eq_refl eq_refl eq_refl)
    as [Hany Hseen].
  split.
  - destruct (Hany (Demo.serviceUpdates 0%nat)) as (wt' & Hl & Hev & Hlen).
    + repeat constructor.
    + exists wt'. split; [exact Hl|]. split; [rewrite Hev|rewrite Hlen]; reflexivity.
  - destruct (Hseen (Demo.endpoints 0)
                [ (Demo.endpoints 2, 1001000000000);
                  (Demo.endpoints 2, 1002000000000);
                  (Demo.endpoints 1, 1003000000000) ]) as (wt' & Hl & Hev).
    + repeat constructor.
    + exists wt'. split; [exact Hl|]. rewrite Hev. reflexivity.
Defined.

Lemma records_in_emission_order_witness :
  exists w' tc,
    scaleRevisionByLoad Demo.steady Demo.tierName 10 emptyWorld = (w', Returned tc)
    /\ map metricName tc
       = [ "requestCount"; "requestedQPS"; "actualQPS"; "errorsPercentage";
           "scale-from-00-to-01(seconds)"; "scale-from-01-to-02(seconds)";
           "scale-from-02-to-04(seconds)"; "p50(ms)"; "p99(ms)" ]%string.
Proof.
  destruct (records_in_emission_order Demo.steady Demo.tierName 10 emptyWorld
              "demo.example.com" "10.1.2.3" (Demo.results [Demo.p50; Demo.p99]) _ []
              ten_clients eq_refl eq_refl eq_refl eq_refl eq_refl eq_refl)
    as (w' & Hrun & _).
  exists w'. eexists. split; [exact Hrun|]. vm_compute. reflexivity.
Defined.

(** The load result lists the 99th percentile first: so does the report. *)
Lemma percentile_records_follow_the_load_result :
  (let out := scaleRevisionByLoad Demo.descending Demo.tierName 10 emptyWorld in
   exists tc,
     out.2 = Returned tc
     /\ map metricName tc
        = [ "requestCount"; "requestedQPS"; "actualQPS"; "errorsPercentage";
            "p99(ms)"; "p50(ms)" ]%string)
  /\ map (fun p => Go.int_of_float64 (Percentile p)) [Demo.p99; Demo.p50] = [99; 50].
Proof. split; [eexists; split|]; vm_compute; reflexivity. Qed.

Lemma every_event_is_correlated_witness :
  exists w' tc,
    scaleRevisionByLoad Demo.steady Demo.tierName 10 emptyWorld = (w', Returned tc)
    /\ length tc = 9%nat
    /\ tc !! 4%nat
       = Some (CreatePerfTestCase (Go.float32_of_int (-3))
                 "scale-from-00-to-01(seconds)" Demo.tierName)
    /\ Go.Sub (Demo.T0 - 3 * Go.Second) Demo.T0 = - 3 * Go.Second.
Proof.
  destruct (every_event_is_correlated Demo.steady Demo.tierName 10 emptyWorld
              "demo.example.com" "10.1.2.3" (Demo.results [Demo.p50; Demo.p99]) _ []
              ten_clients eq_refl eq_refl eq_refl eq_refl eq_refl eq_refl)
    as (w' & tc & log & Hrun & Hlog & Hlen & Hall).
  assert (Hw : w' = (scaleRevisionByLoad Demo.steady Demo.tierName 10 emptyWorld).1)
    by (now rewrite Hrun).
  rewrite Hw in Hlog. vm_compute in Hlog. injection Hlog as Hlog. subst log.
  destruct (Hall 0%nat _ eq_refl) as [Hrec Hsub].
  exists w', tc. split; [exact Hrun|]. split; [exact Hlen|]. split; [exact Hrec|].
  apply Hsub. vm_compute. split; discriminate.
Defined.

Lemma percentile_records_in_milliseconds_witness :
  exists w' tc,
    scaleRevisionByLoad Demo.steady Demo.tierName 10 emptyWorld = (w', Returned tc)
    /\ length tc = 9%nat
    /\ tc !! 7%nat
       = Some (CreatePerfTestCase (binary_normalize 24 128 125 (-1) false)
                 "p50(ms)" Demo.tierName)
    /\ tc !! 8%nat
       = Some (CreatePerfTestCase (Go.float32_of_int 250) "p99(ms)" Demo.tierName).
Proof.
  destruct (percentile_records_in_milliseconds Demo.steady Demo.tierName 10 emptyWorld
              "demo.example.com" "10.1.2.3" (Demo.results [Demo.p50; Demo.p99]) _ []
              ten_clients eq_refl eq_refl eq_refl eq_refl eq_refl eq_refl)
    as (w' & tc & log & Hrun & Hlog & Hlen & Hall).
  assert (Hw : w' = (scaleRevisionByLoad Demo.steady Demo.tierName 10 emptyWorld).1)
    by (now rewrite Hrun).
  rewrite Hw in Hlog. vm_compute in Hlog. injection Hlog as Hlog. subst log.
  exists w', tc. split; [exact Hrun|]. split; [exact Hlen|].
  split; [exact (Hall 0%nat Demo.p50 eq_refl)|exact (Hall 1%nat Demo.p99 eq_refl)].
Defined.

Lemma empty_result_panics_witness :
  let out := scaleRevisionByLoad Demo.noResult Demo.tierName 10 emptyWorld in
  out.2 = Panic "runtime error: index out of range"
  /\ (forall tc, out.2 <> Returned tc)
  /\ last (actions out.1) = Some (ActTearDown Demo.service).
Proof.
  destruct (empty_result_panics Demo.noResult Demo.tierName 10 emptyWorld
              "demo.example.com" "10.1.2.3" {| Result := [] |}
              ten_clients eq_refl eq_refl eq_refl eq_refl eq_refl eq_refl)
    as (Hout & Hret & _ & Hacts).
  split; [exact Hout|]. split; [exact Hret|].
  rewrite Hacts. reflexivity.
Defined.

(** An empty result sequence: the tier does not end in a reported failure
    but in the panic of the read of the first entry. *)
Lemma empty_result_is_not_reported :
  let out := scaleRevisionByLoad Demo.noResult Demo.tierName 10 emptyWorld in
  RunLoadTest Demo.noResult
    (makeOpts Demo.tierName 10 "demo.example.com" "10.1.2.3")
  = Ok {| Result := [] |}
  /\ out.2 = Panic "runtime error: index out of range"
  /\ ~ (exists msg, out.2 = Fatalf msg).
Proof.
  split; [reflexivity|]. split; [vm_compute; reflexivity|].
  intros [msg Hmsg]. vm_compute in Hmsg. discriminate.
Qed.

Lemma load_failure_leaves_watcher_running_witness :
  exists w' wt,
    scaleRevisionByLoad Demo.loadFails Demo.tierName 10 emptyWorld
    = (w', Fatalf "Generating traffic via fortio failed: connection refused")
    /\ heap w' !! 0%nat = Some wt
    /\ stopCh wt = false
    /\ informerStarted wt = true
    /\ ~ In (ActCloseStopCh 0%nat) (actions w')
    /\ length (scaleEvents wt) = 3%nat
    /\ (length <$> (scaleEvents <$>
          heap (deliver (Demo.update 0%nat 4 5 (Demo.T0 + 90 * Go.Second)) w') !! 0%nat))
       = Some 4%nat.
Proof.
  destruct (load_failure_leaves_watcher_running Demo.loadFails Demo.tierName 10
              emptyWorld "demo.example.com" "10.1.2.3" "connection refused"
              ten_clients eq_refl eq_refl eq_refl eq_refl eq_refl)
    as (w' & wt & Hrun & Hl & Hstop & Hst & Hacts & Hlate).
  assert (Hw : w' = (scaleRevisionByLoad Demo.loadFails Demo.tierName 10 emptyWorld).1)
    by (now rewrite Hrun).
  assert (Hlen : length (scaleEvents wt) = 3%nat).
  { rewrite Hw in Hl. vm_compute in Hl. injection Hl as Hl. now rewrite <- Hl. }
  exists w', wt. split; [exact Hrun|]. split; [exact Hl|].
  split; [exact Hstop|]. split; [exact Hst|]. split; [|split; [exact Hlen|]].
  - rewrite Hacts. simpl. intros [H|[H|[H|[]]]]; discriminate.
  - pose proof (Hlate (Demo.update 0%nat 4 5 (Demo.T0 + 90 * Go.Second))
                  eq_refl eq_refl eq_refl) as Hl4.
    change (fresh (dom (heap emptyWorld))) with 0%nat in Hl4.
    refine (eq_trans (f_equal (fmap length) Hl4) _).
    simpl. rewrite length_app, Hlen. reflexivity.
Defined.

Lemma no_append_while_test_holds_mutex_witness :
  exists w1 w2 tc log,
    scaleRevisionByLoad Demo.steady Demo.tierName 10 emptyWorld = (w1, Returned tc)
    /\ scaleRevisionByLoad
         (set_whileLocked [Demo.update 0%nat 4 5 (Demo.T0 + 61 * Go.Second)] Demo.steady)
         Demo.tierName 10 emptyWorld
       = (w2, Returned tc)
    /\ (scaleEvents <$> heap w1 !! 0%nat) = Some log
    /\ (scaleEvents <$> heap w2 !! 0%nat) = Some log.
Proof.
  exact (proj1 (no_append_while_test_holds_mutex Demo.steady Demo.tierName 10 emptyWorld
                  "demo.example.com" "10.1.2.3" (Demo.results [Demo.p50; Demo.p99]) _ []
                  [Demo.update 0%nat 4 5 (Demo.T0 + 61 * Go.Second)]
                  ten_clients eq_refl eq_refl eq_refl eq_refl eq_refl eq_refl)).
Defined.

(** A notification whose handler runs after [close(stopCh)] and before the
    test takes the mutex: its event is appended and reported.  In a store
    where the stop channel of a run is closed, a delivery changes the
    log. *)
Lemma event_appended_after_stop :
  (let quiet := scaleRevisionByLoad Demo.quiet Demo.tierName 10 emptyWorld in
   let late := scaleRevisionByLoad Demo.late Demo.tierName 10 emptyWorld in
   duringLoad Demo.late = duringLoad Demo.quiet
   /\ (scaleEvents <$> heap quiet.1 !! 0%nat) = Some []
   /\ (scaleEvents <$> heap late.1 !! 0%nat)
      = Some [ {| oldScale := 1; newScale := 2; timestamp := 1061000000000 |} ]
   /\ length (recordsOf quiet.2) = 6%nat
   /\ (map metricName (recordsOf late.2)) !! 4%nat
      = Some "scale-from-01-to-02(seconds)"%string)
  /\ (let w := closeStopCh 0%nat Demo.watching in
      let n := Demo.update 0%nat 1 2 (Demo.T0 + 61 * Go.Second) in
      (stopCh <$> heap w !! 0%nat) = Some true
      /\ heap (deliver n w) !! 0%nat <> heap w !! 0%nat).
Proof.
  split; [repeat split; vm_compute; reflexivity|].
  split; [vm_compute; reflexivity|].
  vm_compute. discriminate.
Qed.

Lemma each_tier_has_its_own_log_witness :
  let w := (scaleRevisionByLoad Demo.loadFails Demo.tierName 10 emptyWorld).1 in
  (length <$> (scaleEvents <$> heap w !! 0%nat)) = Some 3%nat
  /\ heap w !! 1%nat = None
  /\ exists w' tc,
       scaleRevisionByLoad Demo.second "TestScaleRevisionByLoad/clients-020" 20 w
       = (w', Returned tc)
       /\ (scaleEvents <$> heap w' !! 1%nat)
          = Some [ {| oldScale := 0; newScale := 3; timestamp := 1002000000000 |} ]
       /\ (length <$> (scaleEvents <$> heap w' !! 0%nat)) = Some 4%nat.
Proof.
  intros w.
  assert (Hn : 0 < 20 <= Go.maxInt64) by (unfold Go.maxInt64; lia).
  destruct (each_tier_has_its_own_log Demo.second "TestScaleRevisionByLoad/clients-020"
              20 w "demo.example.com" "10.1.2.3" (Demo.results [Demo.p50; Demo.p99]) _ []
              Hn eq_refl eq_refl eq_refl eq_refl eq_refl eq_refl)
    as (Hfresh & w' & Hrun & Hown & Hother).
  split; [vm_compute; reflexivity|]. split; [exact Hfresh|].
  exists w'. eexists. split; [exact Hrun|]. split; [exact Hown|].
  pose proof (Hother 0%nat ltac:(discriminate)) as Hearlier.
  refine (eq_trans (f_equal (fun o => length <$> (scaleEvents <$> o)) Hearlier) _).
  vm_compute. reflexivity.
Defined.

(** The tier is over and its stop channel closed; a notification that its
    informer still delivers is appended to its log. *)
Lemma log_of_stopped_watcher_still_grows :
  let w := (scaleRevisionByLoad Demo.quiet Demo.tierName 10 emptyWorld).1 in
  let n := Demo.update 0%nat 1 2 (Demo.T0 + 61 * Go.Second) in
  heap w !! 0%nat = Some (startedWatch Demo.service [] false true)
  /\ heap (deliver n w) !! 0%nat
     = Some (startedWatch Demo.service
               [ {| oldScale := 1; newScale := 2; timestamp := 1061000000000 |} ]
               false true).
Proof. split; vm_compute; reflexivity. Qed.

Lemma failed_tier_does_not_stop_sweep_witness :
  exists w' tc,
    runTiers Demo.sweep "TestScaleRevisionByLoad" concurrentClients [] emptyWorld
    = (w', Returned tc)
    /\ length tc = 30%nat
    /\ subtestsRun (actions w')
       = map (subtestName "TestScaleRevisionByLoad") concurrentClients.
Proof.
  destruct (failed_tier_does_not_stop_sweep Demo.sweep "TestScaleRevisionByLoad"
              concurrentClients [] emptyWorld) as [(w' & Hrun & _ & Hsub) _].
  - apply (bool_decide_unpack _). vm_compute. reflexivity.
  - exists w'. eexists. split; [exact Hrun|]. split; [|exact Hsub].
    vm_compute. reflexivity.
Defined.

(** The first tier fails in its setup; the five tiers after it are run all
    the same, and their records are what the XML sink is handed. *)
Lemma sweep_continues_after_failed_tier :
  let first := scaleRevisionByLoad (Demo.sweep 10) Demo.tierName 10
                 (act (ActRun Demo.tierName) emptyWorld) in
  let out := TestScaleRevisionByLoad Demo.sweep (Ok tt) emptyWorld in
  first.2 = Fatalf "Cannot initialize performance client: no cluster"
  /\ subtestsRun (actions out.1)
     = [ "TestScaleRevisionByLoad/clients-010"; "TestScaleRevisionByLoad/clients-020";
         "TestScaleRevisionByLoad/clients-040"; "TestScaleRevisionByLoad/clients-080";
         "TestScaleRevisionByLoad/clients-160"; "TestScaleRevisionByLoad/clients-320"
       ]%string
  /\ exists tc,
       last (actions out.1) = Some (ActCreateXMLOutput tc "TestScaleRevisionByLoad")
       /\ length tc = 30%nat
       /\ (testName <$> tc !! 0%nat) = Some "TestScaleRevisionByLoad/clients-020"%string
       /\ (testName <$> tc !! 29%nat) = Some "TestScaleRevisionByLoad/clients-320"%string.
Proof.
  split; [vm_compute; reflexivity|]. split; [vm_compute; reflexivity|].
  eexists. split; [vm_compute; reflexivity|].
  repeat split; vm_compute; reflexivity.
Qed.

(** ** The condition manager *)

Section ConditionFacts.

Import apis.

Implicit Types (c new : Condition) (cs kept : list Condition) (t : ConditionType).

Lemma sameButTime_set time c : sameButTime (set_LastTransitionTime time c) c.
Proof. reflexivity. Qed.

Lemma sameButTime_CondType c d : sameButTime c d -> CondType c = CondType d.
Proof. intros H. apply (f_equal CondType) in H. exact H. Qed.

Lemma SetCondition_loop_Some new cs kept new' kept' :
  SetCondition_loop new cs kept = Some (new', kept') ->
  kept' = kept ++ filter (fun c => CondType c <> CondType new) cs
  /\ sameButTime new' new.
Proof.
  revert new kept. induction cs as [|c cs IH]; intros new kept Hloop; simpl in Hloop.
  - injection Hloop as <- <-. rewrite filter_nil, app_nil_r. now split.
  - rewrite filter_cons. case_bool_decide as Hty.
    + apply IH in Hloop as [-> Hsame]. rewrite decide_True by exact Hty.
      rewrite <- app_assoc. now split.
    + rewrite decide_False by (intros Hne; now apply Hne).
      case_bool_decide as Heq; [discriminate|].
      apply IH in Hloop as [-> Hsame]. simpl in *. split; [reflexivity|].
      unfold sameButTime in *. now rewrite Hsame.
Qed.

Lemma SetCondition_loop_None new cs kept :
  SetCondition_loop new cs kept = None ->
  exists c, c ∈ cs /\ sameButTime c new.
Proof.
  revert new kept. induction cs as [|c cs IH]; intros new kept Hloop; simpl in Hloop;
    [discriminate|].
  case_bool_decide as Hty.
  - apply IH in Hloop as (d & Hd & Hsame). exists d. split; [now right|exact Hsame].
  - case_bool_decide as Heq.
    + exists c. split; [now left|]. rewrite <- Heq. apply sameButTime_set.
    + apply IH in Hloop as (d & Hd & Hsame). exists d. split; [now right|].
      unfold sameButTime in *. now rewrite Hsame.
Qed.

Lemma swap_perm cs i j : swap cs i j ≡ₚ cs.
Proof.
  unfold swap. destruct (_ !! i) as [c|] eqn:Hi; [|reflexivity].
  destruct (_ !! j) as [d|] eqn:Hj; [|reflexivity].
  now apply Permutation_insert_swap.
Qed.

Lemma shellPass_perm cs : shellPass cs ≡ₚ cs.
Proof.
  unfold shellPass. generalize (seq 6 (length cs - 6)). intros idx.
  revert cs. induction idx as [|i idx IH]; intros cs; [reflexivity|].
  simpl. rewrite IH. destruct (less cs i (i - 6)); [apply swap_perm|reflexivity].
Qed.

Lemma insertionStep_perm cs j : insertionStep cs j ≡ₚ cs.
Proof.
  revert cs. induction j as [|j IH]; intros cs; simpl; [reflexivity|].
  destruct (less cs (S j) j); [|reflexivity]. rewrite IH. apply swap_perm.
Qed.

Lemma insertionSort_perm cs : insertionSort cs ≡ₚ cs.
Proof.
  unfold insertionSort. generalize (seq 1 (length cs - 1)). intros idx.
  revert cs. induction idx as [|i idx IH]; intros cs; [reflexivity|].
  simpl. rewrite IH. apply insertionStep_perm.
Qed.

Lemma sortByType_perm cs : sortByType cs ≡ₚ cs.
Proof. unfold sortByType. now rewrite insertionSort_perm, shellPass_perm. Qed.

Lemma GetCondition_Some cs t c :
  GetCondition cs t = Some c -> c ∈ cs /\ CondType c = t.
Proof.
  unfold GetCondition. intros H. apply find_some in H as [Hin Hty].
  apply bool_decide_eq_true in Hty. split; [now apply list_elem_of_In|exact Hty].
Qed.

Lemma GetCondition_None cs t :
  GetCondition cs t = None <-> forall c, c ∈ cs -> CondType c <> t.
Proof.
  unfold GetCondition. split.
  - intros H c Hin. apply list_elem_of_In in Hin.
    pose proof (find_none _ _ H c Hin) as Hc. simpl in Hc.
    now apply bool_decide_eq_false in Hc.
  - intros H. induction cs as [|d ds IH]; simpl; [reflexivity|].
    rewrite bool_decide_eq_false_2 by (apply H; now left).
    apply IH. intros c Hc. apply H. now right.
Qed.

(** With one condition per type, the condition of a type is the one in the
    list, wherever it stands. *)
Lemma GetCondition_unique cs t c :
  NoDup (CondType <$> cs) -> c ∈ cs -> CondType c = t ->
  GetCondition cs t = Some c.
Proof.
  intros Hnd Hin Hty. induction cs as [|d ds IH]; [now apply elem_of_nil in Hin|].
  simpl in Hnd. apply NoDup_cons in Hnd as [Hd Hnd].
  unfold GetCondition. simpl. apply elem_of_cons in Hin as [->|Hin].
  - now rewrite bool_decide_eq_true_2.
  - rewrite bool_decide_eq_false_2; [now apply IH|].
    intros Hdt. apply Hd. rewrite Hdt, <- Hty. now apply list_elem_of_fmap_2.
Qed.

Lemma GetCondition_perm cs cs' t :
  cs ≡ₚ cs' -> NoDup (CondType <$> cs) -> GetCondition cs' t = GetCondition cs t.
Proof.
  intros Hperm Hnd.
  assert (Hnd' : NoDup (CondType <$> cs')) by now rewrite <- Hperm.
  destruct (GetCondition cs t) as [c|] eqn:Hget.
  - apply GetCondition_Some in Hget as [Hin Hty].
    apply GetCondition_unique; [exact Hnd'| |exact Hty]. now rewrite <- Hperm.
  - apply GetCondition_None. intros c Hin.
    rewrite <- Hperm in Hin. revert c Hin. now apply GetCondition_None.
Qed.

Lemma GetCondition_filter_ne cs t t' :
  t' <> t ->
  GetCondition (filter (fun c => CondType c <> t) cs) t' = GetCondition cs t'.
Proof.
  intros Hne. unfold GetCondition.
  induction cs as [|c cs IH]; [reflexivity|].
  rewrite filter_cons. simpl. case_decide as Hty; simpl.
  - now rewrite IH.
  - rewrite IH.
    rewrite bool_decide_eq_false_2; [reflexivity|congruence].
Qed.

Lemma GetCondition_snoc_ne cs c t' :
  CondType c <> t' -> GetCondition (cs ++ [c]) t' = GetCondition cs t'.
Proof.
  intros Hne. unfold GetCondition.
  induction cs as [|d ds IH]; simpl.
  - now rewrite bool_decide_eq_false_2.
  - destruct (bool_decide _); [reflexivity|exact IH].
Qed.

Lemma NoDup_types_replaced cs c :
  NoDup (CondType <$> cs) ->
  NoDup (CondType <$> (filter (fun d => CondType d <> CondType c) cs ++ [c])).
Proof.
  intros Hnd. rewrite fmap_app. simpl. apply NoDup_app. split; [|split].
  - induction cs as [|d ds IH]; [constructor|].
    simpl in Hnd. apply NoDup_cons in Hnd as [Hd Hnd].
    rewrite filter_cons. case_decide; [|now apply IH].
    simpl. apply NoDup_cons. split; [|now apply IH].
    intros Hin. apply Hd. apply list_elem_of_fmap in Hin as (e & -> & He).
    apply list_elem_of_filter in He as [_ He]. now apply list_elem_of_fmap_2.
  - intros ty Hin Hc. apply list_elem_of_fmap in Hin as (e & -> & He).
    apply list_elem_of_filter in He as [Hne _].
    apply list_elem_of_singleton in Hc. contradiction.
  - apply NoDup_singleton.
Qed.

(** [SetCondition] leaves the conditions of the other types as they are. *)
Lemma SetCondition_other now new cs t' :
  NoDup (CondType <$> cs) -> t' <> CondType new ->
  GetCondition (SetCondition now new cs) t' = GetCondition cs t'.
Proof.
  intros Hnd Hne. unfold SetCondition.
  destruct (SetCondition_loop new cs []) as [[new' kept]|] eqn:Hloop; [|reflexivity].
  apply SetCondition_loop_Some in Hloop as [-> Hsame]. simpl.
  pose proof (sameButTime_CondType _ _ Hsame) as Hty.
  assert (Hty' : CondType (set_LastTransitionTime now new') = CondType new)
    by exact Hty.
  rewrite (GetCondition_perm _ _ t' (symmetry (sortByType_perm _))).
  - rewrite GetCondition_snoc_ne by congruence.
    now apply GetCondition_filter_ne.
  - rewrite <- Hty'. now apply NoDup_types_replaced.
Qed.

Lemma SetCondition_NoDup now new cs :
  NoDup (CondType <$> cs) -> NoDup (CondType <$> SetCondition now new cs).
Proof.
  intros Hnd. unfold SetCondition.
  destruct (SetCondition_loop new cs []) as [[new' kept]|] eqn:Hloop; [|exact Hnd].
  apply SetCondition_loop_Some in Hloop as [-> Hsame]. simpl.
  rewrite sortByType_perm.
  assert (Hty' : CondType (set_LastTransitionTime now new') = CondType new)
    by exact (sameButTime_CondType _ _ Hsame).
  rewrite <- Hty'. now apply NoDup_types_replaced.
Qed.

(** After [SetCondition], the condition of the type set is [new], up to the
    transition time. *)
Lemma SetCondition_same now new cs :
  NoDup (CondType <$> cs) ->
  exists c, GetCondition (SetCondition now new cs) (CondType new) = Some c
            /\ sameButTime c new.
Proof.
  intros Hnd. unfold SetCondition.
  destruct (SetCondition_loop new cs []) as [[new' kept]|] eqn:Hloop.
  - apply SetCondition_loop_Some in Hloop as [-> Hsame]. simpl.
    exists (set_LastTransitionTime now new'). split; [|exact Hsame].
    assert (Hty' : CondType (set_LastTransitionTime now new') = CondType new)
      by exact (sameButTime_CondType _ _ Hsame).
    apply GetCondition_unique; [| |exact Hty'].
    + rewrite sortByType_perm, <- Hty'. now apply NoDup_types_replaced.
    + rewrite sortByType_perm. apply elem_of_app. right. now left.
  - apply SetCondition_loop_None in Hloop as (c & Hin & Hsame).
    exists c. split; [|exact Hsame].
    apply GetCondition_unique; [exact Hnd|exact Hin|].
    exact (sameButTime_CondType _ _ Hsame).
Qed.

End ConditionFacts.

(** ** The activator marks of a ServerlessService *)

Section LifecycleFacts.

Variable ServerlessServiceConditionEndspointsPopulated : apis.ConditionType.
Variable ActivatorEndpointsPopulated : apis.ConditionType.

Lemma MarkActivatorEndpoints_frame (status : string) now sss t :
  NoDup (apis.CondType <$> Conditions (Status sss)) ->
  t <> ActivatorEndpointsPopulated ->
  apis.GetCondition
    (apis.SetCondition now
       {| apis.CondType := ActivatorEndpointsPopulated;
          apis.Status := status;
          apis.Severity := apis.ConditionSeverityInfo;
          apis.LastTransitionTime := 0;
          apis.Reason := "ActivatorEndpointsPopulated";
          apis.Message := "Revision is backed by Activator" |}
       (Conditions (Status sss))) t
  = apis.GetCondition (Conditions (Status sss)) t.
Proof. intros Hnd Hne. now apply SetCondition_other. Qed.

Lemma MarkActivatorEndpoints_set (status : string) now sss :
  NoDup (apis.CondType <$> Conditions (Status sss)) ->
  exists c,
    apis.GetCondition
      (apis.SetCondition now
         {| apis.CondType := ActivatorEndpointsPopulated;
            apis.Status := status;
            apis.Severity := apis.ConditionSeverityInfo;
            apis.LastTransitionTime := 0;
            apis.Reason := "ActivatorEndpointsPopulated";
            apis.Message := "Revision is backed by Activator" |}
         (Conditions (Status sss))) ActivatorEndpointsPopulated
    = Some c
    /\ apis.Status c = status
    /\ apis.Severity c = apis.ConditionSeverityInfo.
Proof.
  intros Hnd.
  destruct (SetCondition_same now
              {| apis.CondType := ActivatorEndpointsPopulated;
                 apis.Status := status;
                 apis.Severity := apis.ConditionSeverityInfo;
                 apis.LastTransitionTime := 0;
                 apis.Reason := "ActivatorEndpointsPopulated";
                 apis.Message := "Revision is backed by Activator" |}
              _ Hnd) as (c & Hget & Hsame).
  exists c. split; [exact Hget|].
  split; [exact (f_equal apis.Status Hsame)|exact (f_equal apis.Severity Hsame)].
Qed.

(** C10.  On a status with one condition per type, and with
    [ActivatorEndpointsPopulated] a type other than [Ready] and other than
    the dependent [EndpointsPopulated]: the activator condition is neither
    the happy condition nor a dependent of [serverlessServiceCondSet];
    [MarkActivatorEndpointsPopulated] and [MarkActivatorEndpointsRemoved]
    leave [IsReady] and the condition of every other type as they were, and
    set the activator condition to [True], respectively [False], with
    severity [Info]. *)
Theorem activator_marks_leave_readiness now sss :
  ActivatorEndpointsPopulated <> apis.ConditionReady ->
  ActivatorEndpointsPopulated <> ServerlessServiceConditionEndspointsPopulated ->
  NoDup (apis.CondType <$> Conditions (Status sss)) ->
  let condSet := serverlessServiceCondSet ServerlessServiceConditionEndspointsPopulated in
  let IsReady := IsReady ServerlessServiceConditionEndspointsPopulated in
  let populated := MarkActivatorEndpointsPopulated ActivatorEndpointsPopulated now sss in
  let removed := MarkActivatorEndpointsRemoved ActivatorEndpointsPopulated now sss in
  (ActivatorEndpointsPopulated ∉ apis.happy condSet :: apis.dependents condSet)
  /\ IsReady populated = IsReady sss
  /\ IsReady removed = IsReady sss
  /\ (forall t, t <> ActivatorEndpointsPopulated ->
        GetCondition populated t = GetCondition sss t
        /\ GetCondition removed t = GetCondition sss t)
  /\ (exists c, GetCondition populated ActivatorEndpointsPopulated = Some c
                /\ apis.Status c = apis.ConditionTrue
                /\ apis.Severity c = apis.ConditionSeverityInfo)
  /\ (exists c, GetCondition removed ActivatorEndpointsPopulated = Some c
                /\ apis.Status c = apis.ConditionFalse
                /\ apis.Severity c = apis.ConditionSeverityInfo).
Proof.
  intros HnotReady HnotDep Hnd condSet isReady populated removed.
  split; [|split; [|split; [|split; [|split]]]].
  - unfold condSet, serverlessServiceCondSet, apis.NewLivingConditionSet,
      apis.newConditionSet. simpl.
    intros Hin. apply elem_of_cons in Hin as [Hin|Hin]; [contradiction|].
    destruct (_ || _); [now apply elem_of_nil in Hin|].
    apply list_elem_of_singleton in Hin. contradiction.
  - unfold isReady, IsReady, apis.IsHappy, populated, MarkActivatorEndpointsPopulated.
    simpl. rewrite MarkActivatorEndpoints_frame; [reflexivity|exact Hnd|congruence].
  - unfold isReady, IsReady, apis.IsHappy, removed, MarkActivatorEndpointsRemoved.
    simpl. rewrite MarkActivatorEndpoints_frame; [reflexivity|exact Hnd|congruence].
  - intros t Ht. unfold GetCondition, populated, removed,
      MarkActivatorEndpointsPopulated, MarkActivatorEndpointsRemoved. simpl.
    split; now apply MarkActivatorEndpoints_frame.
  - now apply MarkActivatorEndpoints_set.
  - now apply MarkActivatorEndpoints_set.
Qed.

End LifecycleFacts.

Example SetCondition_stores_sorted :
  map apis.CondType
    (Conditions (Status (MarkActivatorEndpointsPopulated
                           "ActivatorEndpointsPopulated" 900 readyStatus)))
  = [ "ActivatorEndpointsPopulated"; "EndpointsPopulated"; "Ready" ]%string.
Proof. vm_compute. reflexivity. Qed.

(** Marking twice changes nothing the second time, not even the transition
    time. *)
Example MarkActivatorEndpointsPopulated_again :
  MarkActivatorEndpointsPopulated "ActivatorEndpointsPopulated" 950
    (MarkActivatorEndpointsPopulated "ActivatorEndpointsPopulated" 900 readyStatus)
  = MarkActivatorEndpointsPopulated "ActivatorEndpointsPopulated" 900 readyStatus.
Proof. vm_compute. reflexivity. Qed.

Lemma activator_marks_leave_readiness_witness :
  let populated :=
    MarkActivatorEndpointsPopulated "ActivatorEndpointsPopulated" 900 readyStatus in
  let removed :=
    MarkActivatorEndpointsRemoved "ActivatorEndpointsPopulated" 900 readyStatus in
  IsReady "EndpointsPopulated" readyStatus = true
  /\ IsReady "EndpointsPopulated" populated = true
  /\ IsReady "EndpointsPopulated" removed = true
  /\ GetCondition removed "EndpointsPopulated"
     = GetCondition readyStatus "EndpointsPopulated".
Proof.
  assert (Hnd : NoDup (apis.CondType <$> Conditions (Status readyStatus))).
  { apply (bool_decide_unpack _). vm_compute. reflexivity. }
  destruct (activator_marks_leave_readiness "EndpointsPopulated"
              "ActivatorEndpointsPopulated" 900 readyStatus
              ltac:(discriminate) ltac:(discriminate) Hnd)
    as (_ & Hpop & Hrem & Hother & _ & _).
  split; [vm_compute; reflexivity|].
  split; [rewrite Hpop; vm_compute; reflexivity|].
  split; [rewrite Hrem; vm_compute; reflexivity|].
  apply (Hother "EndpointsPopulated"). discriminate.
Defined.

(** On a status with two [Ready] conditions the activator mark does change
    readiness.  [SetCondition] appends the activator condition as the
    seventh and sorts: the pass over the elements six places apart swaps it
    with the first condition, the [Ready] one that is [False], which the
    insertion sort then leaves behind the [Ready] condition that is [True];
    [IsReady], which reads the first [Ready] condition, turns from false to
    true. *)
Lemma readiness_flips_on_repeated_type :
  let marked :=
    MarkActivatorEndpointsPopulated "ActivatorEndpointsPopulated" 900 repeatedReady in
  ~ NoDup (apis.CondType <$> Conditions (Status repeatedReady))
  /\ IsReady "EndpointsPopulated" repeatedReady = false
  /\ IsReady "EndpointsPopulated" marked = true
  /\ GetCondition marked apis.ConditionReady
     <> GetCondition repeatedReady apis.ConditionReady
  /\ map (fun c => (apis.CondType c, apis.Status c)) (Conditions (Status marked))
     = [ ("ActivatorEndpointsPopulated", "True"); ("Active", "True");
         ("ContainerHealthy", "True"); ("EndpointsPopulated", "False");
         ("Ready", "True"); ("Ready", "False");
         ("ResourcesAvailable", "True") ]%string.
Proof.
  split; [|split; [|split; [|split]]]; try (vm_compute; reflexivity).
  - intros Hnd. apply (bool_decide_eq_true_2 _) in Hnd. vm_compute in Hnd. discriminate.
  - vm_compute. discriminate.
Qed.

(** * Further properties of the performance test *)

Section HarnessPaths.

Context {Endpoints : Type} `{!Collaborators Endpoints}.

Implicit Types (w : World) (wt : Watch) (n : Notification Endpoints) (l : loc).
Implicit Types (env : TierEnv Endpoints).

Ltac unfold_run :=
  unfold scaleRevisionByLoad;
  unfold mbind, Test_bind, bind, perform, defer, orFatalf, fatalf, panic,
    mret, Test_ret, ret, makeWatch, Result0, readScaleEvents.

Ltac early_done :=
  split; [reflexivity|];
  split; [discriminate|];
  simpl; rewrite ?actions_deliverAll, ?app_nil_r; reflexivity.

Ltac solve_actions :=
  repeat match goal with x := _ : World |- _ => subst x end;
  unfold TearDown, Unlock, Lock, closeStopCh, StartInformers;
  repeat (simpl; rewrite ?actions_deliverAll);
  rewrite <- ?app_assoc; reflexivity.

(** ** The paths of a tier *)

(** The tier that fails before it makes its watcher: where it ends. *)

Lemma scaleRevisionByLoad_early env t_Name numClients w :
  failsEarly env numClients ->
  let out := scaleRevisionByLoad env t_Name numClients w in
  heap out.1 = heap (deliverAll (beforeWatch env) w)
  /\ (forall tc, out.2 <> Returned tc)
  /\ actions out.1
     = actions w ++ match Setup env with
                    | Ok _ => [ActTearDown (ObjectNameForTest env)]
                    | Err _ => []
                    end.
Proof.
  intros Hearly. unfold failsEarly in Hearly. unfold_run.
  destruct (Setup env) as [[]|e1]; simpl; [|early_done].
  destruct (CreateRunLatestServiceReady env) as [domain|e2]; simpl; [|early_done].
  destruct (GetIngressEndpoint env) as [endpoint|e3]; simpl; [|early_done].
  destruct (WaitForEndpointState env) as [[]|e4]; simpl; [|early_done].
  destruct (_ <? 0) eqn:Hcap; simpl; [early_done|].
  exfalso. destruct Hearly as [[? ?]|[[? ?]|[[? ?]|[[? ?]|?]]]]; discriminate.
Qed.

(** The tier that makes its watcher: how it ends, the variables of the run,
    the outside calls, and the variables of the other runs. *)
Lemma scaleRevisionByLoad_watched env t_Name numClients w domain endpoint :
  Setup env = Ok tt ->
  CreateRunLatestServiceReady env = Ok domain ->
  GetIngressEndpoint env = Ok endpoint ->
  WaitForEndpointState env = Ok tt ->
  (Go.int_mul (Go.int_div numClients targetConcurrency) 10 <? 0) = false ->
  let l := fresh (dom (heap w)) in
  let service := ObjectNameForTest env in
  let opts := makeOpts t_Name numClients domain endpoint in
  let out := scaleRevisionByLoad env t_Name numClients w in
  match RunLoadTest env opts with
  | Err err =>
      out.2 = Fatalf ("Generating traffic via fortio failed: " +:+ err)
      /\ heap out.1 !! l
         = Some (startedWatch service (recorded service l (duringLoad env)) false false)
      /\ actions out.1
         = actions w ++ [ActStartInformers l; ActRunLoadTest opts; ActTearDown service]
      /\ forall l', l' <> l ->
           heap out.1 !! l'
           = handled l' (beforeWatch env ++ duringLoad env) <$> heap w !! l'
  | Ok resp =>
      let evs := recorded service l (duringLoad env ++ afterStop env) in
      heap out.1 !! l = Some (startedWatch service evs false true)
      /\ actions out.1
         = actions w ++ [ActStartInformers l; ActRunLoadTest opts;
                         ActCloseStopCh l; ActSaveJSON; ActTearDown service]
      /\ match Result resp with
         | [] =>
             out.2 = Panic "runtime error: index out of range"
             /\ forall l', l' <> l ->
                  heap out.1 !! l'
                  = handled l' (beforeWatch env ++ duringLoad env ++ afterStop env)
                      <$> heap w !! l'
         | r0 :: _ =>
             out.2 = Returned (fixedMetrics t_Name numClients resp r0
                                 ++ map (scaleRecord t_Name (StartTime r0)) evs
                                 ++ map (percentileRecord t_Name)
                                      (Percentiles (DurationHistogram r0)))
             /\ forall l', l' <> l ->
                  heap out.1 !! l'
                  = handled l' (beforeWatch env ++ duringLoad env ++ afterStop env
                                  ++ whileLocked env)
                      <$> heap w !! l'
         end
  end.
Proof.
  intros HS HC HG HW Hcap l service opts out. unfold out.
  unfold_run. rewrite HS, HC, HG, HW. simpl. rewrite Hcap.
  rewrite dom_deliverAll. fold l. fold service. fold opts.
  set (w0 := deliverAll (beforeWatch env) w).
  set (wt0 := {| names_Service := service; scaleEvents := [];
                 scaleEventsMutex := false; stopCh := false;
                 informerStarted := false |}).
  set (w1 := set_heap (<[l:=wt0]>) w0).
  assert (L1 : heap w1 !! l = Some wt0) by (simpl; apply lookup_insert_eq).
  set (w2 := StartInformers l w1).
  pose proof (lookup_StartInformers _ _ _ L1) as L2. fold w2 in L2.
  set (w3 := act _ w2).
  assert (L3 : heap w3 !! l = Some (set_informerStarted true wt0)) by exact L2.
  set (w4 := deliverAll (duringLoad env) w3).
  pose proof (deliverAll_started (duringLoad env) _ _ _ L3 eq_refl eq_refl) as L4.
  fold w4 in L4.
  assert (O4 : forall l', l' <> l ->
             heap w4 !! l' = handled l' (beforeWatch env ++ duringLoad env)
                               <$> heap w !! l').
  { intros l' Hne. unfold w4. rewrite deliverAll_lookup.
    unfold w3. rewrite lookup_act.
    unfold w2, StartInformers.
    rewrite lookup_act, lookup_set_heap_alter_ne by congruence.
    unfold w1. simpl. rewrite lookup_insert_ne by congruence.
    unfold w0. rewrite deliverAll_lookup.
    destruct (heap w !! l') as [wt'|]; simpl; [|reflexivity].
    now rewrite handled_app. }
  destruct (RunLoadTest env opts) as [resp|err]; simpl.
  - set (w5 := closeStopCh l w4).
    pose proof (lookup_closeStopCh _ _ _ L4) as L5. fold w5 in L5.
    set (w6 := deliverAll (afterStop env) w5).
    pose proof (deliverAll_started (afterStop env) _ _ _ L5 eq_refl eq_refl) as L6.
    fold w6 in L6. simpl in L6. rewrite <- recorded_app in L6.
    set (w7 := act ActSaveJSON w6).
    assert (L7 : heap w7 !! l = heap w6 !! l) by reflexivity. rewrite L6 in L7.
    assert (O7 : forall l', l' <> l ->
               heap w7 !! l'
               = handled l' (beforeWatch env ++ duringLoad env ++ afterStop env)
                   <$> heap w !! l').
    { intros l' Hne. unfold w7. rewrite lookup_act.
      unfold w6. rewrite deliverAll_lookup.
      unfold w5, closeStopCh.
      rewrite lookup_act, lookup_set_heap_alter_ne by congruence.
      rewrite (O4 l' Hne).
      destruct (heap w !! l') as [wt'|]; simpl; [|reflexivity].
      now rewrite handled_app, <- app_assoc. }
    destruct (Result resp) as [|r0 rest]; simpl.
    + split; [exact L7|]. split; [solve_actions|].
      split; [reflexivity|]. intros l' Hne. now apply O7.
    + set (w8 := Lock l w7).
      pose proof (lookup_Lock _ _ _ L7) as L8. fold w8 in L8.
      set (w9 := deliverAll (whileLocked env) w8).
      pose proof (deliverAll_locked (whileLocked env) _ _ _ L8 eq_refl) as L9.
      fold w9 in L9.
      split; [|split; [solve_actions|split]].
      * change (heap (Unlock l w9) !! l
                = Some (startedWatch service
                          (recorded service l (duringLoad env ++ afterStop env))
                          false true)).
        now rewrite (lookup_Unlock _ _ _ L9).
      * now rewrite L9.
      * intros l' Hne.
        change (heap (Unlock l w9) !! l'
                = handled l' (beforeWatch env ++ duringLoad env ++ afterStop env
                                ++ whileLocked env) <$> heap w !! l').
        unfold Unlock. rewrite lookup_set_heap_alter_ne by congruence.
        unfold w9. rewrite deliverAll_lookup.
        unfold w8, Lock. rewrite lookup_set_heap_alter_ne by congruence.
        rewrite (O7 l' Hne).
        destruct (heap w !! l') as [wt'|]; simpl; [|reflexivity].
        now rewrite handled_app, <- !app_assoc.
  - split; [reflexivity|].
    split; [exact L4|]. split; [solve_actions|].
    intros l' Hne. now apply O4.
Qed.

Lemma tier_cases env numClients :
  failsEarly env numClients
  \/ exists domain endpoint,
       Setup env = Ok tt
       /\ CreateRunLatestServiceReady env = Ok domain
       /\ GetIngressEndpoint env = Ok endpoint
       /\ WaitForEndpointState env = Ok tt
       /\ (Go.int_mul (Go.int_div numClients targetConcurrency) 10 <? 0) = false.
Proof.
  unfold failsEarly.
  destruct (Setup env) as [[]|e1]; [|left; left; eauto].
  destruct (CreateRunLatestServiceReady env) as [domain|e2];
    [|left; right; left; eauto].
  destruct (GetIngressEndpoint env) as [endpoint|e3];
    [|left; right; right; left; eauto].
  destruct (WaitForEndpointState env) as [[]|e4];
    [|left; right; right; right; left; eauto].
  destruct (_ <? 0); [left; repeat right; reflexivity|].
  right. exists domain, endpoint. repeat split.
Qed.

(** ** The outside calls of a tier *)

(** X1.  However a tier ends, its outside calls are these and in this
    order: none at all when the setup fails; otherwise the teardown of the
    service exactly once and last, after either nothing, or the start of
    the informer and the load run, or the start of the informer, the load
    run, the close of the stop channel and the saving of the JSON. *)
Theorem tier_outside_calls env t_Name numClients w :
  let out := scaleRevisionByLoad env t_Name numClients w in
  let l := fresh (dom (heap w)) in
  exists steps,
    actions out.1
    = actions w ++ steps ++ match Setup env with
                            | Ok _ => [ActTearDown (ObjectNameForTest env)]
                            | Err _ => []
                            end
    /\ (steps = []
        \/ (exists opts, steps = [ActStartInformers l; ActRunLoadTest opts])
        \/ (exists opts, steps = [ActStartInformers l; ActRunLoadTest opts;
                                  ActCloseStopCh l; ActSaveJSON]))
    /\ ((exists err, Setup env = Err err) -> steps = []).
Proof.
  intros out l.
  destruct (tier_cases env numClients)
    as [Hearly|(domain & endpoint & HS & HC & HG & HW & Hcap)].
  - exists []. destruct (scaleRevisionByLoad_early env t_Name numClients w Hearly)
      as (_ & _ & Hacts).
    split; [exact Hacts|]. split; [now left|reflexivity].
  - pose proof (scaleRevisionByLoad_watched env t_Name numClients w domain endpoint
                  HS HC HG HW Hcap) as Hpath.
    simpl in Hpath. fold out l in Hpath. rewrite HS.
    destruct (RunLoadTest env _) as [resp|err].
    + destruct Hpath as (_ & Hacts & _).
      eexists [_; _; _; _]. split; [exact Hacts|].
      split; [right; right; eauto|]. intros [err Herr]. discriminate.
    + destruct Hpath as (_ & _ & Hacts & _).
      eexists [_; _]. split; [exact Hacts|].
      split; [right; left; eauto|]. intros [e Herr]. discriminate.
Qed.

(** ** The store after a tier *)

(** X2.  A tier leaves no mutex held: if no mutex of the store is held when
    the tier starts, none is held when it ends, whether it returns, fails
    or panics. *)
Theorem tier_releases_mutex env t_Name numClients w :
  unlockedStore w ->
  unlockedStore (scaleRevisionByLoad env t_Name numClients w).1.
Proof.
  intros Hfree l0 wt0 Hl0.
  assert (Hhandled : forall ns wt, scaleEventsMutex (handled l0 ns wt)
                                   = scaleEventsMutex wt).
  { intros ns wt. unfold handled. now destruct (_ && _). }
  assert (Hother : forall ns,
             heap (scaleRevisionByLoad env t_Name numClients w).1 !! l0
             = handled l0 ns <$> heap w !! l0 ->
             scaleEventsMutex wt0 = false).
  { intros ns Heq. rewrite Hl0 in Heq.
    destruct (heap w !! l0) as [wt|] eqn:Hw; [|discriminate].
    injection Heq as ->. rewrite Hhandled. now apply (Hfree l0). }
  destruct (tier_cases env numClients)
    as [Hearly|(domain & endpoint & HS & HC & HG & HW & Hcap)].
  - destruct (scaleRevisionByLoad_early env t_Name numClients w Hearly) as (Hheap & _).
    apply (Hother (beforeWatch env)). rewrite Hheap. apply deliverAll_lookup.
  - pose proof (scaleRevisionByLoad_watched env t_Name numClients w domain endpoint
                  HS HC HG HW Hcap) as Hpath.
    simpl in Hpath.
    destruct (decide (l0 = fresh (dom (heap w)))) as [->|Hne].
    + destruct (RunLoadTest env _) as [resp|err].
      * destruct Hpath as (Hl & _). rewrite Hl in Hl0. now injection Hl0 as <-.
      * destruct Hpath as (_ & Hl & _). rewrite Hl in Hl0. now injection Hl0 as <-.
    + destruct (RunLoadTest env _) as [resp|err].
      * destruct Hpath as (_ & _ & Hres).
        destruct (Result resp); destruct Hres as (_ & Ho);
          eapply Hother; apply (Ho l0 Hne).
      * destruct Hpath as (_ & _ & _ & Ho). eapply Hother; apply (Ho l0 Hne).
Qed.

(** X3.  A tier only ever appends to the logs that are in the store when it
    starts: for every run already there, the service name, the mutex, the
    stop channel and the informer are as before, and the log is the log of
    before followed by new events, whether the tier returns, fails or
    panics. *)
Theorem tier_appends_only env t_Name numClients w l' wt :
  heap w !! l' = Some wt ->
  exists evs,
    heap (scaleRevisionByLoad env t_Name numClients w).1 !! l'
    = Some (set_scaleEvents (scaleEvents wt ++ evs) wt).
Proof.
  intros Hl'.
  assert (Hne : l' <> fresh (dom (heap w))).
  { intros ->. rewrite fresh_loc_absent in Hl'. discriminate. }
  assert (Hhandled : forall ns,
             exists evs, handled l' ns wt = set_scaleEvents (scaleEvents wt ++ evs) wt).
  { intros ns. unfold handled. destruct (_ && _); [eauto|].
    exists []. rewrite app_nil_r. now destruct wt. }
  assert (Hgoal : forall ns,
             heap (scaleRevisionByLoad env t_Name numClients w).1 !! l'
             = handled l' ns <$> heap w !! l' ->
             exists evs,
               heap (scaleRevisionByLoad env t_Name numClients w).1 !! l'
               = Some (set_scaleEvents (scaleEvents wt ++ evs) wt)).
  { intros ns ->. rewrite Hl'. simpl. destruct (Hhandled ns) as [evs ->]. eauto. }
  destruct (tier_cases env numClients)
    as [Hearly|(domain & endpoint & HS & HC & HG & HW & Hcap)].
  - destruct (scaleRevisionByLoad_early env t_Name numClients w Hearly) as (Hheap & _).
    apply (Hgoal (beforeWatch env)). rewrite Hheap. apply deliverAll_lookup.
  - pose proof (scaleRevisionByLoad_watched env t_Name numClients w domain endpoint
                  HS HC HG HW Hcap) as Hpath.
    simpl in Hpath.
    destruct (RunLoadTest env _) as [resp|err].
    + destruct Hpath as (_ & _ & Hres).
      destruct (Result resp); destruct Hres as (_ & Ho);
        eapply Hgoal; apply (Ho l' Hne).
    + destruct Hpath as (_ & _ & _ & Ho). eapply Hgoal; apply (Ho l' Hne).
Qed.

(** ** The test name of the records *)

Lemma scaleRevisionByLoad_testName env t_Name numClients w tc :
  (scaleRevisionByLoad env t_Name numClients w).2 = Returned tc ->
  Forall (fun r => testName r = t_Name) tc.
Proof.
  intros Hret.
  destruct (tier_cases env numClients)
    as [Hearly|(domain & endpoint & HS & HC & HG & HW & Hcap)].
  - destruct (scaleRevisionByLoad_early env t_Name numClients w Hearly) as (_ & Hno & _).
    now apply Hno in Hret.
  - pose proof (scaleRevisionByLoad_watched env t_Name numClients w domain endpoint
                  HS HC HG HW Hcap) as Hpath.
    simpl in Hpath.
    destruct (RunLoadTest env _) as [resp|err].
    + destruct Hpath as (_ & _ & Hres).
      destruct (Result resp) as [|r0 rest]; destruct Hres as (Hout & _);
        rewrite Hout in Hret; [discriminate|].
      injection Hret as <-.
      repeat (apply Forall_cons; split; [reflexivity|]).
      change (map ?f ?l) with (f <$> l).
      rewrite Forall_app, !Forall_fmap. split; now apply Forall_true.
    + destruct Hpath as (Hout & _). rewrite Hout in Hret. discriminate.
Qed.

(** X4.  Every record that a sweep gathers carries, as its test name, the
    name of the subtest of one of the tiers of the sweep: a tier builds all
    its records with its own [t.Name()], and the sweep adds nothing to
    them. *)
Theorem sweep_records_name_their_tier
    (env : Z -> TierEnv Endpoints) t_Name tiers w w' tc :
  runTiers env t_Name tiers [] w = (w', Returned tc) ->
  Forall (fun r => testName r ∈ map (subtestName t_Name) tiers) tc.
Proof.
  pose (names := map (subtestName t_Name) tiers).
  assert (Hgen : forall (ts : list Z) (tc0 : list TestCase) w0,
             (forall k : Z, k ∈ ts -> subtestName t_Name k ∈ names) ->
             Forall (fun r => testName r ∈ names) tc0 ->
             runTiers env t_Name ts tc0 w0 = (w', Returned tc) ->
             Forall (fun r => testName r ∈ names) tc).
  { induction ts as [|n ts IH]; intros tc0 w0 Hin Htc0 Hrun; simpl in Hrun.
    - now injection Hrun as _ <-.
    - pose proof (scaleRevisionByLoad_testName (env n) (subtestName t_Name n) n
                    (act (ActRun (subtestName t_Name n)) w0)) as Hname.
      destruct (scaleRevisionByLoad (env n) (subtestName t_Name n) n
                  (act (ActRun (subtestName t_Name n)) w0)) as [w1 o].
      assert (Hts : forall m : Z, m ∈ ts -> subtestName t_Name m ∈ names)
        by (intros m Hm; apply Hin; now right).
      destruct o as [recs|msg|msg]; [| |discriminate].
      + apply (IH (tc0 ++ recs) w1 Hts); [|exact Hrun].
        apply Forall_app. split; [exact Htc0|].
        specialize (Hname recs eq_refl).
        eapply Forall_impl; [exact Hname|].
        intros r ->. apply Hin. now left.
      + now apply (IH tc0 w1 Hts). }
  intros Hrun. apply (Hgen tiers [] w); [|constructor|exact Hrun].
  intros k Hk. unfold names. change (map ?f ?l) with (f <$> l).
  now apply list_elem_of_fmap_2.
Qed.

(** ** A panic in a tier *)

Lemma scaleRevisionByLoad_xmlOutputs env t_Name numClients w :
  xmlOutputs (actions (scaleRevisionByLoad env t_Name numClients w).1)
  = xmlOutputs (actions w).
Proof.
  destruct (tier_cases env numClients)
    as [Hearly|(domain & endpoint & HS & HC & HG & HW & Hcap)].
  - destruct (scaleRevisionByLoad_early env t_Name numClients w Hearly)
      as (_ & _ & ->).
    unfold xmlOutputs. rewrite omap_app.
    destruct (Setup env); simpl; now rewrite app_nil_r.
  - pose proof (scaleRevisionByLoad_watched env t_Name numClients w domain endpoint
                  HS HC HG HW Hcap) as Hpath.
    simpl in Hpath. unfold xmlOutputs.
    destruct (RunLoadTest env _) as [resp|err].
    + destruct Hpath as (_ & -> & _). rewrite omap_app. simpl. now rewrite app_nil_r.
    + destruct Hpath as (_ & _ & -> & _). rewrite omap_app. simpl. now rewrite app_nil_r.
Qed.

Lemma runTiers_panics (env : Z -> TierEnv Endpoints) t_Name tiers tc w :
  Exists (fun o => isPanic o = true) (tierOutcomes env t_Name tiers w) ->
  exists w' msg,
    runTiers env t_Name tiers tc w = (w', Panic msg)
    /\ subtestsRun (actions w')
       = subtestsRun (actions w)
         ++ map (subtestName t_Name)
              (take (length (tierOutcomes env t_Name tiers w)) tiers)
    /\ xmlOutputs (actions w') = xmlOutputs (actions w).
Proof.
  revert tc w. induction tiers as [|n tiers IH]; intros tc w Hex; simpl in *.
  - now apply Exists_nil in Hex.
  - pose proof (scaleRevisionByLoad_subtestsRun (env n) (subtestName t_Name n) n
                  (act (ActRun (subtestName t_Name n)) w)) as Hruns.
    pose proof (scaleRevisionByLoad_xmlOutputs (env n) (subtestName t_Name n) n
                  (act (ActRun (subtestName t_Name n)) w)) as Hxml.
    destruct (scaleRevisionByLoad (env n) (subtestName t_Name n) n
                (act (ActRun (subtestName t_Name n)) w)) as [w1 o].
    simpl in Hruns, Hxml. rewrite subtestsRun_app in Hruns.
    unfold xmlOutputs in Hxml. rewrite omap_app in Hxml. simpl in Hruns, Hxml.
    rewrite app_nil_r in Hxml.
    apply Exists_cons in Hex as [Ho|Hex].
    + destruct o as [recs|msg|msg]; try discriminate.
      exists w1, msg. simpl. rewrite Hruns. repeat split. exact Hxml.
    + destruct o as [recs|msg|msg]; [| |now apply Exists_nil in Hex].
      * destruct (IH (tc ++ recs) w1 Hex) as (w' & msg & Hrun & Hsub & Hx).
        exists w', msg. simpl. rewrite Hrun, Hsub, Hruns, Hx, <- app_assoc.
        repeat split. exact Hxml.
      * destruct (IH tc w1 Hex) as (w' & msg' & Hrun & Hsub & Hx).
        exists w', msg'. simpl. rewrite Hrun, Hsub, Hruns, Hx, <- app_assoc.
        repeat split. exact Hxml.
Qed.

(** X5.  A tier that panics ends [TestScaleRevisionByLoad] there: the tiers
    after it are not run, and the XML sink is never called, so the records
    of the tiers that had returned before are not reported either. *)
Theorem panic_ends_the_sweep (env : Z -> TierEnv Endpoints) w xml :
  let t_Name := "TestScaleRevisionByLoad"%string in
  let outcomes := tierOutcomes env t_Name concurrentClients w in
  Exists (fun o => isPanic o = true) outcomes ->
  let out := TestScaleRevisionByLoad env xml w in
  (exists msg, out.2 = Panic msg)
  /\ subtestsRun (actions out.1)
     = subtestsRun (actions w)
       ++ map (subtestName t_Name) (take (length outcomes) concurrentClients)
  /\ xmlOutputs (actions out.1) = xmlOutputs (actions w).
Proof.
  intros t_Name outcomes Hex out.
  destruct (runTiers_panics env t_Name concurrentClients [] w Hex)
    as (w' & msg & Hrun & Hsub & Hxml).
  unfold out, TestScaleRevisionByLoad.
  unfold mbind, Test_bind, bind. fold t_Name. rewrite Hrun. simpl.
  split; [now exists msg|]. split; [exact Hsub|exact Hxml].
Qed.

(** ** A negative client count *)

Lemma capacity_negative numClients :
  Go.minInt64 <= numClients <= -10 ->
  (Go.int_mul (Go.int_div numClients targetConcurrency) 10 <? 0) = true.
Proof.
  intros [Hmin Hmax]. apply Z.ltb_lt.
  unfold Go.int_mul, Go.int_div, Go.wrap64, targetConcurrency, Go.minInt64 in *.
  assert (Hq : numClients ÷ 10 = - (- numClients ÷ 10))
    by (rewrite Z.quot_opp_l by lia; lia).
  assert (H1 : 1 <= - numClients ÷ 10) by (apply Z.quot_le_lower_bound; lia).
  assert (H2 : - numClients ÷ 10 * 10 <= - numClients).
  { rewrite Z.mul_comm. apply Z.mul_quot_le; lia. }
  rewrite (Z.mod_small (numClients ÷ 10 + 2 ^ 63)) by lia.
  replace (numClients ÷ 10 + 2 ^ 63 - 2 ^ 63) with (numClients ÷ 10) by lia.
  rewrite Z.mod_small by lia. lia.
Qed.

(** X6.  With a client count of -10 or less, a tier whose service is up
    panics when it makes its log, the capacity asked of [make] being
    negative: no informer is started, no load is run, no record is
    returned, and the deferred teardown of the service is the only outside
    call. *)
Theorem negative_client_count_panics env t_Name numClients w domain endpoint :
  Go.minInt64 <= numClients <= -10 ->
  Setup env = Ok tt ->
  CreateRunLatestServiceReady env = Ok domain ->
  GetIngressEndpoint env = Ok endpoint ->
  WaitForEndpointState env = Ok tt ->
  let out := scaleRevisionByLoad env t_Name numClients w in
  isPanic out.2 = true
  /\ heap out.1 = heap (deliverAll (beforeWatch env) w)
  /\ actions out.1 = actions w ++ [ActTearDown (ObjectNameForTest env)].
Proof.
  intros Hn HS HC HG HW out. unfold out. unfold_run.
  rewrite HS, HC, HG, HW. simpl. rewrite (capacity_negative _ Hn). simpl.
  rewrite actions_deliverAll. repeat split.
Qed.

(** ** Notifications the handler passes over *)

Lemma set_heap_insert_id w l wt :
  heap w !! l = Some wt -> set_heap (<[l:=wt]>) w = w.
Proof.
  intros Hl. destruct w as [h acts]. unfold set_heap. simpl in *.
  now rewrite insert_id.
Qed.

(** X7.  A notification about an object whose name does not contain the
    name of the service, or whose two objects carry the same ready count,
    changes nothing at all: neither the log nor anything else in the
    store. *)
Theorem notification_passed_over n w :
  (forall wt, heap w !! informer n = Some wt ->
              matches (names_Service wt) n = false \/ changed n = false) ->
  deliver n w = w.
Proof.
  intros Hpass. unfold deliver.
  destruct (heap w !! informer n) as [wt|] eqn:Hl; [|reflexivity].
  destruct (informerStarted wt); [|reflexivity].
  assert (Hsame : UpdateFunc wt (oldObj n) (newObj n) (now n) = Some wt).
  { unfold UpdateFunc.
    destruct (Hpass wt eq_refl) as [Hm|Hc].
    - unfold matches in Hm. now rewrite Hm.
    - unfold changed in Hc. destruct (Go.Contains _ _); [|reflexivity].
      now rewrite Hc. }
  rewrite Hsame. now apply set_heap_insert_id.
Qed.

Lemma prefix_nil (s : string) : String.prefix "" s = true.
Proof. now destruct s. Qed.

Lemma prefix_spec (a s : string) :
  String.prefix a s = true <-> exists post, s = a +:+ post.
Proof.
  revert s. induction a as [|c a IH]; intros s.
  - rewrite prefix_nil. split; [intros _; now exists s|reflexivity].
  - destruct s as [|d s]; simpl;
      [split; [discriminate|intros [post Hp]; discriminate]|].
    destruct (ascii_dec c d) as [->|Hne].
    + rewrite IH. split; intros [post Hp]; exists post; [now rewrite Hp|].
      simpl in Hp. now injection Hp.
    + split; [discriminate|]. intros [post Hp]. simpl in Hp. injection Hp as Hcd _.
      congruence.
Qed.

Lemma Contains_cons (c : ascii) (s substr : string) :
  Go.Contains (String c s) substr
  = String.prefix substr (String c s) || Go.Contains s substr.
Proof. reflexivity. Qed.

Lemma Contains_prefix (s substr : string) :
  String.prefix substr s = true -> Go.Contains s substr = true.
Proof. intros Hp. destruct s; simpl in *; now rewrite Hp. Qed.

Lemma Contains_spec (s substr : string) :
  Go.Contains s substr = true <-> exists pre post, s = pre +:+ substr +:+ post.
Proof.
  split.
  - induction s as [|c s IH].
    + intros Hc.
      assert (Hp : String.prefix substr "" = true).
      { simpl in Hc. now rewrite orb_false_r in Hc. }
      apply prefix_spec in Hp as [post Hp]. now exists ""%string, post.
    + rewrite Contains_cons, orb_true_iff. intros [Hp|Hc].
      * apply prefix_spec in Hp as [post Hp]. now exists ""%string, post.
      * destruct (IH Hc) as (pre & post & ->). now exists (String c pre), post.
  - intros (pre & post & ->). induction pre as [|c pre IH].
    + apply Contains_prefix, prefix_spec. now exists post.
    + change (String c pre +:+ substr +:+ post)
        with (String c (pre +:+ substr +:+ post)).
      rewrite Contains_cons, IH. apply orb_true_r.
Qed.

(** X8.  The handler takes a notification to be about the service under
    test exactly when the name of the new object has the name of the
    service somewhere inside it; the name of the old object plays no
    part. *)
Theorem watcher_matches_by_substring (service : string) n :
  matches service n = true
  <-> exists pre post, GetName (newObj n) = pre +:+ service +:+ post.
Proof. unfold matches. apply Contains_spec. Qed.

(** ** The value of a scale record *)

(** X9.  The seconds of a scale record are whole seconds, cut toward zero:
    an event less than a second away from the start of the load, before it
    or after it, is reported at zero seconds. *)
Theorem scale_within_a_second_reads_zero (t_Name : string) (startTime : Go.Time)
    (ev : scaleEvent) :
  - Go.Second < timestamp ev - startTime < Go.Second ->
  metricValue (scaleRecord t_Name startTime ev) = S754_zero false.
Proof.
  intros [Hlo Hhi]. unfold scaleRecord. simpl.
  assert (Hsub : Go.Sub (timestamp ev) startTime = timestamp ev - startTime).
  { unfold Go.Sub, Go.minInt64, Go.maxInt64, Go.Second in *.
    destruct (Z.ltb_spec (timestamp ev - startTime) (- 2 ^ 63)); [lia|].
    destruct (Z.ltb_spec (2 ^ 63 - 1) (timestamp ev - startTime)); [lia|].
    reflexivity. }
  rewrite Hsub.
  assert (Hq : (timestamp ev - startTime) ÷ Go.Second = 0).
  { unfold Go.Second in *.
    destruct (Z.le_gt_cases 0 (timestamp ev - startTime)).
    - apply Z.quot_small. lia.
    - replace (timestamp ev - startTime) with (- (startTime - timestamp ev)) by lia.
      rewrite Z.quot_opp_l by lia. rewrite Z.quot_small; lia. }
  unfold Go.int_div. rewrite Hq. reflexivity.
Qed.

(** ** The file name prefix of the load run *)

Lemma prefix_head_ne (a b : ascii) (s1 s2 : string) :
  a <> b -> String.prefix (String a s1) (String b s2) = false.
Proof.
  intros Hne. cbn [String.prefix].
  destruct (ascii_dec a b); [contradiction|reflexivity].
Qed.

Lemma prefix_head_eq (a : ascii) (s1 s2 : string) :
  String.prefix (String a s1) (String a s2) = String.prefix s1 s2.
Proof.
  cbn [String.prefix]. destruct (ascii_dec a a); [reflexivity|contradiction].
Qed.

Lemma ReplaceSlash_cons (c : ascii) (s : string) :
  Go.ReplaceSlash (String c s)
  = String (if Ascii.eqb c "/" then "_"%char else c) (Go.ReplaceSlash s).
Proof. reflexivity. Qed.

Lemma ReplaceSlash_no_slash (s : string) : Go.Contains (Go.ReplaceSlash s) "/" = false.
Proof.
  induction s as [|c s IH]; [reflexivity|].
  rewrite ReplaceSlash_cons, Contains_cons, IH, orb_false_r.
  apply prefix_head_ne.
  destruct (Ascii.eqb_spec c "/") as [->|Hne]; [discriminate|congruence].
Qed.

Lemma ReplaceSlash_length (s : string) :
  String.length (Go.ReplaceSlash s) = String.length s.
Proof. induction s as [|c s IH]; simpl; congruence. Qed.

Lemma ReplaceSlash_id (s : string) :
  Go.Contains s "/" = false -> Go.ReplaceSlash s = s.
Proof.
  induction s as [|c s IH]; [reflexivity|].
  rewrite Contains_cons, orb_false_iff. intros [Hp Hc].
  rewrite ReplaceSlash_cons, (IH Hc).
  destruct (Ascii.eqb_spec c "/") as [->|Hne]; [|reflexivity].
  rewrite prefix_head_eq, prefix_nil in Hp. discriminate.
Qed.

(** X10.  The file name prefix handed to the load generator is the name of
    the test with every slash turned into an underscore: it is as long as
    the name, has no slash left, and is the name itself when the name has
    none. *)
Theorem file_name_prefix_has_no_slash (t_Name : string) (numClients : Z)
    (domain endpoint : string) :
  let prefix := FileNamePrefix (makeOpts t_Name numClients domain endpoint) in
  Go.Contains prefix "/" = false
  /\ String.length prefix = String.length t_Name
  /\ (Go.Contains t_Name "/" = false -> prefix = t_Name)
  /\ FileNamePrefix (makeOpts prefix numClients domain endpoint) = prefix.
Proof.
  cbn [FileNamePrefix makeOpts]. split; [apply ReplaceSlash_no_slash|].
  split; [apply ReplaceSlash_length|]. split; [apply ReplaceSlash_id|].
  apply ReplaceSlash_id, ReplaceSlash_no_slash.
Qed.

(** ** The report of a sweep *)

Lemma runTiers_xmlOutputs (env : Z -> TierEnv Endpoints) t_Name tiers tc w :
  xmlOutputs (actions (runTiers env t_Name tiers tc w).1) = xmlOutputs (actions w).
Proof.
  revert tc w. induction tiers as [|k tiers IH]; intros tc w; simpl; [reflexivity|].
  pose proof (scaleRevisionByLoad_xmlOutputs (env k) (subtestName t_Name k) k
                (act (ActRun (subtestName t_Name k)) w)) as Hxml.
  destruct (scaleRevisionByLoad (env k) (subtestName t_Name k) k
              (act (ActRun (subtestName t_Name k)) w)) as [w1 o].
  simpl in Hxml. unfold xmlOutputs in Hxml at 2. rewrite omap_app in Hxml.
  simpl in Hxml. rewrite app_nil_r in Hxml.
  destruct o as [recs|msg|msg]; simpl; rewrite ?IH; exact Hxml.
Qed.

(** X11.  When no tier panics, [TestScaleRevisionByLoad] calls the XML sink
    exactly once, as its last outside call, with the records of the tiers
    that returned, in tier order, under the name of the test; an error of
    the sink is a failure of the test with that error in its message. *)
Theorem sweep_reports_once (env : Z -> TierEnv Endpoints) w xml :
  let t_Name := "TestScaleRevisionByLoad"%string in
  let outcomes := tierOutcomes env t_Name concurrentClients w in
  Forall (fun o => isPanic o = false) outcomes ->
  let out := TestScaleRevisionByLoad env xml w in
  xmlOutputs (actions out.1)
  = xmlOutputs (actions w) ++ [(concat (map recordsOf outcomes), t_Name)]
  /\ last (actions out.1)
     = Some (ActCreateXMLOutput (concat (map recordsOf outcomes)) t_Name)
  /\ (forall err, xml = Err err ->
        out.2 = Fatalf ("Cannot create output XML: " +:+ err)).
Proof.
  intros t_Name outcomes Hsuite out.
  destruct (runTiers_returns env t_Name concurrentClients [] w Hsuite) as (w1 & Hrun).
  pose proof (runTiers_xmlOutputs env t_Name concurrentClients [] w) as Hxml.
  rewrite Hrun in Hxml. simpl in Hxml.
  unfold out, TestScaleRevisionByLoad.
  unfold mbind, Test_bind, bind, perform, orFatalf, fatalf, mret, Test_ret, ret.
  fold t_Name. rewrite Hrun. simpl app. fold outcomes.
  destruct xml as [[]|e]; simpl; unfold xmlOutputs in *;
    rewrite omap_app, Hxml, last_snoc; simpl;
    (split; [reflexivity|split; [reflexivity|]]).
  - intros err Herr. discriminate.
  - intros err Herr. now injection Herr as ->.
Qed.

End HarnessPaths.

(** ** The further statements on the small cluster *)

Lemma tier_releases_mutex_witness :
  let out := scaleRevisionByLoad Demo.second "TestScaleRevisionByLoad/clients-020" 20
               Demo.watching in
  unlockedStore Demo.watching
  /\ unlockedStore out.1
  /\ (scaleEventsMutex <$> heap out.1 !! 1%nat) = Some false.
Proof.
  assert (Hfree : unlockedStore Demo.watching).
  { intros l wt Hl. unfold Demo.watching in Hl. simpl in Hl.
    apply lookup_singleton_Some in Hl as [_ <-]. reflexivity. }
  split; [exact Hfree|]. split; [|vm_compute; reflexivity].
  exact (tier_releases_mutex Demo.second "TestScaleRevisionByLoad/clients-020" 20
           Demo.watching Hfree).
Defined.

Lemma tier_appends_only_witness :
  let out := scaleRevisionByLoad Demo.second "TestScaleRevisionByLoad/clients-020" 20
               Demo.watching in
  (exists evs,
     heap out.1 !! 0%nat
     = Some (set_scaleEvents evs (startedWatch Demo.service [] false false)))
  /\ (length <$> (scaleEvents <$> heap out.1 !! 0%nat)) = Some 1%nat.
Proof.
  destruct (tier_appends_only Demo.second "TestScaleRevisionByLoad/clients-020" 20
              Demo.watching 0%nat (startedWatch Demo.service [] false false) eq_refl)
    as [evs Hevs].
  split; [exists evs; exact Hevs|]. vm_compute. reflexivity.
Defined.

Lemma sweep_records_name_their_tier_witness :
  exists w' tc,
    runTiers Demo.sweep "TestScaleRevisionByLoad" concurrentClients [] emptyWorld
    = (w', Returned tc)
    /\ length tc = 30%nat
    /\ Forall (fun r => testName r
                        ∈ map (subtestName "TestScaleRevisionByLoad") concurrentClients)
         tc.
Proof.
  destruct (runTiers_returns Demo.sweep "TestScaleRevisionByLoad" concurrentClients []
              emptyWorld) as (w' & Hrun).
  - apply (bool_decide_unpack _). vm_compute. reflexivity.
  - exists w'. eexists. split; [exact Hrun|]. split; [vm_compute; reflexivity|].
    exact (sweep_records_name_their_tier Demo.sweep "TestScaleRevisionByLoad"
             concurrentClients emptyWorld w' _ Hrun).
Defined.

Lemma panic_ends_the_sweep_witness :
  let out := TestScaleRevisionByLoad Demo.sweepWithPanic (Ok tt) emptyWorld in
  isPanic out.2 = true
  /\ subtestsRun (actions out.1)
     = [ "TestScaleRevisionByLoad/clients-010"; "TestScaleRevisionByLoad/clients-020";
         "TestScaleRevisionByLoad/clients-040" ]%string
  /\ xmlOutputs (actions out.1) = [].
Proof.
  destruct (panic_ends_the_sweep Demo.sweepWithPanic emptyWorld (Ok tt))
    as (_ & Hsub & Hxml).
  - apply (bool_decide_unpack _). vm_compute. reflexivity.
  - split; [vm_compute; reflexivity|]. split; [|exact Hxml].
    rewrite Hsub. vm_compute. reflexivity.
Defined.

Lemma negative_client_count_panics_witness :
  let out := scaleRevisionByLoad Demo.quiet Demo.tierName (-20) emptyWorld in
  Go.int_mul (Go.int_div (-20) targetConcurrency) 10 = -20
  /\ isPanic out.2 = true
  /\ heap out.1 = heap emptyWorld
  /\ actions out.1 = [ActTearDown Demo.service].
Proof.
  assert (Hn : Go.minInt64 <= -20 <= -10) by (unfold Go.minInt64; lia).
  split; [vm_compute; reflexivity|].
  exact (negative_client_count_panics Demo.quiet Demo.tierName (-20) emptyWorld
           "demo.example.com" "10.1.2.3" Hn eq_refl eq_refl eq_refl eq_refl).
Defined.

Lemma notification_passed_over_witness :
  let resync := Demo.update 0%nat 1 1 (Demo.T0 + 1 * Go.Second) in
  let other := {| informer := 0%nat; oldObj := Demo.unrelated 1;
                  newObj := Demo.unrelated 2; now := Demo.T0 + 6 * Go.Second |} in
  deliver resync Demo.watching = Demo.watching
  /\ deliver other Demo.watching = Demo.watching.
Proof.
  split.
  - apply (notification_passed_over
             (Demo.update 0%nat 1 1 (Demo.T0 + 1 * Go.Second)) Demo.watching).
    intros wt _. right. vm_compute. reflexivity.
  - apply (notification_passed_over
             {| informer := 0%nat; oldObj := Demo.unrelated 1;
                newObj := Demo.unrelated 2; now := Demo.T0 + 6 * Go.Second |}
             Demo.watching).
    intros wt Hl. left. unfold Demo.watching in Hl. simpl in Hl.
    apply lookup_singleton_Some in Hl as [_ <-]. vm_compute. reflexivity.
Defined.

Lemma scale_within_a_second_reads_zero_witness :
  let before := {| oldScale := 1; newScale := 2;
                   timestamp := Demo.T0 - 999999999 |} in
  let after := {| oldScale := 2; newScale := 3;
                  timestamp := Demo.T0 + 999999999 |} in
  metricValue (scaleRecord Demo.tierName Demo.T0 before) = S754_zero false
  /\ metricValue (scaleRecord Demo.tierName Demo.T0 after) = S754_zero false.
Proof.
  split.
  - apply (scale_within_a_second_reads_zero Demo.tierName Demo.T0
             {| oldScale := 1; newScale := 2; timestamp := Demo.T0 - 999999999 |}).
    vm_compute. split; reflexivity.
  - apply (scale_within_a_second_reads_zero Demo.tierName Demo.T0
             {| oldScale := 2; newScale := 3; timestamp := Demo.T0 + 999999999 |}).
    vm_compute. split; reflexivity.
Defined.

Lemma sweep_reports_once_witness :
  let out := TestScaleRevisionByLoad Demo.sweep (Err "disk full"%string) emptyWorld in
  (exists tc,
     xmlOutputs (actions out.1) = [(tc, "TestScaleRevisionByLoad"%string)]
     /\ length tc = 30%nat)
  /\ out.2 = Fatalf "Cannot create output XML: disk full".
Proof.
  destruct (sweep_reports_once Demo.sweep emptyWorld (Err "disk full"%string))
    as (Hxml & _ & Hout).
  - apply (bool_decide_unpack _). vm_compute. reflexivity.
  - split; [|exact (Hout _ eq_refl)].
    eexists. split; [exact Hxml|]. vm_compute. reflexivity.
Defined.


(** * Further properties of the ServerlessService lifecycle *)

(** ** The condition manager: setting a condition again *)

Section MarkFacts.

Import apis.

Implicit Types (c d new a b : Condition) (cs kept : list Condition) (t : ConditionType).
Implicit Types (s : list Condition * nat) (clock : nat -> Go.Time) (r : ConditionSet).

Lemma sameButTime_eq c new :
  sameButTime c new -> set_LastTransitionTime (LastTransitionTime c) new = c.
Proof.
  destruct c, new. unfold sameButTime, set_LastTransitionTime. simpl.
  intros H. injection H as -> -> -> -> ->. reflexivity.
Qed.

Lemma sameButTime_at now c new :
  sameButTime c new -> set_LastTransitionTime now c = set_LastTransitionTime now new.
Proof.
  destruct c, new. unfold sameButTime, set_LastTransitionTime. simpl.
  intros H. injection H as -> -> -> -> ->. reflexivity.
Qed.

Lemma sameButTime_trans c d new : sameButTime c d -> sameButTime d new -> sameButTime c new.
Proof. unfold sameButTime. congruence. Qed.

(** The condition of a type is the only one of its type in the list. *)
Lemma GetCondition_only cs t c :
  c ∈ cs -> CondType c = t -> (forall d, d ∈ cs -> CondType d = t -> d = c) ->
  GetCondition cs t = Some c.
Proof.
  intros Hin Hty Honly. destruct (GetCondition cs t) as [d|] eqn:Hget.
  - apply GetCondition_Some in Hget as [Hd Hdt]. now rewrite (Honly d Hd Hdt).
  - exfalso. exact (proj1 (GetCondition_None cs t) Hget c Hin Hty).
Qed.

(** The loop of [SetCondition] returns early at the first condition of the
    type when it is the new one but for the time. *)
Lemma SetCondition_loop_first new cs kept c :
  GetCondition cs (CondType new) = Some c -> sameButTime c new ->
  SetCondition_loop new cs kept = None.
Proof.
  unfold GetCondition. revert kept.
  induction cs as [|d cs IH]; intros kept Hget Hsame; simpl in *; [discriminate|].
  destruct (decide (CondType d = CondType new)) as [Heq|Hne].
  - rewrite bool_decide_eq_true_2 in Hget by exact Heq. injection Hget as ->.
    rewrite bool_decide_eq_false_2 by (intros Hn; now apply Hn).
    rewrite (sameButTime_eq _ _ Hsame). now rewrite bool_decide_eq_true_2.
  - rewrite bool_decide_eq_false_2 in Hget by exact Hne.
    rewrite bool_decide_eq_true_2 by exact Hne. now apply IH.
Qed.

Lemma SetCondition_unchanged now new cs c :
  GetCondition cs (CondType new) = Some c -> sameButTime c new ->
  SetCondition now new cs = cs.
Proof.
  intros Hget Hsame. unfold SetCondition.
  now rewrite (SetCondition_loop_first _ _ _ _ Hget Hsame).
Qed.

(** Setting the same condition twice is setting it once: the second call
    finds it and returns early, whatever the clock reads. *)
Lemma SetCondition_twice now now' new cs :
  SetCondition now' new (SetCondition now new cs) = SetCondition now new cs.
Proof.
  unfold SetCondition at 2 3.
  destruct (SetCondition_loop new cs []) as [[new' kept]|] eqn:Hloop.
  - apply SetCondition_loop_Some in Hloop as [-> Hsame]. simpl.
    pose proof (sameButTime_CondType _ _ Hsame) as Hty.
    apply (SetCondition_unchanged _ _ _ (set_LastTransitionTime now new'));
      [|exact Hsame].
    apply GetCondition_only; [| exact Hty |].
    + rewrite sortByType_perm. apply elem_of_app. right. now left.
    + intros d Hd Hdt. rewrite sortByType_perm in Hd.
      apply elem_of_app in Hd as [Hd|Hd]; [|now apply list_elem_of_singleton in Hd].
      apply list_elem_of_filter in Hd as [Hne _]. contradiction.
  - unfold SetCondition. now rewrite Hloop.
Qed.

(** When the condition of the type is not the new one already,
    [SetCondition] stores the new one with the reading of the clock. *)
Lemma SetCondition_changed now new cs :
  NoDup (CondType <$> cs) ->
  (forall c, GetCondition cs (CondType new) = Some c -> ~ sameButTime c new) ->
  GetCondition (SetCondition now new cs) (CondType new)
  = Some (set_LastTransitionTime now new).
Proof.
  intros Hnd Hdiff. unfold SetCondition.
  destruct (SetCondition_loop new cs []) as [[new' kept]|] eqn:Hloop.
  - apply SetCondition_loop_Some in Hloop as [-> Hsame]. simpl.
    rewrite <- (sameButTime_at now _ _ Hsame).
    assert (Hty' : CondType (set_LastTransitionTime now new') = CondType new)
      by exact (sameButTime_CondType _ _ Hsame).
    apply GetCondition_unique; [| |exact Hty'].
    + rewrite sortByType_perm, <- Hty'. now apply NoDup_types_replaced.
    + rewrite sortByType_perm. apply elem_of_app. right. now left.
  - apply SetCondition_loop_None in Hloop as (c & Hin & Hsame).
    exfalso. apply (Hdiff c); [|exact Hsame].
    apply GetCondition_unique; [exact Hnd|exact Hin|].
    exact (sameButTime_CondType _ _ Hsame).
Qed.

(** ** The stores of a mark *)

Lemma store_conditions clock new s :
  (store clock new s).1 = SetCondition (clock s.2) new s.1.
Proof.
  unfold store, SetCondition. destruct s as [cs k]. simpl.
  now destruct (SetCondition_loop new cs []) as [[new' kept]|].
Qed.

Lemma store_fresh clock new s :
  GetCondition s.1 (CondType new) = None ->
  store clock new s = (SetCondition (clock s.2) new s.1, S s.2).
Proof.
  intros Hget. unfold store.
  destruct (SetCondition_loop _ _ _) as [[new' kept]|] eqn:Hloop; [reflexivity|].
  apply SetCondition_loop_None in Hloop as (c & Hin & Hsame). exfalso.
  exact (proj1 (GetCondition_None _ _) Hget c Hin (sameButTime_CondType _ _ Hsame)).
Qed.

Lemma store_NoDup clock new s :
  NoDup (CondType <$> s.1) -> NoDup (CondType <$> (store clock new s).1).
Proof. intros Hnd. rewrite store_conditions. now apply SetCondition_NoDup. Qed.

Lemma MarkTrue_NoDup r clock t s :
  NoDup (CondType <$> s.1) -> NoDup (CondType <$> (MarkTrue r clock t s).1).
Proof.
  intros Hnd. unfold MarkTrue. destruct (forallb _ _); repeat apply store_NoDup; exact Hnd.
Qed.

Lemma MarkFalse_NoDup r clock t reason message s :
  NoDup (CondType <$> s.1) ->
  NoDup (CondType <$> (MarkFalse r clock t reason message s).1).
Proof.
  unfold MarkFalse. generalize (t :: flat_map
    (fun cond => if bool_decide (cond = t) then [happy r] else []) (dependents r)).
  intros types. revert s. induction types as [|t' types IH]; intros s Hnd; simpl;
    [exact Hnd|].
  apply IH. now apply store_NoDup.
Qed.

Lemma MarkUnknown_NoDup r clock t reason message s :
  NoDup (CondType <$> s.1) ->
  NoDup (CondType <$> (MarkUnknown r clock t reason message s).1).
Proof.
  intros Hnd. unfold MarkUnknown.
  generalize false. generalize (dependents r).
  set (s1 := store _ _ s).
  assert (Hnd1 : NoDup (CondType <$> s1.1)) by now apply store_NoDup.
  clearbody s1. intros deps.
  induction deps as [|cond deps IH]; intros isDependent; simpl.
  - destruct isDependent; [now apply store_NoDup|exact Hnd1].
  - destruct (isFalse (GetCondition _ cond)); [|apply IH].
    destruct (isFalse _); [exact Hnd1|now apply MarkFalse_NoDup].
Qed.

Lemma InitializeConditions_NoDup r clock s :
  NoDup (CondType <$> s.1) ->
  NoDup (CondType <$> (InitializeConditions r clock s).1).
Proof.
  unfold InitializeConditions. generalize (dependents r ++ [happy r]).
  intros types. revert s. induction types as [|t types IH]; intros s Hnd; simpl;
    [exact Hnd|].
  apply IH. unfold InitializeCondition.
  destruct (GetCondition _ _); [exact Hnd|now apply store_NoDup].
Qed.

(** Two conditions of different types set one after the other, on a list
    with one condition per type. *)
Lemma SetCondition_pair now0 now1 a b cs :
  NoDup (CondType <$> cs) -> CondType a <> CondType b ->
  let cs2 := SetCondition now1 b (SetCondition now0 a cs) in
  NoDup (CondType <$> cs2)
  /\ (exists c, GetCondition cs2 (CondType a) = Some c /\ sameButTime c a)
  /\ (exists c, GetCondition cs2 (CondType b) = Some c /\ sameButTime c b)
  /\ (forall t, t <> CondType a -> t <> CondType b ->
        GetCondition cs2 t = GetCondition cs t)
  /\ (forall now0' now1', SetCondition now1' b (SetCondition now0' a cs2) = cs2).
Proof.
  intros Hnd Hab cs2.
  pose proof (SetCondition_NoDup now0 a cs Hnd) as Hnd1.
  pose proof (SetCondition_NoDup now1 b _ Hnd1) as Hnd2. fold cs2 in Hnd2.
  destruct (SetCondition_same now0 a cs Hnd) as (ca & Hca & Hsa).
  destruct (SetCondition_same now1 b _ Hnd1) as (cb & Hcb & Hsb). fold cs2 in Hcb.
  assert (Ha2 : GetCondition cs2 (CondType a) = Some ca).
  { unfold cs2. now rewrite SetCondition_other. }
  split; [exact Hnd2|]. split; [now exists ca|]. split; [now exists cb|]. split.
  - intros t Hta Htb. unfold cs2. now rewrite !SetCondition_other.
  - intros now0' now1'.
    rewrite (SetCondition_unchanged now0' a cs2 ca Ha2 Hsa).
    exact (SetCondition_unchanged now1' b cs2 cb Hcb Hsb).
Qed.

(** [InitializeCondition] stores a condition only for a type that has
    none. *)
Lemma InitializeCondition_spec r clock t s :
  NoDup (CondType <$> s.1) ->
  let s' := InitializeCondition r clock t s in
  NoDup (CondType <$> s'.1)
  /\ (forall t' c, GetCondition s.1 t' = Some c -> GetCondition s'.1 t' = Some c)
  /\ (forall t', t' <> t -> GetCondition s'.1 t' = GetCondition s.1 t')
  /\ (GetCondition s.1 t = None ->
        s'.2 = S s.2
        /\ GetCondition s'.1 t
           = Some {| CondType := t; Status := ConditionUnknown;
                     Severity := severity r t; LastTransitionTime := clock s.2;
                     Reason := ""; Message := "" |})
  /\ (GetCondition s.1 t <> None -> s' = s).
Proof.
  intros Hnd s'. unfold s', InitializeCondition.
  destruct (GetCondition _ t) as [c0|] eqn:Hget.
  - split; [exact Hnd|]. split; [auto|]. split; [auto|].
    split; [discriminate|reflexivity].
  - rewrite store_fresh by exact Hget. simpl.
    split; [now apply SetCondition_NoDup|].
    assert (Hother : forall t', t' <> t ->
               GetCondition (SetCondition (clock s.2)
                               {| CondType := t; Status := ConditionUnknown;
                                  Severity := severity r t; LastTransitionTime := 0;
                                  Reason := ""; Message := "" |} s.1) t'
               = GetCondition s.1 t').
    { intros t' Hne. now apply SetCondition_other. }
    split; [|split; [exact Hother|split; [|congruence]]].
    + intros t' c Hc. destruct (decide (t' = t)) as [Heq|Hne].
      * subst t'. pose proof (eq_trans (eq_sym Hc) Hget). discriminate.
      * now rewrite Hother.
    + intros _. split; [reflexivity|].
      apply (SetCondition_changed (clock s.2)
               {| CondType := t; Status := ConditionUnknown;
                  Severity := severity r t; LastTransitionTime := 0;
                  Reason := ""; Message := "" |} s.1 Hnd).
      intros c Hc. pose proof (eq_trans (eq_sym Hc) Hget). discriminate.
Qed.

End MarkFacts.

(** ** The marks of a ServerlessService *)

Section EndpointMarkFacts.

(** [EP] stands for [ServerlessServiceConditionEndspointsPopulated] and
    [AEP] for [ActivatorEndpointsPopulated]. *)
Variables EP AEP : apis.ConditionType.

Implicit Types (sss : ServerlessServiceStatus) (clock : nat -> Go.Time).
Implicit Types (cs : list apis.Condition) (t : apis.ConditionType).

Lemma SetConditions_same sss : SetConditions (Conditions (Status sss)) sss = sss.
Proof. now destruct sss as [[g cs]]. Qed.

Lemma serverlessServiceCondSet_eq :
  EP <> apis.ConditionReady ->
  serverlessServiceCondSet EP
  = {| apis.happy := apis.ConditionReady; apis.dependents := [EP] |}.
Proof.
  intros HEP.
  unfold serverlessServiceCondSet, apis.NewLivingConditionSet, apis.newConditionSet.
  cbn [fold_left]. rewrite bool_decide_eq_false_2 by exact HEP.
  now rewrite bool_decide_eq_false_2 by apply not_elem_of_nil.
Qed.

Lemma severity_terminal :
  EP <> apis.ConditionReady ->
  apis.severity (serverlessServiceCondSet EP) EP = apis.ConditionSeverityError
  /\ apis.severity (serverlessServiceCondSet EP) apis.ConditionReady
     = apis.ConditionSeverityError.
Proof.
  intros HEP. unfold apis.severity, apis.isTerminal.
  rewrite (serverlessServiceCondSet_eq HEP). simpl. split.
  - now rewrite bool_decide_eq_true_2 by (now left).
  - now rewrite orb_true_r.
Qed.

Lemma sameButTime_Status (c d : apis.Condition) :
  apis.sameButTime c d -> apis.Status c = apis.Status d.
Proof. intros H. exact (f_equal apis.Status H). Qed.

(** *** The conditions after an endpoint mark *)

Lemma MarkEndpointsReady_conditions clock sss :
  EP <> apis.ConditionReady -> onePerType sss ->
  exists now0 now1,
    Conditions (Status (MarkEndpointsReady EP clock sss))
    = apis.SetCondition now1
        (terminalCondition apis.ConditionReady apis.ConditionTrue "" "")
        (apis.SetCondition now0 (terminalCondition EP apis.ConditionTrue "" "")
           (Conditions (Status sss))).
Proof.
  intros HEP Hnd. destruct (severity_terminal HEP) as [HsevE HsevR].
  unfold MarkEndpointsReady, apis.MarkTrue.
  change (apis.happy (serverlessServiceCondSet EP)) with apis.ConditionReady.
  rewrite HsevE, HsevR, (serverlessServiceCondSet_eq HEP).
  cbn [SetConditions Status Conditions apis.happy apis.dependents forallb].
  fold (terminalCondition EP apis.ConditionTrue "" "").
  fold (terminalCondition apis.ConditionReady apis.ConditionTrue "" "").
  set (s1 := apis.store clock _ (apis.Manage _)).
  assert (Hs1 : s1.1 = apis.SetCondition (clock 0%nat)
                         (terminalCondition EP apis.ConditionTrue "" "")
                         (Conditions (Status sss)))
    by apply store_conditions.
  destruct (SetCondition_same (clock 0%nat)
              (terminalCondition EP apis.ConditionTrue "" "") _ Hnd)
    as (c & Hget & Hsame).
  assert (Htrue : apis.isTrue (apis.GetCondition s1.1 EP) = true).
  { rewrite Hs1. refine (eq_trans (f_equal apis.isTrue Hget) _).
    unfold apis.isTrue, apis.IsTrue. simpl.
    now rewrite (sameButTime_Status _ _ Hsame), bool_decide_eq_true_2. }
  rewrite Htrue. simpl. exists (clock 0%nat), (clock s1.2).
  rewrite <- Hs1. apply store_conditions.
Qed.

Lemma MarkEndpointsNotOwned_conditions clock kind name sss :
  EP <> apis.ConditionReady ->
  let message :=
    ("Resource " +:+ name +:+ " of type " +:+ kind +:+ " is not owned by SKS")%string in
  exists now0 now1,
    Conditions (Status (MarkEndpointsNotOwned EP clock kind name sss))
    = apis.SetCondition now1
        (terminalCondition apis.ConditionReady apis.ConditionFalse "NotOwned" message)
        (apis.SetCondition now0
           (terminalCondition EP apis.ConditionFalse "NotOwned" message)
           (Conditions (Status sss))).
Proof.
  intros HEP message. destruct (severity_terminal HEP) as [HsevE HsevR].
  unfold MarkEndpointsNotOwned, apis.MarkFalse. fold message.
  change (apis.happy (serverlessServiceCondSet EP)) with apis.ConditionReady.
  replace (apis.dependents (serverlessServiceCondSet EP)) with [EP]
    by (now rewrite (serverlessServiceCondSet_eq HEP)).
  cbn [SetConditions Status Conditions flat_map].
  rewrite bool_decide_eq_true_2 by reflexivity.
  cbn [app fold_left]. rewrite HsevE, HsevR.
  fold (terminalCondition EP apis.ConditionFalse "NotOwned" message).
  fold (terminalCondition apis.ConditionReady apis.ConditionFalse "NotOwned" message).
  eexists _, _. now rewrite !store_conditions.
Qed.

Lemma MarkEndpointsNotReady_conditions clock reason sss :
  EP <> apis.ConditionReady -> onePerType sss ->
  let message := "K8s Service is not ready"%string in
  exists now0 now1,
    Conditions (Status (MarkEndpointsNotReady EP clock reason sss))
    = apis.SetCondition now1
        (terminalCondition apis.ConditionReady apis.ConditionUnknown reason message)
        (apis.SetCondition now0
           (terminalCondition EP apis.ConditionUnknown reason message)
           (Conditions (Status sss))).
Proof.
  intros HEP Hnd message. destruct (severity_terminal HEP) as [HsevE HsevR].
  unfold MarkEndpointsNotReady, apis.MarkUnknown. fold message.
  rewrite HsevE.
  fold (terminalCondition EP apis.ConditionUnknown reason message).
  set (s1 := apis.store clock _ (apis.Manage _)).
  assert (Hs1 : s1.1 = apis.SetCondition (clock 0%nat)
                         (terminalCondition EP apis.ConditionUnknown reason message)
                         (Conditions (Status sss)))
    by apply store_conditions.
  destruct (SetCondition_same (clock 0%nat)
              (terminalCondition EP apis.ConditionUnknown reason message) _ Hnd)
    as (c & Hget & Hsame).
  assert (Hfalse : apis.isFalse (apis.GetCondition s1.1 EP) = false).
  { rewrite Hs1. refine (eq_trans (f_equal apis.isFalse Hget) _).
    unfold apis.isFalse, apis.IsFalse. simpl.
    now rewrite (sameButTime_Status _ _ Hsame), bool_decide_eq_false_2. }
  replace (apis.dependents (serverlessServiceCondSet EP)) with [EP]
    by (now rewrite (serverlessServiceCondSet_eq HEP)).
  cbn [apis.MarkUnknown_loop]. rewrite Hfalse.
  rewrite bool_decide_eq_true_2 by reflexivity. cbn [orb].
  change (apis.happy (serverlessServiceCondSet EP)) with apis.ConditionReady.
  rewrite HsevR.
  fold (terminalCondition apis.ConditionReady apis.ConditionUnknown reason message).
  cbn [SetConditions Status Conditions].
  exists (clock 0%nat), (clock s1.2). rewrite <- Hs1. apply store_conditions.
Qed.

Lemma InitializeConditions_steps clock sss :
  EP <> apis.ConditionReady ->
  Conditions (Status (InitializeConditions EP clock sss))
  = (apis.InitializeCondition (serverlessServiceCondSet EP) clock apis.ConditionReady
       (apis.InitializeCondition (serverlessServiceCondSet EP) clock EP
          (apis.Manage (Conditions (Status sss))))).1.
Proof.
  intros HEP. unfold InitializeConditions, apis.InitializeConditions.
  change (apis.happy (serverlessServiceCondSet EP)) with apis.ConditionReady.
  replace (apis.dependents (serverlessServiceCondSet EP)) with [EP]
    by (now rewrite (serverlessServiceCondSet_eq HEP)).
  reflexivity.
Qed.

(** Two conditions of different types set one after the other, on a
    status. *)
Lemma pair_mark sss sss' (a b : apis.Condition) now0 now1 :
  onePerType sss -> apis.CondType a <> apis.CondType b ->
  Conditions (Status sss')
  = apis.SetCondition now1 b (apis.SetCondition now0 a (Conditions (Status sss))) ->
  onePerType sss'
  /\ hasCondition sss' a
  /\ hasCondition sss' b
  /\ (forall t, t <> apis.CondType a -> t <> apis.CondType b ->
        GetCondition sss' t = GetCondition sss t)
  /\ (forall now0' now1',
        apis.SetCondition now1' b (apis.SetCondition now0' a (Conditions (Status sss')))
        = Conditions (Status sss')).
Proof.
  intros Hnd Hab Hshape. unfold onePerType, hasCondition, GetCondition.
  rewrite Hshape. now apply SetCondition_pair.
Qed.

Lemma IsReady_hasCondition sss (status reason message : string) :
  hasCondition sss (terminalCondition apis.ConditionReady status reason message) ->
  IsReady EP sss = bool_decide (status = apis.ConditionTrue).
Proof.
  intros (c & Hget & Hsame). unfold IsReady, apis.IsHappy.
  change (apis.happy (serverlessServiceCondSet EP)) with apis.ConditionReady.
  unfold GetCondition in Hget. simpl in Hget.
  refine (eq_trans (f_equal (fun o => match o with
                                      | Some c => apis.IsTrue c
                                      | None => false
                                      end) Hget) _).
  unfold apis.IsTrue. now rewrite (sameButTime_Status _ _ Hsame).
Qed.

(** *** The activator marks, again *)

Lemma activator_flip (status status' : string) now now' cs :
  status <> status' -> NoDup (apis.CondType <$> cs) ->
  apis.GetCondition
    (apis.SetCondition now' (activatorCondition AEP status' 0)
       (apis.SetCondition now (activatorCondition AEP status 0) cs)) AEP
  = Some (activatorCondition AEP status' now').
Proof.
  intros Hne Hnd.
  pose proof (SetCondition_NoDup now (activatorCondition AEP status 0) cs Hnd) as Hnd1.
  destruct (SetCondition_same now (activatorCondition AEP status 0) cs Hnd)
    as (c & Hget & Hsame).
  apply (SetCondition_changed now' (activatorCondition AEP status' 0) _ Hnd1).
  intros c' Hget' Hsame'.
  assert (c' = c) as -> by (pose proof (eq_trans (eq_sym Hget') Hget); congruence).
  apply Hne. pose proof (sameButTime_Status _ _ Hsame) as H1.
  pose proof (sameButTime_Status _ _ Hsame') as H2. simpl in H1, H2. congruence.
Qed.

(** X12.  An activator mark made twice is the mark made once: the second
    call finds the condition it would set and leaves the status as it is,
    transition time included, whatever the conditions of the status and
    whatever the clock reads. *)
Theorem activator_mark_twice_is_once now now' sss :
  MarkActivatorEndpointsPopulated AEP now' (MarkActivatorEndpointsPopulated AEP now sss)
  = MarkActivatorEndpointsPopulated AEP now sss
  /\ MarkActivatorEndpointsRemoved AEP now' (MarkActivatorEndpointsRemoved AEP now sss)
     = MarkActivatorEndpointsRemoved AEP now sss.
Proof.
  unfold MarkActivatorEndpointsPopulated, MarkActivatorEndpointsRemoved, SetConditions.
  simpl. now rewrite !SetCondition_twice.
Qed.

(** X13.  Of two activator marks of opposite sense the later one wins: on a
    status with one condition per type, the activator condition after
    [MarkActivatorEndpointsPopulated] then [MarkActivatorEndpointsRemoved]
    is [False], after the two in the other order [True], and its transition
    time is the reading of the clock at the later mark. *)
Theorem last_activator_mark_wins now now' sss :
  onePerType sss ->
  GetCondition
    (MarkActivatorEndpointsRemoved AEP now'
       (MarkActivatorEndpointsPopulated AEP now sss)) AEP
  = Some (activatorCondition AEP apis.ConditionFalse now')
  /\ GetCondition
       (MarkActivatorEndpointsPopulated AEP now'
          (MarkActivatorEndpointsRemoved AEP now sss)) AEP
     = Some (activatorCondition AEP apis.ConditionTrue now').
Proof.
  intros Hnd. split.
  - apply (activator_flip apis.ConditionTrue apis.ConditionFalse now now' _);
      [discriminate|exact Hnd].
  - apply (activator_flip apis.ConditionFalse apis.ConditionTrue now now' _);
      [discriminate|exact Hnd].
Qed.

(** *** One condition per type *)

(** X14.  Every mark of the lifecycle keeps the status at one condition per
    type. *)
Theorem marks_keep_one_condition_per_type clock now (kind name reason : string) sss :
  onePerType sss ->
  onePerType (InitializeConditions EP clock sss)
  /\ onePerType (MarkEndpointsReady EP clock sss)
  /\ onePerType (MarkEndpointsNotOwned EP clock kind name sss)
  /\ onePerType (MarkEndpointsNotReady EP clock reason sss)
  /\ onePerType (MarkActivatorEndpointsPopulated AEP now sss)
  /\ onePerType (MarkActivatorEndpointsRemoved AEP now sss).
Proof.
  intros Hnd. unfold onePerType in *.
  split; [now apply InitializeConditions_NoDup|].
  split; [now apply MarkTrue_NoDup|].
  split; [now apply MarkFalse_NoDup|].
  split; [now apply MarkUnknown_NoDup|].
  split; now apply SetCondition_NoDup.
Qed.

(** *** The endpoint marks and readiness *)

(** X15.  After [MarkEndpointsReady] the ServerlessService is ready: the
    endpoints condition and the [Ready] condition are both [True], and the
    reason and the message of an earlier mark are gone from both. *)
Theorem endpoints_ready_makes_ready clock sss :
  EP <> apis.ConditionReady -> onePerType sss ->
  let sss' := MarkEndpointsReady EP clock sss in
  IsReady EP sss' = true
  /\ hasCondition sss' (terminalCondition EP apis.ConditionTrue "" "")
  /\ hasCondition sss'
       (terminalCondition apis.ConditionReady apis.ConditionTrue "" "").
Proof.
  intros HEP Hnd sss'.
  destruct (MarkEndpointsReady_conditions clock sss HEP Hnd) as (now0 & now1 & Hshape).
  apply (pair_mark sss sss') in Hshape as (_ & Hep & Hready & _);
    [|exact Hnd|exact HEP].
  split; [|now split].
  now rewrite (IsReady_hasCondition _ _ _ _ Hready).
Qed.

(** X16.  After [MarkEndpointsNotOwned] the ServerlessService is not ready:
    the endpoints condition and the [Ready] condition are both [False],
    with the reason [NotOwned] and a message that names the resource and
    its kind, in this order. *)
Theorem endpoints_not_owned_makes_not_ready clock (kind name : string) sss :
  EP <> apis.ConditionReady -> onePerType sss ->
  let sss' := MarkEndpointsNotOwned EP clock kind name sss in
  let message :=
    ("Resource " +:+ name +:+ " of type " +:+ kind +:+ " is not owned by SKS")%string in
  IsReady EP sss' = false
  /\ hasCondition sss' (terminalCondition EP apis.ConditionFalse "NotOwned" message)
  /\ hasCondition sss'
       (terminalCondition apis.ConditionReady apis.ConditionFalse "NotOwned" message).
Proof.
  intros HEP Hnd sss' message.
  destruct (MarkEndpointsNotOwned_conditions clock kind name sss HEP)
    as (now0 & now1 & Hshape).
  apply (pair_mark sss sss') in Hshape as (_ & Hep & Hready & _);
    [|exact Hnd|exact HEP].
  split; [|now split].
  now rewrite (IsReady_hasCondition _ _ _ _ Hready).
Qed.

(** X17.  After [MarkEndpointsNotReady] the ServerlessService is not ready:
    the endpoints condition and the [Ready] condition are both [Unknown],
    with the reason given and the message [K8s Service is not ready], also
    when they were [False] before. *)
Theorem endpoints_not_ready_makes_unknown clock (reason : string) sss :
  EP <> apis.ConditionReady -> onePerType sss ->
  let sss' := MarkEndpointsNotReady EP clock reason sss in
  IsReady EP sss' = false
  /\ hasCondition sss'
       (terminalCondition EP apis.ConditionUnknown reason "K8s Service is not ready")
  /\ hasCondition sss'
       (terminalCondition apis.ConditionReady apis.ConditionUnknown reason
          "K8s Service is not ready").
Proof.
  intros HEP Hnd sss'.
  destruct (MarkEndpointsNotReady_conditions clock reason sss HEP Hnd)
    as (now0 & now1 & Hshape).
  apply (pair_mark sss sss') in Hshape as (_ & Hep & Hready & _);
    [|exact Hnd|exact HEP].
  split; [|now split].
  now rewrite (IsReady_hasCondition _ _ _ _ Hready).
Qed.

(** *** [InitializeConditions] *)

Lemma InitializeConditions_spec clock sss :
  EP <> apis.ConditionReady -> onePerType sss ->
  let sss' := InitializeConditions EP clock sss in
  (forall t c, GetCondition sss t = Some c -> GetCondition sss' t = Some c)
  /\ (forall t, t <> EP -> t <> apis.ConditionReady ->
        GetCondition sss' t = GetCondition sss t)
  /\ (GetCondition sss EP = None ->
        GetCondition sss' EP
        = Some (apis.set_LastTransitionTime (clock 0%nat)
                  (terminalCondition EP apis.ConditionUnknown "" "")))
  /\ (GetCondition sss apis.ConditionReady = None ->
        exists k,
          GetCondition sss' apis.ConditionReady
          = Some (apis.set_LastTransitionTime (clock k)
                    (terminalCondition apis.ConditionReady apis.ConditionUnknown "" ""))
          /\ (GetCondition sss EP = None -> k = 1%nat))
  /\ (GetCondition sss EP <> None -> GetCondition sss apis.ConditionReady <> None ->
        sss' = sss).
Proof.
  intros HEP Hnd sss'. destruct (severity_terminal HEP) as [HsevE HsevR].
  assert (Hsss' : sss' = SetConditions (Conditions (Status sss')) sss) by reflexivity.
  pose proof (InitializeConditions_steps clock sss HEP) as Hsteps. fold sss' in Hsteps.
  clearbody sss'. unfold GetCondition. rewrite Hsteps. revert Hsss' Hsteps.
  set (r := serverlessServiceCondSet EP) in *.
  set (s0 := apis.Manage (Conditions (Status sss))).
  destruct (InitializeCondition_spec r clock EP s0 Hnd) as (Hnd1 & K1 & O1 & F1 & U1).
  set (s1 := apis.InitializeCondition r clock EP s0) in *.
  destruct (InitializeCondition_spec r clock apis.ConditionReady s1 Hnd1)
    as (_ & K2 & O2 & F2 & U2).
  set (s2 := apis.InitializeCondition r clock apis.ConditionReady s1) in *.
  intros Hsss' Hsteps. rewrite HsevE in F1. rewrite HsevR in F2.
  assert (HRE : apis.ConditionReady <> EP) by congruence.
  split; [|split; [|split; [|split]]].
  - intros t c Hc. apply K2, K1. exact Hc.
  - intros t HtE HtR. refine (eq_trans (O2 t HtR) (O1 t HtE)).
  - intros Hnone. destruct (F1 Hnone) as [_ Hep]. exact (K2 _ _ Hep).
  - intros Hnone.
    assert (Hnone1 : apis.GetCondition s1.1 apis.ConditionReady = None)
      by exact (eq_trans (O1 _ HRE) Hnone).
    destruct (F2 Hnone1) as [_ Hready]. exists s1.2. split; [exact Hready|].
    intros HnoneE. now destruct (F1 HnoneE) as [-> _].
  - intros HsomeE HsomeR.
    assert (Hs1 : s1 = s0) by exact (U1 HsomeE).
    assert (Hs2 : s2 = s1).
    { apply U2. rewrite Hs1. exact HsomeR. }
    rewrite Hsss', Hsteps, Hs2, Hs1. apply SetConditions_same.
Qed.

(** X18.  On a status with one condition per type, [InitializeConditions]
    keeps every condition that the status has, each as it is, and with them
    the answer of [IsReady]; after it the status has an endpoints condition
    and a [Ready] condition, and a second call changes nothing. *)
Theorem initialize_keeps_conditions clock sss :
  EP <> apis.ConditionReady -> onePerType sss ->
  let sss' := InitializeConditions EP clock sss in
  (forall t c, GetCondition sss t = Some c -> GetCondition sss' t = Some c)
  /\ IsReady EP sss' = IsReady EP sss
  /\ GetCondition sss' EP <> None
  /\ GetCondition sss' apis.ConditionReady <> None
  /\ (forall clock', InitializeConditions EP clock' sss' = sss').
Proof.
  intros HEP Hnd sss'.
  destruct (InitializeConditions_spec clock sss HEP Hnd) as (Hkeep & _ & HE & HR & _).
  fold sss' in Hkeep, HE, HR.
  assert (HsomeE : GetCondition sss' EP <> None).
  { destruct (GetCondition sss EP) as [c|] eqn:Hget.
    - now rewrite (Hkeep _ _ Hget).
    - now rewrite (HE eq_refl). }
  assert (HsomeR : GetCondition sss' apis.ConditionReady <> None).
  { destruct (GetCondition sss apis.ConditionReady) as [c|] eqn:Hget.
    - now rewrite (Hkeep _ _ Hget).
    - destruct (HR eq_refl) as (k & -> & _). discriminate. }
  split; [exact Hkeep|]. split; [|split; [exact HsomeE|split; [exact HsomeR|]]].
  - unfold IsReady, apis.IsHappy.
    change (apis.happy (serverlessServiceCondSet EP)) with apis.ConditionReady.
    change (apis.GetCondition (Conditions (Status ?x)) ?t) with (GetCondition x t).
    destruct (GetCondition sss apis.ConditionReady) as [c|] eqn:Hget.
    + now rewrite (Hkeep _ _ Hget).
    + now destruct (HR eq_refl) as (k & -> & _).
  - intros clock'.
    assert (Hnd' : onePerType sss') by now apply InitializeConditions_NoDup.
    destruct (InitializeConditions_spec clock' sss' HEP Hnd') as (_ & _ & _ & _ & Hsame).
    now apply Hsame.
Qed.

(** X19.  On a status with one condition per type that has neither an
    endpoints condition nor a [Ready] condition, [InitializeConditions]
    creates both as [Unknown], with no reason and no message; the
    ServerlessService is not ready, and the other conditions are as
    before. *)
Theorem initialize_creates_unknown clock sss :
  EP <> apis.ConditionReady -> onePerType sss ->
  GetCondition sss EP = None -> GetCondition sss apis.ConditionReady = None ->
  let sss' := InitializeConditions EP clock sss in
  hasCondition sss' (terminalCondition EP apis.ConditionUnknown "" "")
  /\ hasCondition sss'
       (terminalCondition apis.ConditionReady apis.ConditionUnknown "" "")
  /\ IsReady EP sss' = false
  /\ (forall t, t <> EP -> t <> apis.ConditionReady ->
        GetCondition sss' t = GetCondition sss t).
Proof.
  intros HEP Hnd HnoneE HnoneR sss'.
  destruct (InitializeConditions_spec clock sss HEP Hnd) as (_ & Hother & HE & HR & _).
  fold sss' in Hother, HE, HR.
  destruct (HR HnoneR) as (k & Hready & _).
  assert (Hunknown : hasCondition sss'
            (terminalCondition apis.ConditionReady apis.ConditionUnknown "" "")).
  { eexists. split; [exact Hready|reflexivity]. }
  split; [eexists; split; [exact (HE HnoneE)|reflexivity]|].
  split; [exact Hunknown|]. split; [|exact Hother].
  now rewrite (IsReady_hasCondition _ _ _ _ Hunknown).
Qed.

(** *** What the endpoint marks leave alone, and marking again *)

(** X20.  On a status with one condition per type, the endpoint marks write
    the endpoints condition and the [Ready] condition only: the condition
    of every other type, the activator condition among them, is after the
    mark what it was before. *)
Theorem endpoint_marks_leave_other_conditions clock (kind name reason : string) sss t :
  EP <> apis.ConditionReady -> onePerType sss ->
  t <> EP -> t <> apis.ConditionReady ->
  GetCondition (MarkEndpointsReady EP clock sss) t = GetCondition sss t
  /\ GetCondition (MarkEndpointsNotOwned EP clock kind name sss) t = GetCondition sss t
  /\ GetCondition (MarkEndpointsNotReady EP clock reason sss) t = GetCondition sss t.
Proof.
  intros HEP Hnd HtE HtR. split; [|split].
  - destruct (MarkEndpointsReady_conditions clock sss HEP Hnd)
      as (now0 & now1 & Hshape).
    apply (pair_mark sss) in Hshape as (_ & _ & _ & Hother & _);
      [|exact Hnd|exact HEP].
    now apply Hother.
  - destruct (MarkEndpointsNotOwned_conditions clock kind name sss HEP)
      as (now0 & now1 & Hshape).
    apply (pair_mark sss) in Hshape as (_ & _ & _ & Hother & _);
      [|exact Hnd|exact HEP].
    now apply Hother.
  - destruct (MarkEndpointsNotReady_conditions clock reason sss HEP Hnd)
      as (now0 & now1 & Hshape).
    apply (pair_mark sss) in Hshape as (_ & _ & _ & Hother & _);
      [|exact Hnd|exact HEP].
    now apply Hother.
Qed.

(** X21.  On a status with one condition per type, an endpoint mark made
    twice with the same arguments is the mark made once: the second call
    stores nothing, so no transition time moves, whatever the clock
    reads. *)
Theorem endpoint_mark_twice_is_once clock clock' (kind name reason : string) sss :
  EP <> apis.ConditionReady -> onePerType sss ->
  MarkEndpointsReady EP clock' (MarkEndpointsReady EP clock sss)
  = MarkEndpointsReady EP clock sss
  /\ MarkEndpointsNotOwned EP clock' kind name
       (MarkEndpointsNotOwned EP clock kind name sss)
     = MarkEndpointsNotOwned EP clock kind name sss
  /\ MarkEndpointsNotReady EP clock' reason (MarkEndpointsNotReady EP clock reason sss)
     = MarkEndpointsNotReady EP clock reason sss.
Proof.
  intros HEP Hnd. split; [|split].
  - set (sss' := MarkEndpointsReady EP clock sss).
    destruct (MarkEndpointsReady_conditions clock sss HEP Hnd)
      as (now0 & now1 & Hshape).
    apply (pair_mark sss sss') in Hshape as (Hnd' & _ & _ & _ & Hagain);
      [|exact Hnd|exact HEP].
    destruct (MarkEndpointsReady_conditions clock' sss' HEP Hnd')
      as (now0' & now1' & Hshape').
    rewrite Hagain in Hshape'.
    change (MarkEndpointsReady EP clock' sss')
      with (SetConditions
              (Conditions (Status (MarkEndpointsReady EP clock' sss'))) sss').
    rewrite Hshape'. apply SetConditions_same.
  - set (sss' := MarkEndpointsNotOwned EP clock kind name sss).
    destruct (MarkEndpointsNotOwned_conditions clock kind name sss HEP)
      as (now0 & now1 & Hshape).
    apply (pair_mark sss sss') in Hshape as (Hnd' & _ & _ & _ & Hagain);
      [|exact Hnd|exact HEP].
    destruct (MarkEndpointsNotOwned_conditions clock' kind name sss' HEP)
      as (now0' & now1' & Hshape').
    rewrite Hagain in Hshape'.
    change (MarkEndpointsNotOwned EP clock' kind name sss')
      with (SetConditions
              (Conditions (Status (MarkEndpointsNotOwned EP clock' kind name sss')))
              sss').
    rewrite Hshape'. apply SetConditions_same.
  - set (sss' := MarkEndpointsNotReady EP clock reason sss).
    destruct (MarkEndpointsNotReady_conditions clock reason sss HEP Hnd)
      as (now0 & now1 & Hshape).
    apply (pair_mark sss sss') in Hshape as (Hnd' & _ & _ & _ & Hagain);
      [|exact Hnd|exact HEP].
    destruct (MarkEndpointsNotReady_conditions clock' reason sss' HEP Hnd')
      as (now0' & now1' & Hshape').
    rewrite Hagain in Hshape'.
    change (MarkEndpointsNotReady EP clock' reason sss')
      with (SetConditions
              (Conditions (Status (MarkEndpointsNotReady EP clock' reason sss')))
              sss').
    rewrite Hshape'. apply SetConditions_same.
Qed.

(** *** Sequences of calls *)

Lemma call_onePerType (c : Call) sss :
  onePerType sss -> onePerType (call EP AEP c sss).
Proof.
  intros Hnd. unfold onePerType in *. destruct c; simpl.
  - now apply InitializeConditions_NoDup.
  - now apply MarkTrue_NoDup.
  - now apply MarkFalse_NoDup.
  - now apply MarkUnknown_NoDup.
  - now apply SetCondition_NoDup.
  - now apply SetCondition_NoDup.
Qed.

Lemma calls_onePerType (cs : list Call) sss :
  onePerType sss -> onePerType (calls EP AEP cs sss).
Proof.
  revert sss. induction cs as [|c cs IH]; intros sss Hnd; [exact Hnd|].
  apply IH. now apply call_onePerType.
Qed.

Lemma hasCondition_Some sss (c0 : apis.Condition) :
  hasCondition sss c0 -> GetCondition sss (apis.CondType c0) <> None.
Proof. intros (c & Hget & _). now rewrite Hget. Qed.

(** An endpoint mark decides readiness and leaves both conditions set. *)
Lemma endpoint_mark_decides (m : Call) sss :
  EP <> apis.ConditionReady -> onePerType sss -> isEndpointMark m = true ->
  let sss' := call EP AEP m sss in
  IsReady EP sss' = match m with CallMarkEndpointsReady _ => true | _ => false end
  /\ GetCondition sss' EP <> None
  /\ GetCondition sss' apis.ConditionReady <> None.
Proof.
  intros HEP Hnd Hm. destruct m as [| clock | clock kind name | clock reason | |];
    try discriminate; simpl.
  - destruct (MarkEndpointsReady_conditions clock sss HEP Hnd)
      as (now0 & now1 & Hshape).
    apply (pair_mark sss) in Hshape as (_ & Hep & Hready & _); [|exact Hnd|exact HEP].
    split; [now rewrite (IsReady_hasCondition _ _ _ _ Hready)|].
    split; [exact (hasCondition_Some _ _ Hep)|exact (hasCondition_Some _ _ Hready)].
  - destruct (MarkEndpointsNotOwned_conditions clock kind name sss HEP)
      as (now0 & now1 & Hshape).
    apply (pair_mark sss) in Hshape as (_ & Hep & Hready & _); [|exact Hnd|exact HEP].
    split; [now rewrite (IsReady_hasCondition _ _ _ _ Hready)|].
    split; [exact (hasCondition_Some _ _ Hep)|exact (hasCondition_Some _ _ Hready)].
  - destruct (MarkEndpointsNotReady_conditions clock reason sss HEP Hnd)
      as (now0 & now1 & Hshape).
    apply (pair_mark sss) in Hshape as (_ & Hep & Hready & _); [|exact Hnd|exact HEP].
    split; [now rewrite (IsReady_hasCondition _ _ _ _ Hready)|].
    split; [exact (hasCondition_Some _ _ Hep)|exact (hasCondition_Some _ _ Hready)].
Qed.

(** A call that is no endpoint mark, on a status that has both conditions:
    both are as before. *)
Lemma other_call_keeps (c : Call) sss :
  EP <> apis.ConditionReady -> AEP <> apis.ConditionReady -> AEP <> EP ->
  onePerType sss -> isEndpointMark c = false ->
  GetCondition sss EP <> None -> GetCondition sss apis.ConditionReady <> None ->
  let sss' := call EP AEP c sss in
  GetCondition sss' EP = GetCondition sss EP
  /\ GetCondition sss' apis.ConditionReady = GetCondition sss apis.ConditionReady.
Proof.
  intros HEP HAR HAE Hnd Hc HsomeE HsomeR.
  destruct c as [clock | | | | now | now]; try discriminate; simpl.
  - destruct (InitializeConditions_spec clock sss HEP Hnd) as (_ & _ & _ & _ & Hsame).
    now rewrite (Hsame HsomeE HsomeR).
  - split; apply MarkActivatorEndpoints_frame; try exact Hnd; congruence.
  - split; apply MarkActivatorEndpoints_frame; try exact Hnd; congruence.
Qed.

(** X22.  Readiness follows the last endpoint mark: after any sequence of
    calls of the lifecycle, whatever came before the last endpoint mark,
    and whatever activator marks and initializations come after it, the
    ServerlessService is ready exactly when that mark is
    [MarkEndpointsReady]. *)
Theorem readiness_follows_last_endpoint_mark (before after : list Call) (m : Call) sss :
  EP <> apis.ConditionReady -> AEP <> apis.ConditionReady -> AEP <> EP ->
  onePerType sss ->
  isEndpointMark m = true ->
  Forall (fun c => isEndpointMark c = false) after ->
  IsReady EP (calls EP AEP (before ++ m :: after) sss)
  = match m with CallMarkEndpointsReady _ => true | _ => false end.
Proof.
  intros HEP HAR HAE Hnd Hm Hafter.
  unfold calls. rewrite fold_left_app. simpl.
  fold (calls EP AEP before sss).
  pose proof (calls_onePerType before sss Hnd) as Hnd0.
  destruct (endpoint_mark_decides m _ HEP Hnd0 Hm) as (Hready & HsomeE & HsomeR).
  pose proof (call_onePerType m _ Hnd0) as Hnd1.
  revert Hready HsomeE HsomeR Hnd1.
  generalize (call EP AEP m (calls EP AEP before sss)).
  generalize (match m with CallMarkEndpointsReady _ => true | _ => false end).
  clear Hm. intros ready.
  induction Hafter as [|c after Hc Hafter IH]; intros s1 Hready HsomeE HsomeR Hnd1;
    [exact Hready|].
  simpl.
  destruct (other_call_keeps c s1 HEP HAR HAE Hnd1 Hc HsomeE HsomeR) as [HE HR].
  apply IH.
  - rewrite <- Hready. unfold IsReady, apis.IsHappy.
    change (apis.happy (serverlessServiceCondSet EP)) with apis.ConditionReady.
    change (apis.GetCondition (Conditions (Status ?x)) ?t) with (GetCondition x t).
    now rewrite HR.
  - now rewrite HE.
  - now rewrite HR.
  - now apply call_onePerType.
Qed.

End EndpointMarkFacts.

(** ** The marks on the statuses of the examples *)

Lemma readyStatus_onePerType : onePerType readyStatus.
Proof. unfold onePerType. apply (bool_decide_unpack _). vm_compute. reflexivity. Qed.

Lemma newStatus_onePerType : onePerType newStatus.
Proof. unfold onePerType. simpl. constructor. Qed.

(** The reconciler found a service it does not own. *)
Lemma notOwned_onePerType :
  onePerType (MarkEndpointsNotOwned "EndpointsPopulated" (clockFrom 2000)
                "Service" "foo" readyStatus).
Proof. unfold onePerType. apply (bool_decide_unpack _). vm_compute. reflexivity. Qed.

Lemma last_activator_mark_wins_witness :
  let populated :=
    MarkActivatorEndpointsPopulated "ActivatorEndpointsPopulated" 900 readyStatus in
  GetCondition populated "ActivatorEndpointsPopulated"
  = Some (activatorCondition "ActivatorEndpointsPopulated" apis.ConditionTrue 900)
  /\ GetCondition
       (MarkActivatorEndpointsRemoved "ActivatorEndpointsPopulated" 950 populated)
       "ActivatorEndpointsPopulated"
     = Some (activatorCondition "ActivatorEndpointsPopulated" apis.ConditionFalse 950).
Proof.
  split; [vm_compute; reflexivity|].
  exact (proj1 (last_activator_mark_wins "ActivatorEndpointsPopulated" 900 950
                  readyStatus readyStatus_onePerType)).
Defined.

Lemma marks_keep_one_condition_per_type_witness :
  onePerType (InitializeConditions "EndpointsPopulated" (clockFrom 2000) readyStatus)
  /\ onePerType (MarkEndpointsNotReady "EndpointsPopulated" (clockFrom 2000)
                   "NoHealthyBackends" readyStatus)
  /\ onePerType
       (MarkActivatorEndpointsPopulated "ActivatorEndpointsPopulated" 900 readyStatus)
  /\ map apis.CondType
       (Conditions
          (Status (MarkActivatorEndpointsPopulated "ActivatorEndpointsPopulated" 900
                     readyStatus)))
     = [ "ActivatorEndpointsPopulated"; "EndpointsPopulated"; "Ready" ]%string.
Proof.
  destruct (marks_keep_one_condition_per_type "EndpointsPopulated"
              "ActivatorEndpointsPopulated" (clockFrom 2000) 900 "Service" "foo"
              "NoHealthyBackends" readyStatus readyStatus_onePerType)
    as (Hinit & _ & _ & Hnotready & Hpop & _).
  split; [exact Hinit|]. split; [exact Hnotready|]. split; [exact Hpop|].
  vm_compute. reflexivity.
Defined.

Lemma endpoints_ready_makes_ready_witness :
  let failed := MarkEndpointsNotOwned "EndpointsPopulated" (clockFrom 2000)
                  "Service" "foo" readyStatus in
  let sss' := MarkEndpointsReady "EndpointsPopulated" (clockFrom 3000) failed in
  IsReady "EndpointsPopulated" failed = false
  /\ IsReady "EndpointsPopulated" sss' = true
  /\ hasCondition sss' (terminalCondition apis.ConditionReady apis.ConditionTrue "" "")
  /\ (apis.LastTransitionTime <$> GetCondition sss' apis.ConditionReady) = Some 3001.
Proof.
  destruct (endpoints_ready_makes_ready "EndpointsPopulated" (clockFrom 3000)
              (MarkEndpointsNotOwned "EndpointsPopulated" (clockFrom 2000)
                 "Service" "foo" readyStatus)
              ltac:(discriminate) notOwned_onePerType)
    as (Hready & _ & Hcond).
  split; [vm_compute; reflexivity|]. split; [exact Hready|]. split; [exact Hcond|].
  vm_compute. reflexivity.
Defined.

Lemma endpoints_not_owned_makes_not_ready_witness :
  let sss' := MarkEndpointsNotOwned "EndpointsPopulated" (clockFrom 2000)
                "Service" "foo" readyStatus in
  IsReady "EndpointsPopulated" readyStatus = true
  /\ IsReady "EndpointsPopulated" sss' = false
  /\ hasCondition sss'
       (terminalCondition apis.ConditionReady apis.ConditionFalse "NotOwned"
          "Resource foo of type Service is not owned by SKS").
Proof.
  destruct (endpoints_not_owned_makes_not_ready "EndpointsPopulated" (clockFrom 2000)
              "Service" "foo" readyStatus ltac:(discriminate) readyStatus_onePerType)
    as (Hready & _ & Hcond).
  split; [vm_compute; reflexivity|]. split; [exact Hready|exact Hcond].
Defined.

Lemma endpoints_not_ready_makes_unknown_witness :
  let failed := MarkEndpointsNotOwned "EndpointsPopulated" (clockFrom 2000)
                  "Service" "foo" readyStatus in
  let sss' := MarkEndpointsNotReady "EndpointsPopulated" (clockFrom 3000)
                "NoHealthyBackends" failed in
  (apis.Status <$> GetCondition failed apis.ConditionReady) = Some apis.ConditionFalse
  /\ IsReady "EndpointsPopulated" sss' = false
  /\ hasCondition sss'
       (terminalCondition apis.ConditionReady apis.ConditionUnknown
          "NoHealthyBackends" "K8s Service is not ready").
Proof.
  destruct (endpoints_not_ready_makes_unknown "EndpointsPopulated" (clockFrom 3000)
              "NoHealthyBackends"
              (MarkEndpointsNotOwned "EndpointsPopulated" (clockFrom 2000)
                 "Service" "foo" readyStatus)
              ltac:(discriminate) notOwned_onePerType)
    as (Hready & _ & Hcond).
  split; [vm_compute; reflexivity|]. split; [exact Hready|exact Hcond].
Defined.

Lemma initialize_keeps_conditions_witness :
  let sss' := InitializeConditions "EndpointsPopulated" (clockFrom 2000) readyStatus in
  GetCondition sss' apis.ConditionReady = GetCondition readyStatus apis.ConditionReady
  /\ IsReady "EndpointsPopulated" sss' = true
  /\ InitializeConditions "EndpointsPopulated" (clockFrom 3000) sss' = sss'.
Proof.
  destruct (initialize_keeps_conditions "EndpointsPopulated" (clockFrom 2000)
              readyStatus ltac:(discriminate) readyStatus_onePerType)
    as (Hkeep & Hready & _ & _ & Hagain).
  split; [exact (Hkeep apis.ConditionReady _ eq_refl)|].
  split; [rewrite Hready; vm_compute; reflexivity|exact (Hagain (clockFrom 3000))].
Defined.

Lemma initialize_creates_unknown_witness :
  let sss' := InitializeConditions "EndpointsPopulated" (clockFrom 2000) newStatus in
  hasCondition sss' (terminalCondition "EndpointsPopulated" apis.ConditionUnknown "" "")
  /\ hasCondition sss'
       (terminalCondition apis.ConditionReady apis.ConditionUnknown "" "")
  /\ IsReady "EndpointsPopulated" sss' = false
  /\ length (Conditions (Status sss')) = 2%nat.
Proof.
  destruct (initialize_creates_unknown "EndpointsPopulated" (clockFrom 2000) newStatus
              ltac:(discriminate) newStatus_onePerType eq_refl eq_refl)
    as (Hep & Hready & Hnot & _).
  split; [exact Hep|]. split; [exact Hready|]. split; [exact Hnot|].
  vm_compute. reflexivity.
Defined.

Lemma endpoint_marks_leave_other_conditions_witness :
  let backed :=
    MarkActivatorEndpointsPopulated "ActivatorEndpointsPopulated" 900 readyStatus in
  let t := "ActivatorEndpointsPopulated"%string in
  GetCondition backed t
  = Some (activatorCondition "ActivatorEndpointsPopulated" apis.ConditionTrue 900)
  /\ GetCondition (MarkEndpointsReady "EndpointsPopulated" (clockFrom 2000) backed) t
     = GetCondition backed t
  /\ GetCondition
       (MarkEndpointsNotOwned "EndpointsPopulated" (clockFrom 2000) "Service" "foo"
          backed) t
     = GetCondition backed t
  /\ GetCondition
       (MarkEndpointsNotReady "EndpointsPopulated" (clockFrom 2000)
          "NoHealthyBackends" backed) t
     = GetCondition backed t.
Proof.
  assert (Hnd : onePerType (MarkActivatorEndpointsPopulated
                              "ActivatorEndpointsPopulated" 900 readyStatus)).
  { unfold onePerType. apply (bool_decide_unpack _). vm_compute. reflexivity. }
  split; [vm_compute; reflexivity|].
  exact (endpoint_marks_leave_other_conditions "EndpointsPopulated" (clockFrom 2000)
           "Service" "foo" "NoHealthyBackends" _ "ActivatorEndpointsPopulated"
           ltac:(discriminate) Hnd ltac:(discriminate) ltac:(discriminate)).
Defined.

Lemma endpoint_mark_twice_is_once_witness :
  let failed := MarkEndpointsNotOwned "EndpointsPopulated" (clockFrom 2000)
                  "Service" "foo" readyStatus in
  MarkEndpointsNotOwned "EndpointsPopulated" (clockFrom 3000) "Service" "foo" failed
  = failed
  /\ (apis.LastTransitionTime <$> GetCondition failed apis.ConditionReady) = Some 2001
  /\ MarkEndpointsNotOwned "EndpointsPopulated" (clockFrom 3000) "Service" "bar" failed
     <> failed.
Proof.
  destruct (endpoint_mark_twice_is_once "EndpointsPopulated" (clockFrom 2000)
              (clockFrom 3000) "Service" "foo" "NoHealthyBackends" readyStatus
              ltac:(discriminate) readyStatus_onePerType)
    as (_ & Hagain & _).
  split; [exact Hagain|]. split; [vm_compute; reflexivity|].
  vm_compute. discriminate.
Defined.

Lemma readiness_follows_last_endpoint_mark_witness :
  let reconcile :=
    [ CallInitializeConditions (clockFrom 1000);
      CallMarkEndpointsNotReady (clockFrom 2000) "NoHealthyBackends";
      CallMarkActivatorEndpointsPopulated 2500;
      CallMarkEndpointsReady (clockFrom 3000);
      CallMarkActivatorEndpointsRemoved 3500;
      CallInitializeConditions (clockFrom 4000) ] in
  let sss' := calls "EndpointsPopulated" "ActivatorEndpointsPopulated" reconcile
                newStatus in
  IsReady "EndpointsPopulated" sss' = true
  /\ map apis.Status (Conditions (Status sss'))
     = [apis.ConditionFalse; apis.ConditionTrue; apis.ConditionTrue].
Proof.
  split; [|vm_compute; reflexivity].
  apply (readiness_follows_last_endpoint_mark "EndpointsPopulated"
           "ActivatorEndpointsPopulated"
           [ CallInitializeConditions (clockFrom 1000);
             CallMarkEndpointsNotReady (clockFrom 2000) "NoHealthyBackends";
             CallMarkActivatorEndpointsPopulated 2500 ]
           [ CallMarkActivatorEndpointsRemoved 3500;
             CallInitializeConditions (clockFrom 4000) ]
           (CallMarkEndpointsReady (clockFrom 3000)) newStatus);
    try discriminate; [exact newStatus_onePerType|reflexivity|].
  repeat constructor.
Defined.
